(** * The InvokeAI model manager: registry, key codec, migration, probing,
      conversion cache and directory reconciliation.

    A shallow embedding of [invokeai/backend/model_management/model_manager.py].
    Python exceptions are values of [exn]; a method that mutates the manager
    or the disk is a function from the state before the call to an outcome
    and the state after it (mutations made before a [raise] persist, as in
    Python). *)

From Stdlib Require Import String Ascii List Bool Arith ZArith Lia.
From stdpp Require Import base strings gmap.
Import ListNotations.
Local Open Scope string_scope.
Local Open Scope list_scope.

(** ** Exceptions and outcomes *)

Inductive exn : Type :=
| AttributeError (what : string)
| KeyError (key : string)
| IndexError
| ValueError (what : string)
| TypeError (what : string)
| AssertionError (what : string)
| InvalidModelError (what : string)
| InvalidVersion (what : string)
| ExternalError (what : string)
| RecursionError
| Exception (what : string).

Inductive result (A : Type) : Type :=
| Ok (a : A)
| Raise (e : exn).
Arguments Ok {A} a.
Arguments Raise {A} e.

Definition rbind {A B} (r : result A) (k : A -> result B) : result B :=
  match r with
  | Ok a => k a
  | Raise e => Raise e
  end.

Declare Scope res_scope.
Delimit Scope res_scope with res.
Notation "x <- r ;; k" := (rbind r (fun x => k))
  (at level 100, r at next level, right associativity) : res_scope.

(** ** Python string primitives *)

Module Str.

(** [s.startswith(p)] *)
Fixpoint startswith (p s : string) : bool :=
  match p, s with
  | EmptyString, _ => true
  | String a p', String b s' => Ascii.eqb a b && startswith p' s'
  | String _ _, EmptyString => false
  end.

(** [s.startswith((p1, p2, ...))] *)
Definition startswith_any (ps : list string) (s : string) : bool :=
  existsb (fun p => startswith p s) ps.

(** [p in s] for strings: substring test. *)
Fixpoint contains (p s : string) : bool :=
  startswith p s ||
  match s with
  | EmptyString => false
  | String _ s' => contains p s'
  end.

(** [s.endswith(p)] *)
Fixpoint endswith (p s : string) : bool :=
  String.eqb p s ||
  match s with
  | EmptyString => false
  | String _ s' => endswith p s'
  end.

Definition endswith_any (ps : list string) (s : string) : bool :=
  existsb (fun p => endswith p s) ps.

(** The first occurrence of the character [c] cuts [s] in two; [None]
    when [c] does not occur. *)
Fixpoint cut (c : ascii) (s : string) : option (string * string) :=
  match s with
  | EmptyString => None
  | String a s' =>
      if Ascii.eqb a c then Some (EmptyString, s')
      else match cut c s' with
           | Some (l, r) => Some (String a l, r)
           | None => None
           end
  end.

(** [s.split(c, 1)] *)
Definition split1 (c : ascii) (s : string) : list string :=
  match cut c s with
  | Some (l, r) => [l; r]
  | None => [s]
  end.

(** [s.split(c)] *)
Fixpoint split (c : ascii) (s : string) : list string :=
  match s with
  | EmptyString => [EmptyString]
  | String a s' =>
      if Ascii.eqb a c then EmptyString :: split c s'
      else match split c s' with
           | w :: ws => String a w :: ws
           | [] => [String a EmptyString]
           end
  end.

(** [sep.join(ws)] *)
Fixpoint join (sep : string) (ws : list string) : string :=
  match ws with
  | [] => EmptyString
  | [w] => w
  | w :: ws' => w +:+ sep +:+ join sep ws'
  end.

(** [s[1:]] *)
Definition tail (s : string) : string :=
  match s with
  | EmptyString => EmptyString
  | String _ s' => s'
  end.

(** [l.index(x)] on a list of strings: position of the first occurrence. *)
Fixpoint index (x : string) (l : list string) : option nat :=
  match l with
  | [] => None
  | y :: l' => if String.eqb y x then Some 0
               else option_map S (index x l')
  end.

(** Truthiness of a string. *)
Definition nonempty (s : string) : bool :=
  match s with EmptyString => false | _ => true end.

End Str.

(** ** Model types *)

(** Modelled from the spec: [SDModelType] is declared in [model_cache.py],
    which is not under [src/].  The module docstring of [model_manager.py]
    and the data model list its values: the type of a model is one of
    diffusers, ckpt, vae, text_encoder, tokenizer, unet, scheduler,
    safety_checker, feature_extractor, lora, textual_inversion, controlnet.
    It is a string-valued enumeration: [SDModelType(s)] looks a member up by
    its value, and formatting a member in an f-string gives its value. *)
Inductive SDModelType : Type :=
| Diffusers | Ckpt | Vae | TextEncoder | Tokenizer | UNet | Scheduler
| SafetyChecker | FeatureExtractor | Lora | TextualInversion | ControlNet.

Definition SDModelType_eqb (a b : SDModelType) : bool :=
  match a, b with
  | Diffusers, Diffusers | Ckpt, Ckpt | Vae, Vae | TextEncoder, TextEncoder
  | Tokenizer, Tokenizer | UNet, UNet | Scheduler, Scheduler
  | SafetyChecker, SafetyChecker | FeatureExtractor, FeatureExtractor
  | Lora, Lora | TextualInversion, TextualInversion
  | ControlNet, ControlNet => true
  | _, _ => false
  end.

Definition all_model_types : list SDModelType :=
  [Diffusers; Ckpt; Vae; TextEncoder; Tokenizer; UNet; Scheduler;
   SafetyChecker; FeatureExtractor; Lora; TextualInversion; ControlNet].

(** [model_type.value], which is also [f"{model_type}"]. *)
Definition SDModelType_value (t : SDModelType) : string :=
  match t with
  | Diffusers => "diffusers"
  | Ckpt => "ckpt"
  | Vae => "vae"
  | TextEncoder => "text_encoder"
  | Tokenizer => "tokenizer"
  | UNet => "unet"
  | Scheduler => "scheduler"
  | SafetyChecker => "safety_checker"
  | FeatureExtractor => "feature_extractor"
  | Lora => "lora"
  | TextualInversion => "textual_inversion"
  | ControlNet => "controlnet"
  end.

(** [SDModelType(s)]: lookup by value, [ValueError] when no member has it. *)
Definition SDModelType_of_value (s : string) : result SDModelType :=
  match List.find (fun t => String.eqb (SDModelType_value t) s) all_model_types with
  | Some t => Ok t
  | None => Raise (ValueError s)
  end.

(** ** Key codec *)

Definition slash : ascii := "/"%char.

(** [create_key]: [f"{model_type}/{model_name}"] *)
Definition create_key (model_name : string) (model_type : SDModelType) : string :=
  SDModelType_value model_type +:+ "/" +:+ model_name.

(** [parse_key]: the tuple assignment from [split('/', 1)] raises
    [ValueError] unless the split has two pieces; a prefix that is not a
    model type is reported as a plain [Exception]. *)
Definition parse_key (model_key : string) : result (string * SDModelType) :=
  match Str.split1 slash model_key with
  | [model_type_str; model_name] =>
      match SDModelType_of_value model_type_str with
      | Ok model_type => Ok (model_name, model_type)
      | Raise _ => Raise (Exception ("Unknown model type: " +:+ model_type_str))
      end
  | _ => Raise (ValueError "not enough values to unpack (expected 2, got 1)")
  end.

(** ** Descriptor documents (OmegaConf) *)

(** A node of the configuration document.  [VDict] is a [DictConfig]: an
    ordered mapping with string keys. *)
#[warnings="-register-all"]
Inductive value : Type :=
| VNone
| VBool (b : bool)
| VInt (z : Z)
| VStr (s : string)
| VDict (d : list (string * value)).

Abbreviation DictConfig := (list (string * value)).

(** Python truthiness. *)
Definition truthy (v : value) : bool :=
  match v with
  | VNone => false
  | VBool b => b
  | VInt z => negb (Z.eqb z 0)
  | VStr s => Str.nonempty s
  | VDict d => match d with [] => false | _ => true end
  end.

(** [isinstance(v, DictConfig)] *)
Definition is_DictConfig (v : value) : bool :=
  match v with VDict _ => true | _ => false end.

Module Dict.

(** [d[k]] as an option *)
Fixpoint lookup (k : string) (d : DictConfig) : option value :=
  match d with
  | [] => None
  | (k', v) :: d' => if String.eqb k' k then Some v else lookup k d'
  end.

(** [k in d] *)
Definition mem (k : string) (d : DictConfig) : bool :=
  match lookup k d with Some _ => true | None => false end.

(** [d.get(k)]: [None] when the key is missing. *)
Definition get (k : string) (d : DictConfig) : value :=
  match lookup k d with Some v => v | None => VNone end.

(** [d.get(k, dflt)] *)
Definition get_default (k : string) (dflt : value) (d : DictConfig) : value :=
  match lookup k d with Some v => v | None => dflt end.

(** [d[k] = v]: an existing key keeps its position, a new one goes last. *)
Fixpoint set (k : string) (v : value) (d : DictConfig) : DictConfig :=
  match d with
  | [] => [(k, v)]
  | (k', v') :: d' =>
      if String.eqb k' k then (k, v) :: d' else (k', v') :: set k v d'
  end.

(** [d.pop(k, None)], the mapping that is left. *)
Fixpoint remove (k : string) (d : DictConfig) : DictConfig :=
  match d with
  | [] => []
  | (k', v') :: d' =>
      if String.eqb k' k then remove k d' else (k', v') :: remove k d'
  end.

Definition keys (d : DictConfig) : list string := List.map fst d.

(** [d.update({k: v})] *)
Definition update1 := set.

End Dict.

(** ** Paths (pathlib, POSIX flavour) *)

Record Path : Type := mkPath { anchored : bool; parts : list string }.

#[global] Instance Path_eq_dec : EqDecision Path.
Proof. solve_decision. Defined.

Module Pathlib.

(** [Path(s)]: empty components and "." are dropped; a leading slash
    makes the path absolute. *)
Definition of_string (s : string) : Path :=
  {| anchored := Str.startswith "/" s;
     parts := List.filter (fun w => Str.nonempty w && negb (String.eqb w "."))
                          (Str.split slash s) |}.

(** [str(p)] *)
Definition to_string (p : Path) : string :=
  if anchored p then "/" +:+ Str.join "/" (parts p)
  else match parts p with
       | [] => "."
       | ps => Str.join "/" ps
       end.

(** [p / q] *)
Definition joinpath (p q : Path) : Path :=
  if anchored q then q
  else {| anchored := anchored p; parts := parts p ++ parts q |}.

(** [p / s] for a string [s] *)
Definition join_str (p : Path) (s : string) : Path := joinpath p (of_string s).

(** [p.name] *)
Definition name (p : Path) : string := List.last (parts p) "".

(** [p.parent] *)
Definition parent (p : Path) : Path :=
  {| anchored := anchored p; parts := List.removelast (parts p) |}.

(** The last occurrence of [c] cuts [s] in two. *)
Fixpoint rcut (c : ascii) (s : string) : option (string * string) :=
  match s with
  | EmptyString => None
  | String a s' =>
      match rcut c s' with
      | Some (l, r) => Some (String a l, r)
      | None => if Ascii.eqb a c then Some (EmptyString, s') else None
      end
  end.

(** The suffix of a file name: from its last dot, unless that dot is the
    first or the last character ([0 < i < len(name) - 1]). *)
Definition name_suffix (nm : string) : string :=
  match rcut "."%char nm with
  | Some (l, r) => if Str.nonempty l && Str.nonempty r then "." +:+ r else ""
  | None => ""
  end.

Definition name_stem (nm : string) : string :=
  match rcut "."%char nm with
  | Some (l, r) => if Str.nonempty l && Str.nonempty r then l else nm
  | None => nm
  end.

(** [p.suffix], [p.stem] *)
Definition suffix (p : Path) : string := name_suffix (name p).
Definition stem (p : Path) : string := name_stem (name p).

(** [p.with_suffix(sfx)] *)
Definition with_suffix (sfx : string) (p : Path) : result Path :=
  if Str.contains "/" sfx
     || (Str.nonempty sfx && negb (Str.startswith "." sfx))
     || String.eqb sfx "."
  then Raise (ValueError "Invalid suffix")
  else if negb (Str.nonempty (name p)) then Raise (ValueError "empty name")
  else Ok {| anchored := anchored p;
             parts := List.removelast (parts p) ++ [stem p +:+ sfx] |}.

Definition is_absolute (p : Path) : bool := anchored p.

(** [os.path.join(a, b)] on strings *)
Definition os_path_join (a b : string) : string :=
  if Str.startswith "/" b then b
  else if negb (Str.nonempty a) || Str.endswith "/" a then a +:+ b
  else a +:+ "/" +:+ b.

End Pathlib.

(** ** The operating system interface *)

(** What the manager asks of the disk.  [os_walk] lists a tree top-down as
    [(root, dirs, files)] triples; the other operations are those of
    [pathlib], [os] and [shutil] that the source calls. *)
Class FileSystem (D : Type) : Type := {
  path_exists : D -> Path -> bool;
  path_is_file : D -> Path -> bool;
  path_is_dir : D -> Path -> bool;
  os_walk : D -> string -> list (string * list string * list string);
  path_rglob : D -> Path -> string -> list Path;
  path_unlink_missing_ok : D -> Path -> result D;
  shutil_rmtree_ignore_errors : D -> Path -> D;
  os_replace : D -> Path -> Path -> result D;
  write_text : D -> Path -> string -> result D;
  mkdir_parents_exist_ok : D -> Path -> result D
}.

(** Modelled from the spec: [InvokeAIAppConfig] is declared in
    [invokeai/app/services/config.py], which is not under [src/]; the design
    notes describe it as the configuration object holding the root directory
    and the converted-artifacts directory.  These are the attributes the
    manager reads. *)
Record InvokeAIAppConfig : Type := {
  root_dir : Path;
  models_path : Path;
  converted_ckpts_dir : Path;
  legacy_conf_path : Path;
  cache_dir : Path;
  ckpt_convert : bool
}.

(** The schema version this code writes. *)
Definition CONFIG_FILE_VERSION : string := "3.0.0".

Inductive SDLegacyType : Type :=
| V1 | V1_INPAINT | V2 | V2_e | V2_v | UNKNOWN.

(** ** Legacy checkpoints *)

(** The shape of a tensor ([torch.Size]). *)
Abbreviation Shape := (list Z).

(** A checkpoint as the loaders give it: a dictionary that may hold the
    training step under [global_step], may hold the tensors under
    [state_dict], and otherwise holds tensors at its top level.  Of a tensor
    only the shape is read. *)
Record Checkpoint : Type := {
  global_step : option Z;
  state_dict : option (gmap string Shape);
  tensors : gmap string Shape
}.

(** [shape[-1]] and [shape[1]] *)
Definition last_dim (s : Shape) : result Z :=
  match last s with
  | Some d => Ok d
  | None => Raise IndexError
  end.

Definition dim_at (i : nat) (s : Shape) : result Z :=
  match s !! i with
  | Some d => Ok d
  | None => Raise IndexError
  end.

(** [checkpoint.get("state_dict") or checkpoint]: an empty dictionary is
    falsy. *)
Definition effective_state_dict (checkpoint : Checkpoint) : gmap string Shape :=
  match state_dict checkpoint with
  | Some sd => if decide (sd = ∅) then tensors checkpoint else sd
  | None => tensors checkpoint
  end.

Definition attn2_key : string :=
  "model.diffusion_model.input_blocks.2.1.transformer_blocks.0.attn2.to_k.weight".

Definition conv_in_key : string :=
  "model.diffusion_model.input_blocks.0.0.weight".

(** [sd[key]] *)
Definition getitem (sd : gmap string Shape) (key : string) : result Shape :=
  match sd !! key with
  | Some t => Ok t
  | None => Raise (KeyError key)
  end.

(** [try: body  except KeyError: return UNKNOWN] *)
Definition except_KeyError (body : result SDLegacyType) : result SDLegacyType :=
  match body with
  | Raise (KeyError _) => Ok UNKNOWN
  | r => r
  end.

(** [probe_model_type] *)
Definition probe_model_type (checkpoint : Checkpoint) : result SDLegacyType :=
  let global_step := global_step checkpoint in
  let state_dict := effective_state_dict checkpoint in
  except_KeyError
    (is_v2 <- match state_dict !! attn2_key with
              | Some t => (d <- last_dim t ;; Ok (d =? 1024)%Z)
              | None => Ok false
              end ;;
     if is_v2 then
       match global_step with
       | Some step =>
           if (step =? 220000)%Z then Ok V2_e
           else if (step =? 110000)%Z then Ok V2_v
           else Ok V2
       | None => Ok V2
       end
     else
       t <- getitem state_dict conv_in_key ;;
       in_channels <- dim_at 1 t ;;
       if (in_channels =? 9)%Z then Ok V1_INPAINT
       else if (in_channels =? 4)%Z then Ok V1
       else Ok UNKNOWN)%res.

(** ** External collaborators *)

(** Where a model lives: a local path, a repository identifier, or nothing. *)
Inductive location : Type :=
| LocPath (p : Path)
| LocRepo (repo_id : string)
| LocValue (v : value)
| LocNone.

(** The arguments of one call of [convert_ckpt_to_diffusers]. *)
Record ConvertCall (Vae : Type) : Type := {
  cv_checkpoint_path : Path;
  cv_dump_path : Path;
  cv_extract_ema : bool;
  cv_original_config_file : option Path;
  cv_vae : option Vae;
  cv_vae_path : option string;
  cv_scan_needed : bool
}.
Arguments cv_checkpoint_path {Vae}.
Arguments cv_dump_path {Vae}.
Arguments cv_extract_ema {Vae}.
Arguments cv_original_config_file {Vae}.
Arguments cv_vae {Vae}.
Arguments cv_vae_path {Vae}.
Arguments cv_scan_needed {Vae}.

(** The collaborators the manager calls but does not define: the model
    cache ([ModelCache.get_model(...).model], [ModelCache.scan_model]), the
    checkpoint converter, the YAML printer of OmegaConf, the Hugging Face
    cache cleaner, the downloader, the loaders of torch and safetensors and
    the process-wide configuration.  Each may fail; those that write may
    change the disk. *)
Class Collaborators (D : Type) : Type := {
  AutoencoderKL : Type;
  globals : InvokeAIAppConfig;
  cache_get_model : location -> SDModelType -> D -> result AutoencoderKL * D;
  convert_ckpt_to_diffusers : ConvertCall AutoencoderKL -> D -> result unit * D;
  OmegaConf_to_yaml : DictConfig -> string;
  hf_delete_repo_revisions : string -> D -> result unit * D;
  path_resolve : D -> Path -> Path;
  download_with_resume : string -> Path -> D -> result (option Path) * D;
  torch_load : Path -> D -> result Checkpoint;
  safetensors_load_file : Path -> D -> result Checkpoint;
  cache_scan_model : Path -> D -> result unit
}.

(** ** The manager and its methods *)

Inductive log_level : Type := DEBUG | INFO | WARNING | ERROR.

Section Manager.

Context {D : Type} `{FS : FileSystem D} `{EXT : Collaborators D}.

(** The state a method can read and change: the fields of the
    [ModelManager] object, the disk, the log, and (as a record of what
    happened) the calls made to the checkpoint converter. *)
Record Manager : Type := {
  config : DictConfig;
  config_path : option string;
  disk : D;
  logged : list (log_level * string);
  converter_calls : list (ConvertCall AutoencoderKL)
}.

Definition M (A : Type) : Type := Manager -> result A * Manager.

Definition ret {A} (a : A) : M A := fun m => (Ok a, m).

Definition raise {A} (e : exn) : M A := fun m => (Raise e, m).

Definition bind {A B} (c : M A) (k : A -> M B) : M B :=
  fun m => match c m with
           | (Ok a, m') => k a m'
           | (Raise e, m') => (Raise e, m')
           end.

Definition lift {A} (r : result A) : M A := fun m => (r, m).

Definition get_config : M DictConfig := fun m => (Ok (config m), m).

Definition with_config (c : DictConfig) (m : Manager) : Manager :=
  {| config := c; config_path := config_path m; disk := disk m;
     logged := logged m; converter_calls := converter_calls m |}.

Definition with_disk (d : D) (m : Manager) : Manager :=
  {| config := config m; config_path := config_path m; disk := d;
     logged := logged m; converter_calls := converter_calls m |}.

Definition put_config (c : DictConfig) : M unit :=
  fun m => (Ok tt, with_config c m).

Definition get_disk : M D := fun m => (Ok (disk m), m).

Definition put_disk (d : D) : M unit :=
  fun m => (Ok tt, with_disk d m).

Definition get_config_path : M (option string) :=
  fun m => (Ok (config_path m), m).

(** [self.logger.<level>(msg)] *)
Definition log (lvl : log_level) (msg : string) : M unit :=
  fun m => (Ok tt, {| config := config m; config_path := config_path m;
                      disk := disk m; logged := (logged m ++ [(lvl, msg)])%list;
                      converter_calls := converter_calls m |}).

Definition record_conversion (c : ConvertCall AutoencoderKL) : M unit :=
  fun m => (Ok tt, {| config := config m; config_path := config_path m;
                      disk := disk m; logged := logged m;
                      converter_calls := (converter_calls m ++ [c])%list |}).

(** A collaborator that may fail and may change the disk; what it did to
    the disk stays done when it raises. *)
Definition on_disk {A} (f : D -> result A * D) : M A :=
  fun m => let '(r, d) := f (disk m) in (r, with_disk d m).

(** A disk operation that either fails leaving the disk as it was or
    gives the new disk. *)
Definition disk_op (f : D -> result D) : M unit :=
  fun m => match f (disk m) with
           | Ok d => put_disk d m
           | Raise e => (Raise e, m)
           end.

(** [try: c  except Exception: h] *)
Definition try_except {A} (c : M A) (h : exn -> M A) : M A :=
  fun m => match c m with
           | (Ok a, m') => (Ok a, m')
           | (Raise e, m') => h e m'
           end.

End Manager.

Arguments Manager D {EXT}.
Arguments M D {EXT} A.

Declare Scope mgr_scope.
Delimit Scope mgr_scope with mgr.
Notation "x <- c ;; k" := (bind c (fun x => k))
  (at level 100, c at next level, right associativity) : mgr_scope.
Notation "c ;;; k" := (bind c (fun _ => k))
  (at level 100, right associativity) : mgr_scope.

(** ** Default flags *)

(** A descriptor carries [default=true]: what [default_model] tests with
    [self.config[model_key].get("default")]. *)
Definition is_default (v : value) : bool :=
  match v with
  | VDict d => truthy (Dict.get "default" d)
  | _ => false
  end.

(** The type a key names, when the key decodes. *)
Definition key_has_type (t : SDModelType) (key : string) : bool :=
  match parse_key key with
  | Ok (_, t') => SDModelType_eqb t t'
  | Raise _ => false
  end.

(** The keys of the descriptors that carry the default flag, in the whole
    store and among the descriptors of one type. *)
Definition default_keys (cfg : DictConfig) : list string :=
  List.map fst (List.filter (fun kv => is_default (snd kv)) cfg).

Definition default_keys_of_type (t : SDModelType) (cfg : DictConfig)
  : list string :=
  List.filter (key_has_type t) (default_keys cfg).


Section Methods.

Context {D : Type} `{FS : FileSystem D} `{EXT : Collaborators D}.
Local Open Scope mgr_scope.

Abbreviation M := (M D).

(** [for x in l: body(x)] *)
Fixpoint for_each {A} (l : list A) (body : A -> M unit) : M unit :=
  match l with
  | [] => ret tt
  | x :: l' => body x ;;; for_each l' body
  end.

(** [model_exists] *)
Definition model_exists (model_name : string) (model_type : SDModelType)
  : M bool :=
  cfg <- get_config ;;
  ret (Dict.mem (create_key model_name model_type) cfg).

(** The list comprehension of [model_names]: the keys whose value is a
    [DictConfig], each decoded by [parse_key], in the order of the
    document.  The first key that does not decode raises. *)
Fixpoint parse_stanza_keys (cfg : DictConfig)
  : result (list (string * SDModelType)) :=
  match cfg with
  | [] => Ok []
  | (x, v) :: rest =>
      if is_DictConfig v then
        match parse_key x with
        | Ok p => match parse_stanza_keys rest with
                  | Ok ps => Ok (p :: ps)
                  | Raise e => Raise e
                  end
        | Raise e => Raise e
        end
      else parse_stanza_keys rest
  end.

Definition model_names : M (list (string * SDModelType)) :=
  cfg <- get_config ;;
  lift (parse_stanza_keys cfg).

(** [config[key]] when the statement goes on to use it as a stanza:
    [KeyError] for a missing key, [AttributeError] for a value that is not
    a mapping. *)
Definition stanza_at (key : string) : M DictConfig :=
  cfg <- get_config ;;
  match Dict.lookup key cfg with
  | None => raise (KeyError key)
  | Some (VDict d) => ret d
  | Some _ => raise (AttributeError key)
  end.

(** [config[key].pop(field, None)] *)
Definition stanza_pop (key field : string) : M unit :=
  d <- stanza_at key ;;
  cfg <- get_config ;;
  put_config (Dict.set key (VDict (Dict.remove field d)) cfg).

(** [config[key][field] = v] *)
Definition stanza_set (key field : string) (v : value) : M unit :=
  cfg <- get_config ;;
  match Dict.lookup key cfg with
  | None => raise (KeyError key)
  | Some (VDict d) => put_config (Dict.set key (VDict (Dict.set field v d)) cfg)
  | Some _ => raise (TypeError "object does not support item assignment")
  end.

(** The loop of [set_default_model].  Its loop variables are called
    [model_name] and [model_type], like the parameters of the method: each
    iteration rebinds them, and [cur] is their binding when the loop ends. *)
Fixpoint clear_defaults (names : list (string * SDModelType))
    (cur : string * SDModelType) : M (string * SDModelType) :=
  match names with
  | [] => ret cur
  | (model_name, model_type) :: rest =>
      let key := create_key model_name model_type in
      stanza_pop key "default" ;;;
      clear_defaults rest (model_name, model_type)
  end.

(** [set_default_model] *)
Definition set_default_model (model_name : string) (model_type : SDModelType)
  : M unit :=
  known <- model_exists model_name model_type ;;
  if negb known then
    raise (AssertionError ("unknown model '" +:+ model_name +:+ "'"))
  else
    names <- model_names ;;
    cur <- clear_defaults names (model_name, model_type) ;;
    let '(model_name, model_type) := cur in
    stanza_set (create_key model_name model_type) "default" (VBool true).

(** Every name bound in the body of [class ModelManager(object)] or
    assigned on [self] by [__init__].  The class defines neither
    [__getattr__] nor [__getattribute__], so these and the attributes of
    [object] are all an instance has. *)
Definition ModelManager_attributes : list string :=
  ["logger"; "__init__"; "model_exists"; "create_key"; "parse_key";
   "get_model"; "default_model"; "set_default_model"; "model_info";
   "model_names"; "is_legacy"; "list_models"; "print_models"; "del_model";
   "add_model"; "import_diffuser_model"; "import_lora"; "import_embedding";
   "probe_model_type"; "heuristic_import"; "convert_ckpt_and_cache";
   "convert_vae_ckpt_and_cache"; "_get_vae_for_conversion";
   "convert_and_import"; "search_models"; "commit"; "preamble";
   "_delete_model_from_cache"; "_abs_path"; "_resolve_path";
   "_update_config_file_version"; "_delete_defunct_models";
   "scan_models_directory"; "list_lora_models"; "install_lora_models";
   "delete_lora_models"; "list_ti_models"; "install_ti_models";
   "delete_ti_models"; "list_controlnet_models";
   "install_controlnet_models"; "delete_controlnet_models";
   "config_path"; "config"; "globals"; "cache"; "cache_keys"].

(** [self.<attr>]: the lookup raises [AttributeError] when the manager
    has no such attribute. *)
Definition self_getattr (attr : string) : M unit :=
  if existsb (String.eqb attr) ModelManager_attributes then ret tt
  else raise (AttributeError
                ("'ModelManager' object has no attribute '" +:+ attr +:+ "'")).

(** [<mapping>.pop(key, None)] on the store. *)
Definition config_pop (key : string) : M value :=
  cfg <- get_config ;;
  put_config (Dict.remove key cfg) ;;;
  ret (Dict.get key cfg).

(** [_abs_path]: [None] and absolute paths are returned as they are. *)
Definition _abs_path (path : value) : M (option Path) :=
  match path with
  | VNone => ret None
  | VStr s =>
      let p := Pathlib.of_string s in
      if Pathlib.is_absolute p then ret (Some p)
      else d <- get_disk ;;
           ret (Some (path_resolve d (Pathlib.joinpath (root_dir globals) p)))
  | _ => raise (TypeError "expected str, bytes or os.PathLike object")
  end.

(** [_delete_model_from_cache] *)
Definition _delete_model_from_cache (repo_id : string) : M unit :=
  on_disk (hf_delete_repo_revisions repo_id) ;;;
  log WARNING "Deletion of this model is expected to free space".

(** [Path(x)] of a path that [_abs_path] returned. *)
Definition as_path (p : option Path) : M Path :=
  match p with
  | Some p => ret p
  | None => raise (TypeError "expected str, bytes or os.PathLike object, not NoneType")
  end.

(** The part of [del_model] that follows [model_cfg = self.pop(...)]. *)
Definition del_model_files (model_cfg : DictConfig) : M unit :=
  path <- _abs_path (Dict.get "path" model_cfg) ;;
  weights <- _abs_path (Dict.get "weights" model_cfg) ;;
  if Dict.mem "weights" model_cfg then
    weights <- _abs_path (Dict.get "weights" model_cfg) ;;
    weights <- as_path weights ;;
    log INFO ("Deleting file " +:+ Pathlib.to_string weights) ;;;
    disk_op (fun d => path_unlink_missing_ok d weights)
  else if Dict.mem "path" model_cfg then
    path <- _abs_path (Dict.get "path" model_cfg) ;;
    path <- as_path path ;;
    log INFO ("Deleting directory " +:+ Pathlib.to_string path) ;;;
    d <- get_disk ;;
    put_disk (shutil_rmtree_ignore_errors d path)
  else if Dict.mem "repo_id" model_cfg then
    match Dict.get "repo_id" model_cfg with
    | VStr repo_id =>
        log INFO ("Deleting the cached model directory for " +:+ repo_id) ;;;
        _delete_model_from_cache repo_id
    | _ =>
        log INFO "Deleting the cached model directory" ;;;
        _delete_model_from_cache ""
    end
  else ret tt.

(** [del_model].  Its first statement is
    [model_cfg = self.pop(model_key, None)]: [pop] is looked up on the
    manager itself, not on [self.config], and the lookup comes before the
    call.  The rest of the method follows, with [model_cfg] as a mapping's
    [pop] gives it. *)
Definition del_model (model_name : string) (model_type : SDModelType)
    (delete_files : bool) : M unit :=
  let model_key := create_key model_name model_type in
  self_getattr "pop" ;;;
  model_cfg <- config_pop model_key ;;
  match model_cfg with
  | VNone =>
      log ERROR ("Unknown model " +:+ model_key)
  | VDict model_cfg =>
      if delete_files then del_model_files model_cfg else ret tt
  | _ =>
      if delete_files
      then raise (AttributeError "object has no attribute 'get'")
      else ret tt
  end.

End Methods.

(** ** Conversion of legacy checkpoints *)

(** A VAE checkpoint given as a path object or as the string of the
    descriptor. *)
Inductive PathOrStr : Type :=
| PPath (p : Path)
| PStr (s : string).

Definition FALLBACK_VAE : string := "stabilityai/sd-vae-ft-mse".

Section Conversion.

Context {D : Type} `{FS : FileSystem D} `{EXT : Collaborators D}.
Local Open Scope mgr_scope.

Abbreviation M := (M D).

(** [mconfig.<field>] on a [DictConfig]: a missing key is an error of the
    attribute access (OmegaConf 2.1 and later). *)
Definition dc_getattr (field : string) (mconfig : DictConfig) : result value :=
  match Dict.lookup field mconfig with
  | Some v => Ok v
  | None => Raise (AttributeError ("Missing key " +:+ field))
  end.

(** [p / v] for a value of the document: only a string will do. *)
Definition join_value (p : Path) (v : value) : result Path :=
  match v with
  | VStr s => Ok (Pathlib.join_str p s)
  | _ => Raise (TypeError "unsupported operand type(s) for /")
  end.

(** [weights.with_suffix(f".vae.{suffix}")] *)
Definition vae_sibling (weights : Path) (suffix : string) : result Path :=
  Pathlib.with_suffix (".vae." +:+ suffix) weights.

(** The loop over the three suffixes: there is no [break], a later match
    replaces an earlier one. *)
Fixpoint find_vae_sibling (suffixes : list string) (weights : Path)
    (vae_ckpt_path : option Path) : M (option Path) :=
  match suffixes with
  | [] => ret vae_ckpt_path
  | suffix :: rest =>
      candidate <- lift (vae_sibling weights suffix) ;;
      d <- get_disk ;;
      if path_exists d candidate then
        log DEBUG ("Using VAE file " +:+ Pathlib.name candidate) ;;;
        find_vae_sibling rest weights (Some candidate)
      else find_vae_sibling rest weights vae_ckpt_path
  end.

(** [self.cache.get_model(location, SDModelType.Vae).model] *)
Definition load_vae (loc : location) : M AutoencoderKL :=
  on_disk (cache_get_model loc Vae).

(** [root_dir / vae_config.get('path') if vae_config.get('path') else
    vae_config.get('repo_id')], and whether it is truthy. *)
Definition vae_diffusers_location (vae_config : DictConfig)
  : result (option location) :=
  let p := Dict.get "path" vae_config in
  if truthy p then
    match join_value (root_dir globals) p with
    | Ok q => Ok (Some (LocPath q))
    | Raise e => Raise e
    end
  else
    let r := Dict.get "repo_id" vae_config in
    if truthy r then
      Ok (Some (match r with VStr s => LocRepo s | v => LocValue v end))
    else Ok None.

(** [_get_vae_for_conversion] *)
Definition _get_vae_for_conversion (weights : Path) (mconfig : DictConfig)
  : M (option PathOrStr * option AutoencoderKL) :=
  vae_ckpt_path <- find_vae_sibling ["pt"; "ckpt"; "safetensors"] weights None ;;
  match vae_ckpt_path with
  | Some p => ret (Some (PPath p), None)
  | None =>
      let vae_config := Dict.get "vae" mconfig in
      let fallback :=
        (vae_model <- load_vae (LocRepo FALLBACK_VAE) ;;
         ret (None, Some vae_model)) in
      match vae_config with
      | VStr s =>
          if truthy vae_config then ret (Some (PStr s), None) else fallback
      | VDict vae_dict =>
          if truthy vae_config then
            loc <- lift (vae_diffusers_location vae_dict) ;;
            match loc with
            | Some loc =>
                vae_model <- load_vae loc ;;
                ret (None, Some vae_model)
            | None => ret (None, None)
            end
          else fallback
      | _ => fallback
      end
  end.

(** [str(root_dir / vae_ckpt_path) if vae_ckpt_path else None] *)
Definition vae_path_argument (vae_ckpt_path : option PathOrStr) : option string :=
  match vae_ckpt_path with
  | Some (PPath p) =>
      Some (Pathlib.to_string (Pathlib.joinpath (root_dir globals) p))
  | Some (PStr s) =>
      if Str.nonempty s
      then Some (Pathlib.to_string (Pathlib.join_str (root_dir globals) s))
      else None
  | None => None
  end.

(** The directory a converted checkpoint is kept in. *)
Definition converted_path (weights : Path) : Path :=
  Pathlib.join_str (converted_ckpts_dir globals) (Pathlib.stem weights).

(** [convert_ckpt_and_cache] *)
Definition convert_ckpt_and_cache (mconfig : DictConfig) : M Path :=
  w <- lift (dc_getattr "weights" mconfig) ;;
  weights <- lift (join_value (root_dir globals) w) ;;
  c <- lift (dc_getattr "config" mconfig) ;;
  config_file <- lift (join_value (root_dir globals) c) ;;
  let diffusers_path := converted_path weights in
  d <- get_disk ;;
  if path_exists d diffusers_path then ret diffusers_path
  else
    vae <- _get_vae_for_conversion weights mconfig ;;
    let '(vae_ckpt_path, vae_model) := vae in
    let call := {| cv_checkpoint_path := weights;
                   cv_dump_path := diffusers_path;
                   cv_extract_ema := true;
                   cv_original_config_file := Some config_file;
                   cv_vae := vae_model;
                   cv_vae_path := vae_path_argument vae_ckpt_path;
                   cv_scan_needed := true |} in
    record_conversion call ;;;
    on_disk (convert_ckpt_to_diffusers call) ;;;
    ret diffusers_path.

End Conversion.

(** ** A disk as a tree *)

(** An instance of the operating system interface: a disk is a tree of
    directories and files, relative paths are taken from its root, and there
    are no links.  It is the disk of the examples. *)
Module DiskTree.

#[warnings="-register-all"]
Inductive node : Type :=
| File (content : string)
| Dir (entries : list (string * node)).

Fixpoint entry (nm : string) (es : list (string * node)) : option node :=
  match es with
  | [] => None
  | (nm', n) :: es' => if String.eqb nm' nm then Some n else entry nm es'
  end.

Fixpoint set_entry (nm : string) (n : node) (es : list (string * node))
  : list (string * node) :=
  match es with
  | [] => [(nm, n)]
  | (nm', n') :: es' =>
      if String.eqb nm' nm then (nm, n) :: es' else (nm', n') :: set_entry nm n es'
  end.

Fixpoint del_entry (nm : string) (es : list (string * node))
  : list (string * node) :=
  match es with
  | [] => []
  | (nm', n') :: es' =>
      if String.eqb nm' nm then del_entry nm es' else (nm', n') :: del_entry nm es'
  end.

Fixpoint find (n : node) (ps : list string) : option node :=
  match ps with
  | [] => Some n
  | p :: ps' =>
      match n with
      | Dir es => match entry p es with
                  | Some c => find c ps'
                  | None => None
                  end
      | File _ => None
      end
  end.

(** Puts [new] at [ps], making the directories on the way. *)
Fixpoint put (n : node) (ps : list string) (new : node) : node :=
  match ps with
  | [] => new
  | p :: ps' =>
      match n with
      | Dir es =>
          let c := match entry p es with Some c => c | None => Dir [] end in
          Dir (set_entry p (put c ps' new) es)
      | File _ => n
      end
  end.

Fixpoint del (n : node) (ps : list string) : node :=
  match ps with
  | [] => n
  | [p] => match n with
           | Dir es => Dir (del_entry p es)
           | File _ => n
           end
  | p :: ps' =>
      match n with
      | Dir es => match entry p es with
                  | Some c => Dir (set_entry p (del c ps') es)
                  | None => n
                  end
      | File _ => n
      end
  end.

Definition is_dir_node (n : node) : bool :=
  match n with Dir _ => true | File _ => false end.

Definition dir_names (es : list (string * node)) : list string :=
  List.map fst (List.filter (fun e => is_dir_node (snd e)) es).

Definition file_names (es : list (string * node)) : list string :=
  List.map fst (List.filter (fun e => negb (is_dir_node (snd e))) es).

(** [os.walk(top)], top-down. *)
Fixpoint walk (top : string) (n : node)
  : list (string * list string * list string) :=
  match n with
  | File _ => []
  | Dir es =>
      (top, dir_names es, file_names es)
      :: (fix below (l : list (string * node)) :=
            match l with
            | [] => []
            | (nm, c) :: l' =>
                (walk (Pathlib.os_path_join top nm) c ++ below l')%list
            end) es
  end.

(** Everything below a directory, as paths. *)
Fixpoint descendants (at_ : Path) (n : node) : list Path :=
  match n with
  | File _ => []
  | Dir es =>
      (fix below (l : list (string * node)) :=
         match l with
         | [] => []
         | (nm, c) :: l' =>
             let p := Pathlib.join_str at_ nm in
             (p :: descendants p c ++ below l')%list
         end) es
  end.

Definition exists_ (d : node) (p : Path) : bool :=
  match find d (parts p) with Some _ => true | None => false end.

Definition is_file (d : node) (p : Path) : bool :=
  match find d (parts p) with Some (File _) => true | _ => false end.

Definition is_dir (d : node) (p : Path) : bool :=
  match find d (parts p) with Some (Dir _) => true | _ => false end.

Definition os_walk (d : node) (top : string) :=
  match find d (parts (Pathlib.of_string top)) with
  | Some n => walk top n
  | None => []
  end.

(** [p.rglob("*<sfx>")] *)
Definition rglob (d : node) (p : Path) (pattern : string) : list Path :=
  match find d (parts p) with
  | Some n => List.filter
                (fun q => Str.endswith (Str.tail pattern) (Pathlib.name q))
                (descendants p n)
  | None => []
  end.

Definition unlink_missing_ok (d : node) (p : Path) : result node :=
  match find d (parts p) with
  | Some (Dir _) => Raise (ExternalError "IsADirectoryError")
  | Some (File _) => Ok (del d (parts p))
  | None => Ok d
  end.

Definition rmtree_ignore_errors (d : node) (p : Path) : node :=
  match find d (parts p) with
  | Some (Dir _) => del d (parts p)
  | _ => d
  end.

Definition replace (d : node) (src dst : Path) : result node :=
  match find d (parts src) with
  | Some n =>
      if is_dir d (Pathlib.parent dst)
      then Ok (put (del d (parts src)) (parts dst) n)
      else Raise (ExternalError "FileNotFoundError")
  | None => Raise (ExternalError "FileNotFoundError")
  end.

Definition write (d : node) (p : Path) (content : string) : result node :=
  if is_dir d (Pathlib.parent p) && negb (is_dir d p)
  then Ok (put d (parts p) (File content))
  else Raise (ExternalError "FileNotFoundError").

Definition mkdir_p (d : node) (p : Path) : result node :=
  match find d (parts p) with
  | Some (Dir _) => Ok d
  | Some (File _) => Raise (ExternalError "FileExistsError")
  | None => Ok (put d (parts p) (Dir []))
  end.

#[global] Instance tree_fs : FileSystem node := {
  path_exists := exists_;
  path_is_file := is_file;
  path_is_dir := is_dir;
  os_walk := os_walk;
  path_rglob := rglob;
  path_unlink_missing_ok := unlink_missing_ok;
  shutil_rmtree_ignore_errors := rmtree_ignore_errors;
  os_replace := replace;
  write_text := write;
  mkdir_parents_exist_ok := mkdir_p
}.

(** Collaborators for the examples: the cache hands out the name of what
    it was asked for, the converter writes a pipeline directory at its
    target, and nothing fails. *)
Definition location_name (loc : location) : string :=
  match loc with
  | LocPath p => Pathlib.to_string p
  | LocRepo r => r
  | LocValue _ => "?"
  | LocNone => "None"
  end.

Definition example_globals : InvokeAIAppConfig := {|
  root_dir := Pathlib.of_string "/invokeai";
  models_path := Pathlib.of_string "/invokeai/models";
  converted_ckpts_dir := Pathlib.of_string "/invokeai/models/converted_ckpts";
  legacy_conf_path := Pathlib.of_string "/invokeai/configs/stable-diffusion";
  cache_dir := Pathlib.of_string "/invokeai/models/hub";
  ckpt_convert := true
|}.

#[global] Instance example_collaborators : Collaborators node := {
  AutoencoderKL := string;
  globals := example_globals;
  cache_get_model := fun loc _ d => (Ok (location_name loc), d);
  convert_ckpt_to_diffusers := fun c d =>
    let d' := put d (parts (cv_dump_path c))
                  (Dir [("model_index.json", File "{}")]) in
    if exists_ d' (cv_dump_path c) then (Ok tt, d')
    else (Raise (ExternalError "cannot write the pipeline"), d);
  OmegaConf_to_yaml := fun cfg => Str.join "," (Dict.keys cfg);
  hf_delete_repo_revisions := fun _ d => (Ok tt, d);
  path_resolve := fun _ p => p;
  download_with_resume := fun url dest d =>
    let target := Pathlib.join_str dest (Pathlib.name (Pathlib.of_string url)) in
    (Ok (Some target), put d (parts target) (File url));
  torch_load := fun p d =>
    if is_file d p
    then Ok {| global_step := None; state_dict := None;
               tensors := <[conv_in_key := [320; 4; 3; 3]%Z]> ∅ |}
    else Raise (ExternalError "FileNotFoundError");
  safetensors_load_file := fun p d =>
    if is_file d p
    then Ok {| global_step := None; state_dict := None;
               tensors := <[conv_in_key := [320; 4; 3; 3]%Z]> ∅ |}
    else Raise (ExternalError "FileNotFoundError");
  cache_scan_model := fun _ _ => Ok tt
}.

End DiskTree.

(** ** Version numbers *)

(** Modelled from the documentation of [packaging.version]: the release
    segment of a version, [N(.N)*].  Versions compare segment by segment,
    and trailing zero segments do not count ([3.0] equals [3.0.0]).  A string
    of another shape is reported as invalid. *)
Module Version.

Definition digit (c : ascii) : option N :=
  let n := N_of_ascii c in
  if (48 <=? n)%N && (n <=? 57)%N then Some (n - 48)%N else None.

Fixpoint digits (acc : N) (s : string) : option N :=
  match s with
  | EmptyString => Some acc
  | String c s' =>
      match digit c with
      | Some d => digits (acc * 10 + d)%N s'
      | None => None
      end
  end.

Definition number (s : string) : option N :=
  match s with
  | EmptyString => None
  | _ => digits 0%N s
  end.

Fixpoint numbers (ws : list string) : option (list N) :=
  match ws with
  | [] => Some []
  | w :: ws' =>
      match number w, numbers ws' with
      | Some n, Some ns => Some (n :: ns)
      | _, _ => None
      end
  end.

(** Drops the trailing zero segments. *)
Fixpoint strip (ns : list N) : list N :=
  match ns with
  | [] => []
  | n :: ns' =>
      match strip ns' with
      | [] => if (n =? 0)%N then [] else [n]
      | rest => n :: rest
      end
  end.

Definition parse (s : string) : result (list N) :=
  match numbers (Str.split "."%char s) with
  | Some ns => Ok (strip ns)
  | None => Raise (InvalidVersion s)
  end.

(** [a < b] *)
Fixpoint ltb (a b : list N) : bool :=
  match a, b with
  | [], [] => false
  | [], _ :: _ => true
  | _ :: _, [] => false
  | x :: a', y :: b' =>
      if (x <? y)%N then true
      else if (y <? x)%N then false
      else ltb a' b'
  end.

(** [version.parse(v)] of a value of the document. *)
Definition parse_value (v : value) : result (list N) :=
  match v with
  | VStr s => parse s
  | _ => Raise (TypeError "expected string or bytes-like object")
  end.

End Version.

(** ** Migration of the document *)

(** [needle in v]: a substring test on a string, a key test on a mapping,
    a [TypeError] on anything else. *)
Definition py_in (needle : string) (v : value) : result bool :=
  match v with
  | VStr s => Ok (Str.contains needle s)
  | VDict d => Ok (Dict.mem needle d)
  | _ => Raise (TypeError "argument is not iterable")
  end.

(** [Path(v).suffix] *)
Definition suffix_of_value (v : value) : result string :=
  match v with
  | VStr s => Ok (Pathlib.suffix (Pathlib.of_string s))
  | _ => Raise (TypeError "expected str, bytes or os.PathLike object")
  end.

Definition value_is_str (s : string) (v : value) : bool :=
  match v with VStr s' => String.eqb s' s | _ => false end.

Module Migration.

Local Open Scope res_scope.

(** [old_stanza.get("config") and '/VAE/' in old_stanza.get("config")] *)
Definition is_legacy_vae (old_stanza : DictConfig) : result bool :=
  let c := Dict.get "config" old_stanza in
  if truthy c then py_in "/VAE/" c else Ok false.

(** The key under which a stanza is kept. *)
Definition new_key_of (model_key : string) : string :=
  if negb (Str.contains "/" model_key) then "diffusers/" +:+ model_key
  else model_key.

(** [old_stanza.get('weights') and Path(old_stanza.get('weights')).suffix == sfx] *)
Definition weights_suffix_is (sfx : string) (old_stanza : DictConfig)
  : result bool :=
  let w := Dict.get "weights" old_stanza in
  if truthy w then (s <- suffix_of_value w ;; Ok (String.eqb s sfx))
  else Ok false.

(** The format of the new stanza. *)
Definition derive_format (old_stanza : DictConfig) : result value :=
  if value_is_str "diffusers" (Dict.get "format" old_stanza) then Ok (VStr "folder")
  else
    is_ckpt <- weights_suffix_is ".ckpt" old_stanza ;;
    if is_ckpt then Ok (VStr "ckpt")
    else
      is_st <- weights_suffix_is ".safetensors" old_stanza ;;
      if is_st then Ok (VStr "safetensors")
      else Ok (Dict.get "format" old_stanza).

Definition copied_fields : list string :=
  ["repo_id"; "path"; "weights"; "config"; "vae"].

(** [for field in [...]: if field_value := old_stanza.get(field):
    new_config[new_key].update({field: field_value})] *)
Fixpoint copy_fields (fields : list string) (old_stanza new_stanza : DictConfig)
  : DictConfig :=
  match fields with
  | [] => new_stanza
  | field :: fields' =>
      let field_value := Dict.get field old_stanza in
      copy_fields fields' old_stanza
        (if truthy field_value then Dict.update1 field field_value new_stanza
         else new_stanza)
  end.

(** The stanza written for an old stanza that is kept. *)
Definition migrate_stanza (old_stanza : DictConfig) : result DictConfig :=
  model_format <- derive_format old_stanza ;;
  Ok (copy_fields copied_fields old_stanza
        [("description", Dict.get "description" old_stanza);
         ("format", model_format)]).

(** The loop over the old document. *)
Fixpoint migrate_entries (old : DictConfig) (new_config : DictConfig)
  : result DictConfig :=
  match old with
  | [] => Ok new_config
  | (model_key, old_stanza) :: rest =>
      match old_stanza with
      | VDict old_stanza =>
          skip <- is_legacy_vae old_stanza ;;
          if skip then migrate_entries rest new_config
          else
            new_stanza <- migrate_stanza old_stanza ;;
            migrate_entries rest
              (Dict.set (new_key_of model_key) (VDict new_stanza) new_config)
      | _ => migrate_entries rest new_config
      end
  end.

Definition migrate (old : DictConfig) : result DictConfig :=
  migrate_entries old [("_version", VStr CONFIG_FILE_VERSION)].

End Migration.

Definition newline : string := String (ascii_of_nat 10) EmptyString.

(** [preamble] *)
Definition preamble : string :=
  Str.join newline
    ["# This file describes the alternative machine learning models";
     "# available to InvokeAI script.";
     "#";
     "# To add a new model, follow the examples below. Each";
     "# model requires a model config file, a weights file,";
     "# and the width and height of the images it";
     "# was trained on.";
     ""].

Section Persistence.

Context {D : Type} `{FS : FileSystem D} `{EXT : Collaborators D}.
Local Open Scope mgr_scope.

Abbreviation M := (M D).

(** [x or y] on optional strings *)
Definition or_else (x y : option string) : option string :=
  match x with
  | Some s => if Str.nonempty s then x else y
  | None => y
  end.

(** [commit] *)
Definition commit (conf_file : option string) : M unit :=
  cfg <- get_config ;;
  let yaml_str := OmegaConf_to_yaml cfg in
  cp <- get_config_path ;;
  match or_else conf_file cp with
  | None => raise (AssertionError "no config file path to write to")
  | Some config_file_path =>
      let config_file_path := Pathlib.join_str (root_dir globals) config_file_path in
      let tmpfile := Pathlib.join_str (Pathlib.parent config_file_path) "new_config.tmp" in
      disk_op (fun d => write_text d tmpfile (preamble +:+ yaml_str)) ;;;
      disk_op (fun d => os_replace d tmpfile config_file_path)
  end.

(** [if self.config_path:] *)
Definition config_path_set (cp : option string) : bool :=
  match cp with Some s => Str.nonempty s | None => false end.

Definition version_text (v : value) : string :=
  match v with VStr s => s | _ => "" end.

(** [_update_config_file_version] *)
Definition _update_config_file_version : M unit :=
  cfg <- get_config ;;
  let current_version := Dict.get_default "_version" (VStr "1.0.0") cfg in
  cur <- lift (Version.parse_value current_version) ;;
  new <- lift (Version.parse CONFIG_FILE_VERSION) ;;
  if Version.ltb cur new then
    log WARNING ("models.yaml version " +:+ version_text current_version
                 +:+ " detected. Updating to " +:+ CONFIG_FILE_VERSION) ;;;
    log WARNING "The original file will be renamed models.yaml.orig" ;;;
    cp <- get_config_path ;;
    (if config_path_set cp then
       let old_file := Pathlib.of_string (default "" cp) in
       let new_name := Pathlib.join_str (Pathlib.parent old_file) "models.yaml.orig" in
       disk_op (fun d => os_replace d old_file new_name)
     else ret tt) ;;;
    new_config <- lift (Migration.migrate cfg) ;;
    put_config new_config ;;;
    (if config_path_set cp then commit None else ret tt)
  else ret tt.

End Persistence.

(** ** Reconciliation with the models directory *)

Module Scan.

Local Open Scope res_scope.

(** The loop of [_delete_defunct_models] that fills [to_delete]: the keys
    whose value has a [path] that is not on the disk, under the root
    directory.  [exists_] is [Path.exists] on the disk of the moment. *)
Fixpoint defunct_keys (exists_ : Path -> bool) (root : Path) (cfg : DictConfig)
  : result (list string) :=
  match cfg with
  | [] => Ok []
  | (key, v) :: rest =>
      has_path <- py_in "path" v ;;
      if negb has_path then defunct_keys exists_ root rest
      else
        match v with
        | VDict stanza =>
            path <- join_value root (Dict.get "path" stanza) ;;
            if exists_ path then defunct_keys exists_ root rest
            else (keys <- defunct_keys exists_ root rest ;; Ok (key :: keys))
        | _ => Raise (AttributeError "'str' object has no attribute 'path'")
        end
  end.

(** [parents[parents.index('models')+1:]] *)
Definition subpaths (root : string) : result (list string) :=
  let parents := Str.split slash root in
  match Str.index "models" parents with
  | Some i => Ok (List.skipn (S i) parents)
  | None => Raise (ValueError "'models' is not in list")
  end.

(** The descriptor written for a subdirectory [d] of [root]. *)
Definition dir_entry (root model_type base d : string) : string * value :=
  (model_type +:+ "/" +:+ d,
   VDict [("path", VStr (Pathlib.os_path_join root d));
          ("description", VStr (model_type +:+ " model " +:+ d));
          ("format", VStr "folder");
          ("base", VStr base)]).

(** The descriptor written for a file [f] of [root]. *)
Definition file_entry (root model_type base f : string) : string * value :=
  let basename := Pathlib.stem (Pathlib.of_string f) in
  let format := Str.tail (Pathlib.suffix (Pathlib.of_string f)) in
  (model_type +:+ "/" +:+ basename,
   VDict [("path", VStr (Pathlib.os_path_join root f));
          ("description", VStr (model_type +:+ " model " +:+ basename));
          ("format", VStr format);
          ("base", VStr base)]).

(** The assignments [config[key] = dict(...)] made for one triple of the
    walk, in order: none for a directory less than two levels below
    [models], none for a [diffusers] directory unless asked for. *)
Definition directory_writes (include_diffusers : bool)
    (triple : string * list string * list string)
  : result (list (string * value)) :=
  let '(root, dirs, files) := triple in
  subs <- subpaths root ;;
  match subs with
  | base :: model_type :: _ =>
      if String.eqb model_type "diffusers" && negb include_diffusers then Ok []
      else Ok (List.map (dir_entry root model_type base) dirs
               ++ List.map (file_entry root model_type base) files)%list
  | _ => Ok []
  end.

(** [config[k] = v] for each assignment, in order. *)
Definition apply_writes (writes : list (string * value)) (cfg : DictConfig)
  : DictConfig :=
  List.fold_left (fun c kv => Dict.set (fst kv) (snd kv) c) writes cfg.

(** All the assignments of a scan, triple after triple. *)
Fixpoint walk_writes (include_diffusers : bool)
    (walk : list (string * list string * list string))
  : result (list (string * value)) :=
  match walk with
  | [] => Ok []
  | triple :: rest =>
      ws <- directory_writes include_diffusers triple ;;
      ws' <- walk_writes include_diffusers rest ;;
      Ok (ws ++ ws')%list
  end.

End Scan.

Section Reconciler.

Context {D : Type} `{FS : FileSystem D} `{EXT : Collaborators D}.
Local Open Scope mgr_scope.

Abbreviation M := (M D).

(** The body of the second loop of [_delete_defunct_models]. *)
Definition forget_model (key : string) : M unit :=
  log WARNING ("Removing model " +:+ key
               +:+ " from in-memory config because its path is no longer on disk") ;;;
  cfg <- get_config ;;
  put_config (Dict.remove key cfg).

(** [_delete_defunct_models] *)
Definition _delete_defunct_models : M unit :=
  cfg <- get_config ;;
  d <- get_disk ;;
  to_delete <- lift (Scan.defunct_keys (path_exists d) (root_dir globals) cfg) ;;
  for_each to_delete forget_model.

(** The body of the loop of [scan_models_directory], for one triple of the
    walk. *)
Definition scan_triple (include_diffusers : bool)
    (triple : string * list string * list string) : M unit :=
  writes <- lift (Scan.directory_writes include_diffusers triple) ;;
  cfg <- get_config ;;
  put_config (Scan.apply_writes writes cfg).

(** [scan_models_directory] *)
Definition scan_models_directory (include_diffusers : bool) : M unit :=
  _delete_defunct_models ;;;
  d <- get_disk ;;
  let model_directory := models_path globals in
  for_each (os_walk d (Pathlib.to_string model_directory))
    (scan_triple include_diffusers).

End Reconciler.

(** ** Importing models *)

(** Modelled from the spec: the member names of [SDModelType]
    ([model_cache.py] is not under [src/]).  The source uses [Diffusers],
    [Vae], [TextEncoder], [Tokenizer], [Lora] and [TextualInversion]; the
    names of the other types of the data model are written the same way.
    [SDModelType.<name>] raises [AttributeError] for any other name. *)
Definition SDModelType_members : list (string * SDModelType) :=
  [("Diffusers", Diffusers); ("Ckpt", Ckpt); ("Vae", Vae);
   ("TextEncoder", TextEncoder); ("Tokenizer", Tokenizer); ("UNet", UNet);
   ("Scheduler", Scheduler); ("SafetyChecker", SafetyChecker);
   ("FeatureExtractor", FeatureExtractor); ("Lora", Lora);
   ("TextualInversion", TextualInversion); ("ControlNet", ControlNet)].

Fixpoint assoc {A} (k : string) (l : list (string * A)) : option A :=
  match l with
  | [] => None
  | (k', a) :: l' => if String.eqb k' k then Some a else assoc k l'
  end.

Definition SDModelType_member (name : string) : result SDModelType :=
  match assoc name SDModelType_members with
  | Some t => Ok t
  | None => Raise (AttributeError name)
  end.

(** [re.match(r"^[\w.+-]+/[\w.+-]+$", thing)], on ASCII: two non-empty runs
    of letters, digits, underscores, dots, plus and minus signs around one
    slash; [$] also matches before a final newline. *)
Definition is_repo_char (c : ascii) : bool :=
  let n := nat_of_ascii c in
  (((48 <=? n) && (n <=? 57)) || ((65 <=? n) && (n <=? 90))
   || ((97 <=? n) && (n <=? 122))
   || (n =? 95) || (n =? 46) || (n =? 43) || (n =? 45))%nat.

Fixpoint all_repo_chars (s : string) : bool :=
  match s with
  | EmptyString => true
  | String c s' => is_repo_char c && all_repo_chars s'
  end.

Fixpoint drop_final_newline (s : string) : string :=
  match s with
  | EmptyString => EmptyString
  | String c EmptyString => if (nat_of_ascii c =? 10)%nat then EmptyString else s
  | String c s' => String c (drop_final_newline s')
  end.

Definition looks_like_repo_id (thing : string) : bool :=
  match Str.cut slash thing with
  | Some (a, b) =>
      let b := drop_final_newline b in
      Str.nonempty a && all_repo_chars a && Str.nonempty b && all_repo_chars b
  | None => false
  end.

(** Truthiness of an optional string. *)
Definition some_nonempty (s : option string) : bool :=
  match s with Some s => Str.nonempty s | None => false end.

(** Where the first part of [heuristic_import] leaves off: it has returned,
    or it goes on with [model_path] and [model_name] as they are then. *)
Inductive dispatched : Type :=
| Returned (model_name : option string)
| GoesOn (model_path : option Path) (model_name : option string).

Section Importer.

Context {D : Type} `{FS : FileSystem D} `{EXT : Collaborators D}.
Local Open Scope mgr_scope.

Abbreviation M := (M D).

(** [assert cond, msg] *)
Definition assert_ (cond : bool) (msg : string) : M unit :=
  if cond then ret tt else raise (AssertionError msg).

(** [add_model].  Its first statement compares the type with
    [SDModelType.Fiffusers].  The bookkeeping of cache handles at its end
    concerns the model cache only and is left out. *)
Definition add_model (model_name : string) (model_type : SDModelType)
    (model_attributes : DictConfig) (clobber : bool) : M unit :=
  fiffusers <- lift (SDModelType_member "Fiffusers") ;;
  (if SDModelType_eqb model_type fiffusers then
     if Dict.mem "weights" model_attributes then
       assert_ (Dict.mem "description" model_attributes)
         "required field description is missing" ;;;
       assert_ (Dict.mem "weights" model_attributes)
         "required field weights is missing" ;;;
       assert_ (Dict.mem "config" model_attributes)
         "required field config is missing"
     else
       assert_ (Dict.mem "description" model_attributes)
         "required field 'description' is missing" ;;;
       assert_ (Dict.mem "path" model_attributes
                || Dict.mem "repo_id" model_attributes)
         "model must have either the 'path' or 'repo_id' fields defined"
   else
     assert_ (Dict.mem "weights" model_attributes
              && Dict.mem "description" model_attributes) "") ;;;
  let model_key := create_key model_name model_type in
  cfg <- get_config ;;
  assert_ (clobber || negb (Dict.mem model_key cfg))
    "attempt to overwrite existing model definition" ;;;
  put_config (Dict.set model_key (VDict model_attributes) cfg) ;;;
  match Dict.lookup "weights" model_attributes with
  | Some (VStr _) | None => ret tt
  | Some _ => raise (AttributeError "replace")
  end.

(** [import_diffuser_model], called with a string. *)
Definition import_diffuser_model (repo_or_path : string)
    (model_name description : option string) (vae : value)
    (commit_to_conf : option string) : M string :=
  let model_name :=
    if some_nonempty model_name then default "" model_name
    else Pathlib.stem (Pathlib.of_string repo_or_path) in
  let model_description :=
    if some_nonempty description then default "" description
    else "Imported diffusers model " +:+ model_name in
  let new_config :=
    [("description", VStr model_description);
     ("vae", vae);
     ("format", VStr "diffusers");
     ("repo_id", VStr repo_or_path)] in
  add_model model_name Diffusers new_config true ;;;
  (if some_nonempty commit_to_conf then commit commit_to_conf else ret tt) ;;;
  ret (create_key model_name Diffusers).

Definition URL_PREFIXES : list string := ["http:"; "https:"; "ftp:"].

(** [_resolve_path] *)
Definition _resolve_path (source : string) (dest_directory : string)
  : M (option Path) :=
  if Str.startswith_any URL_PREFIXES source then
    let dest_directory := Pathlib.join_str (root_dir globals) dest_directory in
    disk_op (fun d => mkdir_parents_exist_ok d dest_directory) ;;;
    on_disk (download_with_resume source dest_directory)
  else ret (Some (Pathlib.join_str (root_dir globals) source)).

(** The [try] block of [convert_and_import]. *)
Definition convert_and_register (ckpt_path diffusers_path : Path)
    (model_name model_description : string) (vae : value)
    (vae_path : option string) (original_config_file : option Path)
    (commit_to_conf : option string) (scan_needed : bool) : M unit :=
  vae_and_path <-
    (if truthy vae then
       match vae with
       | VDict vae_dict =>
           loc <- lift (vae_diffusers_location vae_dict) ;;
           vae_model <- load_vae (default LocNone loc) ;;
           ret (Some vae_model, None)
       | _ => raise (AttributeError "get")
       end
     else ret (None, vae_path)) ;;
  let '(vae_model, vae_path) := vae_and_path in
  let call := {| cv_checkpoint_path := ckpt_path;
                 cv_dump_path := diffusers_path;
                 cv_extract_ema := true;
                 cv_original_config_file := original_config_file;
                 cv_vae := vae_model;
                 cv_vae_path := vae_path;
                 cv_scan_needed := scan_needed |} in
  record_conversion call ;;;
  on_disk (convert_ckpt_to_diffusers call) ;;;
  log DEBUG ("Success. Converted model is now located at "
             +:+ Pathlib.to_string diffusers_path) ;;;
  log DEBUG ("Writing new config file entry for " +:+ model_name) ;;;
  let new_config :=
    [("path", VStr (Pathlib.to_string diffusers_path));
     ("description", VStr model_description);
     ("format", VStr "diffusers")] in
  known <- model_exists model_name Diffusers ;;
  (if known then del_model model_name Diffusers false else ret tt) ;;;
  add_model model_name Diffusers new_config true ;;;
  (if some_nonempty commit_to_conf then commit commit_to_conf else ret tt) ;;;
  log DEBUG ("Model " +:+ model_name +:+ " installed").

(** [convert_and_import] *)
Definition convert_and_import (ckpt_path diffusers_path : Path)
    (model_name model_description : option string) (vae : value)
    (vae_path : option string) (original_config_file : option Path)
    (commit_to_conf : option string) (scan_needed : bool)
  : M (option string) :=
  ckpt <- _resolve_path (Pathlib.to_string ckpt_path)
            "models/ldm/stable-diffusion-v1" ;;
  original_config_file <-
    match original_config_file with
    | Some f => _resolve_path (Pathlib.to_string f) "configs/stable-diffusion"
    | None => ret None
    end ;;
  d <- get_disk ;;
  if path_exists d diffusers_path then
    log ERROR ("The path " +:+ Pathlib.to_string diffusers_path
               +:+ " already exists. Please move or remove it and try again.") ;;;
    ret None
  else
    let model_name :=
      if some_nonempty model_name then default "" model_name
      else Pathlib.name diffusers_path in
    let model_description :=
      if some_nonempty model_description then default "" model_description
      else "Converted version of " +:+ model_name in
    log DEBUG ("Converting " +:+ model_name +:+ " to diffusers (30-60s)") ;;;
    try_except
      (match ckpt with
       | Some ckpt =>
           convert_and_register ckpt diffusers_path model_name
             model_description vae vae_path original_config_file
             commit_to_conf scan_needed
       | None => raise (TypeError "expected str, bytes or os.PathLike object")
       end)
      (fun e =>
         log WARNING "Conversion failed" ;;;
         log WARNING "Traceback" ;;;
         log WARNING "If you are trying to convert an inpainting or 2.X model, please indicate the correct config file (e.g. v1-inpainting-inference.yaml)") ;;;
    ret (Some model_name).

(** The configuration file that goes with a probed checkpoint. *)
Definition config_for_legacy_type (model_type : SDLegacyType) (thing : string)
  : M (option Path) :=
  match model_type with
  | V1 =>
      log DEBUG "SD-v1 model detected" ;;;
      ret (Some (Pathlib.join_str (legacy_conf_path globals) "v1-inference.yaml"))
  | V1_INPAINT =>
      log DEBUG "SD-v1 inpainting model detected" ;;;
      ret (Some (Pathlib.join_str (legacy_conf_path globals)
                   "v1-inpainting-inference.yaml"))
  | V2_v =>
      log DEBUG "SD-v2-v model detected" ;;;
      ret (Some (Pathlib.join_str (legacy_conf_path globals) "v2-inference-v.yaml"))
  | V2_e =>
      log DEBUG "SD-v2-e model detected" ;;;
      ret (Some (Pathlib.join_str (legacy_conf_path globals) "v2-inference.yaml"))
  | V2 =>
      log WARNING (thing +:+ " is a V2 checkpoint file, but its parameterization cannot be determined.") ;;;
      ret None
  | UNKNOWN =>
      log WARNING (thing +:+ " is a legacy checkpoint file but not a known Stable Diffusion model.") ;;;
      ret None
  end.

(** The part of [heuristic_import] that follows the dispatch, for a legacy
    checkpoint at [model_path]. *)
Definition import_checkpoint (thing : string) (model_path : Path)
    (model_name description : option string) (model_config_file : option Path)
    (commit_to_conf : option string)
    (config_file_callback : option (Path -> option Path))
  : M (option string) :=
  cfg <- get_config ;;
  if Dict.mem (Pathlib.stem model_path) cfg then
    log DEBUG "Already imported. Skipping" ;;;
    ret (Some (Pathlib.stem model_path))
  else
    d <- get_disk ;;
    checkpoint <-
      (if existsb (String.eqb (Pathlib.suffix model_path)) [".ckpt"; ".pt"] then
         lift (cache_scan_model model_path d) ;;;
         lift (torch_load model_path d)
       else lift (safetensors_load_file model_path d)) ;;
    model_config_file <-
      match model_config_file with
      | Some f => ret (Some f)
      | None =>
          yaml <- lift (Pathlib.with_suffix ".yaml" model_path) ;;
          if path_exists d yaml then
            log DEBUG ("Using config file " +:+ Pathlib.name yaml) ;;;
            ret (Some yaml)
          else
            model_type <- lift (probe_model_type checkpoint) ;;
            config_for_legacy_type model_type thing
      end ;;
    let model_config_file :=
      match model_config_file, config_file_callback with
      | None, Some callback => callback model_path
      | f, _ => f
      end in
    match model_config_file with
    | None => ret None
    | Some model_config_file =>
        vae_path <- find_vae_sibling ["pt"; "ckpt"; "safetensors"] model_path None ;;
        let vae :=
          match vae_path with
          | Some _ => VNone
          | None => VDict [("repo_id", VStr FALLBACK_VAE)]
          end in
        let diffuser_path :=
          Pathlib.join_str (converted_ckpts_dir globals) (Pathlib.stem model_path) in
        convert_and_import model_path diffuser_path model_name description vae
          (Some match vae_path with
                | Some p => Pathlib.to_string p
                | None => "None"
                end)
          (Some model_config_file) commit_to_conf false
    end.

(** The loop over the checkpoints found below a directory: the loop
    variable and the result of each import share the name [model_name]. *)
Fixpoint import_each (import1 : string -> M (option string)) (found : list Path)
    (model_name : option string) : M (option string) :=
  match found with
  | [] => ret model_name
  | m :: rest =>
      model_name <- import1 (Pathlib.to_string m) ;;
      (if some_nonempty model_name
       then log INFO (default "" model_name +:+ " successfully imported")
       else ret tt) ;;;
      import_each import1 rest model_name
  end.

(** The dispatch of [heuristic_import] on the shape of [thing];
    [recurse] is [heuristic_import] itself, for the checkpoints below a
    directory. *)
Definition dispatch (recurse : string -> M (option string)) (thing : string)
    (model_name description : option string) (commit_to_conf : option string)
  : M dispatched :=
  d <- get_disk ;;
  let p := Pathlib.of_string thing in
  if Str.startswith_any URL_PREFIXES thing then
    log INFO (thing +:+ " appears to be a URL") ;;;
    model_path <- _resolve_path thing "models/ldm/stable-diffusion-v1" ;;
    ret (GoesOn model_path model_name)
  else if path_is_file d p && Str.endswith_any [".ckpt"; ".safetensors"] thing then
    if existsb (String.eqb (Pathlib.stem p)) ["model"; "diffusion_pytorch_model"] then
      log DEBUG (Pathlib.name p
                 +:+ " appears to be part of a diffusers model. Skipping import") ;;;
      ret (Returned None)
    else
      log DEBUG (thing +:+ " appears to be a checkpoint file on disk") ;;;
      model_path <- _resolve_path thing "models/ldm/stable-diffusion-v1" ;;
      ret (GoesOn model_path model_name)
  else if path_is_dir d p
          && path_exists d (Pathlib.join_str p "model_index.json") then
    log DEBUG (thing +:+ " appears to be a diffusers file on disk") ;;;
    key <- import_diffuser_model thing model_name description
             (VDict [("repo_id", VStr FALLBACK_VAE)]) commit_to_conf ;;
    ret (GoesOn None (Some key))
  else if path_is_dir d p then
    if path_exists d (Pathlib.join_str p "model_index.json") then
      log DEBUG (thing +:+ " appears to be a diffusers model.") ;;;
      key <- import_diffuser_model thing None None VNone commit_to_conf ;;
      ret (GoesOn None (Some key))
    else
      log DEBUG (thing +:+ " appears to be a directory. Will scan for models to import") ;;;
      model_name <- import_each recurse
                      (path_rglob d p "*.ckpt" ++ path_rglob d p "*.safetensors")%list
                      model_name ;;
      ret (Returned model_name)
  else if looks_like_repo_id thing then
    log DEBUG (thing +:+ " appears to be a HuggingFace diffusers repo_id") ;;;
    key <- import_diffuser_model thing None None VNone commit_to_conf ;;
    self_getattr "_load_diffusers_model" ;;;
    ret (Returned (Some key))
  else
    log WARNING (thing +:+ ": Unknown thing. Please provide a URL, file path, directory or HuggingFace repo_id") ;;;
    ret (GoesOn None model_name).

(** [heuristic_import].  [depth] bounds the nesting of the calls it makes
    to itself. *)
Fixpoint heuristic_import (depth : nat) (thing : string)
    (model_name description : option string) (model_config_file : option Path)
    (commit_to_conf : option string)
    (config_file_callback : option (Path -> option Path))
  : M (option string) :=
  match depth with
  | O => raise RecursionError
  | S depth' =>
      log INFO ("Probing " +:+ thing +:+ " for import") ;;;
      where_ <- dispatch
                  (fun m => heuristic_import depth' m None None None
                              commit_to_conf config_file_callback)
                  thing model_name description commit_to_conf ;;
      match where_ with
      | Returned r => ret r
      | GoesOn None _ => ret None
      | GoesOn (Some model_path) model_name =>
          import_checkpoint thing model_path model_name description
            model_config_file commit_to_conf config_file_callback
      end
  end.

End Importer.

(** ** Vocabulary of the statements, and example states *)

(** What the loop of [set_default_model] does to one entry of the store. *)
Definition clear_default (kv : string * value) : string * value :=
  match snd kv with
  | VDict d => (fst kv, VDict (Dict.remove "default" d))
  | _ => kv
  end.

(** The fields a migrated stanza may have, as the claim words it: the
    re-derived format and the five copied fields. *)
Definition only_listed_fields (new_stanza : DictConfig) : Prop :=
  forall f, Dict.mem f new_stanza = true ->
            List.In f ("format" :: Migration.copied_fields).

(** What the migrator makes of a stanza it keeps: the description and the
    format are always written, a copied field is written when its old value
    is truthy, and there is nothing else. *)
Definition migrated_from (old_stanza new_stanza : DictConfig) : Prop :=
  (forall f, Dict.mem f new_stanza = true ->
             List.In f ("description" :: "format" :: Migration.copied_fields))
  /\ Dict.lookup "description" new_stanza = Some (Dict.get "description" old_stanza)
  /\ (exists fmt, Migration.derive_format old_stanza = Ok fmt
                  /\ Dict.lookup "format" new_stanza = Some fmt)
  /\ (forall f, List.In f Migration.copied_fields ->
                Dict.lookup f new_stanza
                = if truthy (Dict.get f old_stanza)
                  then Some (Dict.get f old_stanza) else None).

(** A value of the store that the pruning loop can handle: a string that
    does not contain "path", or a stanza whose path, if it has one, is a
    string. *)
Definition prunable (v : value) : Prop :=
  match v with
  | VStr s => Str.contains "path" s = false
  | VDict stanza =>
      Dict.lookup "path" stanza = None
      \/ exists p, Dict.lookup "path" stanza = Some (VStr p)
  | _ => False
  end.

(** The sibling of the weights file that holds a VAE, for one suffix, and
    the one the loop of [_get_vae_for_conversion] ends with: the last that
    exists, in the order pt, ckpt, safetensors. *)
Definition sibling_path (weights : Path) (suffix : string) : Path :=
  {| anchored := anchored weights;
     parts := (List.removelast (parts weights)
               ++ [Pathlib.stem weights +:+ ".vae." +:+ suffix])%list |}.

Definition chosen_sibling {D : Type} `{FileSystem D} (d : D) (weights : Path)
  : option Path :=
  if path_exists d (sibling_path weights "safetensors")
  then Some (sibling_path weights "safetensors")
  else if path_exists d (sibling_path weights "ckpt")
  then Some (sibling_path weights "ckpt")
  else if path_exists d (sibling_path weights "pt")
  then Some (sibling_path weights "pt")
  else None.

Module Examples.

Import DiskTree.

Definition manager_of (cfg : DictConfig) (cp : option string) (d : node)
  : Manager node :=
  {| config := cfg; config_path := cp; disk := d; logged := [];
     converter_calls := [] |}.

(** A store in which two pipelines carry the default flag. *)
Definition two_defaults : Manager node :=
  manager_of
    [("_version", VStr "3.0.0");
     ("diffusers/a", VDict [("path", VStr "a"); ("default", VBool true)]);
     ("diffusers/b", VDict [("default", VBool true); ("path", VStr "b")]);
     ("lora/c", VDict [("path", VStr "c")])]
    None (Dir []).

(** A disk with a configuration file, and a store at the current schema
    version that was loaded from it. *)
Definition installed_disk : node :=
  Dir [("invokeai",
        Dir [("configs", Dir [("models.yaml", File "_version: 3.0.0")]);
             ("models", Dir [])])].

Definition current_store : Manager node :=
  manager_of
    [("_version", VStr "3.0.0");
     ("diffusers/sd-1.5",
      VDict [("description", VStr "Stable Diffusion 1.5");
             ("format", VStr "folder");
             ("repo_id", VStr "runwayml/stable-diffusion-v1-5");
             ("default", VBool true)])]
    (Some "configs/models.yaml") installed_disk.

(** A stanza of a version 1 document, and what the migrator writes for it. *)
Definition legacy_stanza : DictConfig :=
  [("description", VStr "A legacy checkpoint");
   ("weights", VStr "models/ldm/test1.ckpt");
   ("config", VStr "configs/stable-diffusion/v1-inference.yaml");
   ("width", VInt 512);
   ("height", VInt 512);
   ("default", VBool true)].

Definition legacy_stanza_migrated : DictConfig :=
  [("description", VStr "A legacy checkpoint");
   ("format", VStr "ckpt");
   ("weights", VStr "models/ldm/test1.ckpt");
   ("config", VStr "configs/stable-diffusion/v1-inference.yaml")].

Definition legacy_store : DictConfig :=
  [("test1", VDict legacy_stanza)].

(** A version 2 checkpoint trained for 220000 steps, and a version 1
    inpainting checkpoint stored without a [state_dict] level. *)
Definition v2_checkpoint : Checkpoint := {|
  global_step := Some 220000%Z;
  state_dict := Some (<[attn2_key := [320; 1024]%Z]>
                      (<[conv_in_key := [320; 4; 3; 3]%Z]> ∅));
  tensors := ∅
|}.

Definition inpainting_checkpoint : Checkpoint := {|
  global_step := None;
  state_dict := None;
  tensors := <[attn2_key := [320; 768]%Z]>
             (<[conv_in_key := [320; 9; 3; 3]%Z]> ∅)
|}.

(** A checkpoint next to which a VAE file lies, and two descriptors for it:
    one without a [vae] field, one whose [vae] field is a mapping that names
    a subfolder only. *)
Definition checkpoint_disk : node :=
  Dir [("invokeai",
        Dir [("models",
              Dir [("ldm", Dir [("foo.ckpt", File "weights");
                                ("foo.vae.pt", File "vae");
                                ("bar.safetensors", File "weights")])])])].

Definition foo_descriptor : DictConfig :=
  [("format", VStr "ckpt");
   ("weights", VStr "models/ldm/foo.ckpt");
   ("config", VStr "configs/stable-diffusion/v1-inference.yaml")].

Definition bar_descriptor : DictConfig :=
  [("format", VStr "safetensors");
   ("weights", VStr "models/ldm/bar.safetensors");
   ("config", VStr "configs/stable-diffusion/v1-inference.yaml");
   ("vae", VDict [("subfolder", VStr "vae")])].

Definition foo_weights : Path := Pathlib.of_string "/invokeai/models/ldm/foo.ckpt".
Definition bar_weights : Path := Pathlib.of_string "/invokeai/models/ldm/bar.safetensors".

Definition checkpoint_manager : Manager node :=
  manager_of
    [("_version", VStr "3.0.0");
     ("diffusers/foo", VDict foo_descriptor);
     ("diffusers/bar", VDict bar_descriptor)]
    None checkpoint_disk.

(** The tree of the reconciliation example, the same tree once the file
    is deleted, and a manager with an empty store on the first. *)
Definition models_disk : node :=
  Dir [("invokeai",
        Dir [("models",
              Dir [("SD-1",
                    Dir [("lora", Dir [("foo.safetensors", File "lora weights")])])])])].

Definition models_disk_without_foo : node :=
  del models_disk ["invokeai"; "models"; "SD-1"; "lora"; "foo.safetensors"].

Definition fresh_manager : Manager node :=
  manager_of [("_version", VStr "3.0.0")] None models_disk.

Definition foo_lora_descriptor : value :=
  VDict [("path", VStr "/invokeai/models/SD-1/lora/foo.safetensors");
         ("description", VStr "lora model foo");
         ("format", VStr "safetensors");
         ("base", VStr "SD-1")].

(** A disk on which a file lies at a path that reads like a URL. *)
Definition url_thing : string := "http://example.com/model.ckpt".

Definition url_disk : node :=
  Dir [("http:", Dir [("example.com", Dir [("model.ckpt", File "weights")])]);
       ("invokeai", Dir [("models", Dir [])])].

Definition url_manager : Manager node :=
  manager_of [("_version", VStr "3.0.0")] None url_disk.

(** A disk with a pipeline that was unpacked, and a manager on it. *)
Definition pipeline_disk : node :=
  Dir [("pipeline",
        Dir [("model_index.json", File "{}");
             ("unet", Dir [("diffusion_pytorch_model.safetensors", File "unet")]);
             ("text_encoder", Dir [("model.safetensors", File "clip")])])].

Definition pipeline_manager : Manager node :=
  manager_of [("_version", VStr "3.0.0")] None pipeline_disk.

End Examples.

(** ** Queries on the store *)

(** What [default_model] returns: the name and type of the first descriptor
    that carries the flag, or, from its last statement
    [self.model_names()[0][0]], the bare name of the first model. *)
Inductive default_answer : Type :=
| DefaultPair (model_name : string) (model_type : SDModelType)
| DefaultName (model_name : string).

Section Queries.

Context {D : Type} `{FS : FileSystem D} `{EXT : Collaborators D}.
Local Open Scope mgr_scope.

Abbreviation M := (M D).

(** The loop of [default_model]: it returns at the first descriptor whose
    [default] field is truthy. *)
Fixpoint first_default (names : list (string * SDModelType))
  : M (option (string * SDModelType)) :=
  match names with
  | [] => ret None
  | (model_name, model_type) :: rest =>
      let model_key := create_key model_name model_type in
      stanza <- stanza_at model_key ;;
      if truthy (Dict.get "default" stanza) then ret (Some (model_name, model_type))
      else first_default rest
  end.

(** [default_model] *)
Definition default_model : M default_answer :=
  names <- model_names ;;
  found <- first_default names ;;
  match found with
  | Some (model_name, model_type) => ret (DefaultPair model_name model_type)
  | None =>
      names <- model_names ;;
      match names with
      | (model_name, _) :: _ => ret (DefaultName model_name)
      | [] => raise IndexError
      end
  end.

(** [model_info]: [None] for a model that is not in the store. *)
Definition model_info (model_name : string) (model_type : SDModelType)
  : M value :=
  known <- model_exists model_name model_type ;;
  if negb known then ret VNone
  else
    cfg <- get_config ;;
    match Dict.lookup (create_key model_name model_type) cfg with
    | Some v => ret v
    | None => raise (KeyError (create_key model_name model_type))
    end.

(** [is_legacy] *)
Definition is_legacy (model_name : string) (model_type : SDModelType) : M bool :=
  if ckpt_convert globals then ret false
  else
    info <- model_info model_name model_type ;;
    has_weights <- lift (py_in "weights" info) ;;
    if has_weights then
      match info with
      | VDict stanza =>
          match Dict.get "weights" stanza with
          | VStr w => ret (Str.endswith_any [".ckpt"; ".safetensors"] w)
          | _ => raise (AttributeError "endswith")
          end
      | _ => raise (TypeError "string indices must be integers")
      end
    else ret false.

(** [import_lora], called with a string. *)
Definition import_lora (path : string) (model_name description : option string)
  : M unit :=
  let path := Pathlib.of_string path in
  let model_name :=
    if some_nonempty model_name then default "" model_name
    else Pathlib.stem path in
  let model_description :=
    if some_nonempty description then default "" description
    else "LoRA model " +:+ model_name in
  add_model model_name Lora
    [("format", VStr "lora");
     ("weights", VStr (Pathlib.to_string path));
     ("description", VStr model_description)]
    true.

End Queries.

(** ** Vocabulary of the further statements *)

(** The keys of the descriptors of a store, in its order: what
    [model_names] decodes. *)
Definition stanza_keys (cfg : DictConfig) : list string :=
  Dict.keys (List.filter (fun kv => is_DictConfig (snd kv)) cfg).

(** A computation that leaves the store, or the disk, as it was, whatever
    its outcome. *)
Definition keeps_store {D : Type} `{EXT : Collaborators D} {A : Type}
    (c : M D A) : Prop :=
  forall m r m', c m = (r, m') -> config m' = config m.

Definition keeps_disk {D : Type} `{EXT : Collaborators D} {A : Type}
    (c : M D A) : Prop :=
  forall m r m', c m = (r, m') -> disk m' = disk m.

(** Whether the descriptor of a model carries the default flag in a store:
    the test of the loop of [default_model]. *)
Definition flagged (cfg : DictConfig) (p : string * SDModelType) : bool :=
  match Dict.lookup (create_key (fst p) (snd p)) cfg with
  | Some v => is_default v
  | None => false
  end.

(** Whether a version tag is older than the schema this code writes: the
    test of [_update_config_file_version]. *)
Definition older_than_current (current_version : value) : bool :=
  match Version.parse_value current_version,
        Version.parse CONFIG_FILE_VERSION with
  | Ok cur, Ok new => Version.ltb cur new
  | _, _ => false
  end.

Module MoreExamples.

Import DiskTree.

(** A manager made from a version 1 document given as an object, not as
    a file: there is no configuration path. *)
Definition legacy_manager : Manager node :=
  Examples.manager_of Examples.legacy_store None Examples.installed_disk.

(** A store that still lists a file that has been deleted. *)
Definition stale_manager : Manager node :=
  Examples.manager_of
    [("_version", VStr "3.0.0"); ("lora/foo", Examples.foo_lora_descriptor)]
    None Examples.models_disk_without_foo.

(** An installation whose models directory is not called [models]. *)
Definition data_globals : InvokeAIAppConfig := {|
  root_dir := Pathlib.of_string "/data";
  models_path := Pathlib.of_string "/data/checkpoints";
  converted_ckpts_dir := Pathlib.of_string "/data/checkpoints/converted_ckpts";
  legacy_conf_path := Pathlib.of_string "/data/configs/stable-diffusion";
  cache_dir := Pathlib.of_string "/data/checkpoints/hub";
  ckpt_convert := false
|}.

Definition data_collaborators : Collaborators node := {|
  AutoencoderKL := @AutoencoderKL node example_collaborators;
  globals := data_globals;
  cache_get_model := @cache_get_model node example_collaborators;
  convert_ckpt_to_diffusers := @convert_ckpt_to_diffusers node example_collaborators;
  OmegaConf_to_yaml := @OmegaConf_to_yaml node example_collaborators;
  hf_delete_repo_revisions := @hf_delete_repo_revisions node example_collaborators;
  path_resolve := @path_resolve node example_collaborators;
  download_with_resume := @download_with_resume node example_collaborators;
  torch_load := @torch_load node example_collaborators;
  safetensors_load_file := @safetensors_load_file node example_collaborators;
  cache_scan_model := @cache_scan_model node example_collaborators
|}.

Definition data_disk : node :=
  Dir [("data",
        Dir [("checkpoints",
              Dir [("SD-1",
                    Dir [("lora", Dir [("foo.safetensors", File "lora weights")])])])])].

Definition data_manager : @Manager node data_collaborators :=
  {| config := [("_version", VStr "3.0.0")]; config_path := None;
     disk := data_disk; logged := []; converter_calls := [] |}.

(** A models directory that holds a pipeline and a LoRA file. *)
Definition mixed_disk : node :=
  Dir [("invokeai",
        Dir [("models",
              Dir [("SD-1",
                    Dir [("diffusers",
                          Dir [("sd-1.5", Dir [("model_index.json", File "{}")])]);
                         ("lora", Dir [("foo.safetensors", File "lora weights")])])])])].

Definition mixed_manager : Manager node :=
  Examples.manager_of [("_version", VStr "3.0.0")] None mixed_disk.

(** Two checkpoints with the same file name in two directories, and their
    descriptors. *)
Definition twin_disk : node :=
  Dir [("invokeai",
        Dir [("models",
              Dir [("ldm", Dir [("foo.ckpt", File "weights of one model")]);
                   ("other", Dir [("foo.ckpt", File "weights of another")])])])].

Definition twin_descriptor : DictConfig :=
  [("format", VStr "ckpt");
   ("weights", VStr "models/other/foo.ckpt");
   ("config", VStr "configs/stable-diffusion/v2-inference.yaml")].

Definition twin_manager : Manager node :=
  Examples.manager_of
    [("_version", VStr "3.0.0");
     ("diffusers/foo", VDict Examples.foo_descriptor);
     ("diffusers/foo-2", VDict twin_descriptor)]
    None twin_disk.

(** The support directory of the layout that the source describes. *)
Definition support_disk : node :=
  Dir [("invokeai",
        Dir [("models",
              Dir [("support",
                    Dir [("codeformer", Dir [("codeformer.pth", File "weights")])])])])].

Definition support_manager : Manager node :=
  Examples.manager_of [("_version", VStr "3.0.0")] None support_disk.

End MoreExamples.

(** ** The script [scripts/scan_models_directory.py] *)

Module ScanScript.

(** What stops the script: an exception of the kinds above, or the read of
    a local variable of [main] that no statement has bound yet. *)
Inductive script_exn : Type :=
| Exn (e : exn)
| UnboundLocalError (variable : string).

Inductive outcome (A : Type) : Type :=
| Done (a : A)
| Stopped (e : script_exn).
Arguments Done {A} a.
Arguments Stopped {A} e.

(** The local variables of [main] that its loops share: the document
    [conf], and [base] and [model_type], which only the loop over [dirs]
    binds (together, by one tuple assignment). *)
Record locals : Type := {
  conf : DictConfig;
  base_model_type : option (string * string)
}.

(** [for d in dirs: ...]: a directory fewer than two levels below [models]
    is passed over by [continue], before the assignment. *)
Fixpoint dirs_loop (root : string) (dirs : list string) (st : locals)
  : outcome locals :=
  match dirs with
  | [] => Done st
  | d :: rest =>
      match Scan.subpaths root with
      | Raise e => Stopped (Exn e)
      | Ok (base :: model_type :: _) =>
          let '(key, descriptor) := Scan.dir_entry root model_type base d in
          dirs_loop root rest
            {| conf := Dict.set key descriptor (conf st);
               base_model_type := Some (base, model_type) |}
      | Ok _ => dirs_loop root rest st
      end
  end.

(** [for f in files: ...]: it reads [model_type] and [base] as the loop
    over [dirs] left them, in this directory or in one walked before. *)
Fixpoint files_loop (root : string) (files : list string) (st : locals)
  : outcome locals :=
  match files with
  | [] => Done st
  | f :: rest =>
      match base_model_type st with
      | None => Stopped (UnboundLocalError "model_type")
      | Some (base, model_type) =>
          let '(key, descriptor) := Scan.file_entry root model_type base f in
          files_loop root rest
            {| conf := Dict.set key descriptor (conf st);
               base_model_type := base_model_type st |}
      end
  end.

(** [for root, dirs, files in os.walk(directory): ...] *)
Fixpoint walk_loop (walk : list (string * list string * list string))
    (st : locals) : outcome locals :=
  match walk with
  | [] => Done st
  | (root, dirs, files) :: rest =>
      match dirs_loop root dirs st with
      | Stopped e => Stopped e
      | Done st =>
          match files_loop root files st with
          | Stopped e => Stopped e
          | Done st => walk_loop rest st
          end
      end
  end.

(** [sorted(conf.items())]: the keys are distinct, so the items are
    ordered by key. *)
Fixpoint insert_item (kv : string * value) (l : list (string * value))
  : list (string * value) :=
  match l with
  | [] => [kv]
  | kv' :: l' =>
      if String.leb (fst kv) (fst kv') then kv :: l
      else kv' :: insert_item kv l'
  end.

Definition sorted_items (items : list (string * value))
  : list (string * value) :=
  List.fold_right insert_item [] items.

(** [main], for the directory given on the command line: what it
    prints. *)
Definition main {D : Type} `{FS : FileSystem D} (d : D) (directory : string)
  : outcome DictConfig :=
  match walk_loop (os_walk d directory)
          {| conf := [("_version", VStr "3.0.0")];
             base_model_type := None |} with
  | Done st => Done (sorted_items (conf st))
  | Stopped e => Stopped e
  end.

End ScanScript.

(** ** Construction of a manager *)

(** The first argument of [ModelManager(...)]: a document object, a path
    (or string), or anything else. *)
Inductive config_argument : Type :=
| ConfigObject (config : DictConfig)
| ConfigPath (path : string)
| ConfigOther.

Section Construction.

Context {D : Type} `{FS : FileSystem D} `{EXT : Collaborators D}.
Local Open Scope mgr_scope.

(** [OmegaConf.load]: the document read from a file of the disk. *)
Variable OmegaConf_load : string -> D -> result DictConfig.

(** [__init__], on the disk [d]: the outcome and the manager it has made
    (or was making when it raised; [config] is empty while the attribute is
    not set).  The model cache it creates is not part of this state. *)
Definition ModelManager_init (config_arg : config_argument) (d : D)
  : result unit * Manager D :=
  let start (c : DictConfig) (p : option string) : Manager D :=
    {| config := c; config_path := p; disk := d; logged := [];
       converter_calls := [] |} in
  match config_arg with
  | ConfigObject c =>
      (_update_config_file_version ;;; scan_models_directory false)
        (start c None)
  | ConfigPath p =>
      match OmegaConf_load p d with
      | Ok c =>
          (_update_config_file_version ;;; scan_models_directory false)
            (start c (Some p))
      | Raise e => (Raise e, start [] (Some p))
      end
  | ConfigOther =>
      (Raise (ValueError
                "config argument must be an OmegaConf object, a Path or a string"),
       start [] None)
  end.

End Construction.

(** * Properties *)

(** ** Strings *)

Lemma cut_app_sep (c : ascii) (l r : string) :
  Str.cut c l = None -> Str.cut c (l +:+ String c r) = Some (l, r).
Proof.
  induction l as [|a l IH]; simpl; intros Hl.
  - now rewrite Ascii.eqb_refl.
  - destruct (Ascii.eqb a c); [discriminate|].
    destruct (Str.cut c l) as [[? ?]|]; [discriminate|].
    now rewrite IH.
Qed.

Lemma SDModelType_value_no_slash (t : SDModelType) :
  Str.cut slash (SDModelType_value t) = None.
Proof. destruct t; reflexivity. Qed.

Lemma SDModelType_of_value_value (t : SDModelType) :
  SDModelType_of_value (SDModelType_value t) = Ok t.
Proof. destruct t; reflexivity. Qed.

(** ** Key codec *)

(** C7: decoding an encoded key gives back the name and the type, for every
    name (also one that contains a slash) and every model type. *)
Theorem parse_key_create_key (model_name : string) (model_type : SDModelType) :
  parse_key (create_key model_name model_type) = Ok (model_name, model_type).
Proof.
  unfold parse_key, create_key, Str.split1.
  change ("/" +:+ model_name) with (String slash model_name).
  rewrite (cut_app_sep slash _ model_name (SDModelType_value_no_slash model_type)).
  now rewrite SDModelType_of_value_value.
Qed.

Lemma cut_inv (c : ascii) (s l r : string) :
  Str.cut c s = Some (l, r) -> s = l +:+ String c r.
Proof.
  revert l r; induction s as [|a s IH]; simpl; intros l r Hc; [discriminate|].
  destruct (Ascii.eqb_spec a c) as [->|Hne].
  - now inversion Hc.
  - destruct (Str.cut c s) as [[l' r']|] eqn:E; [|discriminate].
    inversion Hc; subst.
    change (String a s = String a (l' +:+ String c r)).
    f_equal. now apply IH.
Qed.

Lemma SDModelType_of_value_inv (s : string) (t : SDModelType) :
  SDModelType_of_value s = Ok t -> SDModelType_value t = s.
Proof.
  unfold SDModelType_of_value.
  destruct (List.find _ all_model_types) as [t'|] eqn:Hf; [|discriminate].
  intros [= <-]. apply List.find_some in Hf as [_ Heq].
  now apply String.eqb_eq.
Qed.

(** Encoding is also a left inverse of decoding. *)
Lemma create_key_parse_key (key model_name : string) (model_type : SDModelType) :
  parse_key key = Ok (model_name, model_type) ->
  create_key model_name model_type = key.
Proof.
  unfold parse_key, Str.split1, create_key.
  destruct (Str.cut slash key) as [[ts n]|] eqn:Hc; [|discriminate].
  destruct (SDModelType_of_value ts) as [t|] eqn:Ht; [|discriminate].
  intros [= <- <-]. apply cut_inv in Hc. apply SDModelType_of_value_inv in Ht.
  now subst.
Qed.

(** ** Ordered mappings *)

Lemma Dict_lookup_app_notin (k : string) (p s : DictConfig) :
  ~ List.In k (Dict.keys p) -> Dict.lookup k (p ++ s) = Dict.lookup k s.
Proof.
  induction p as [|[k' v'] p IH]; simpl; intros Hn; [reflexivity|].
  destruct (String.eqb_spec k' k) as [->|Hne]; [tauto|].
  apply IH. tauto.
Qed.

Lemma Dict_set_app_notin (k : string) (v : value) (p s : DictConfig) :
  ~ List.In k (Dict.keys p) -> Dict.set k v (p ++ s) = (p ++ Dict.set k v s)%list.
Proof.
  induction p as [|[k' v'] p IH]; simpl; intros Hn; [reflexivity|].
  destruct (String.eqb_spec k' k) as [->|Hne]; [tauto|].
  rewrite IH; tauto.
Qed.

Lemma Dict_lookup_remove_same (k : string) (d : DictConfig) :
  Dict.lookup k (Dict.remove k d) = None.
Proof.
  induction d as [|[k' v'] d IH]; simpl; [reflexivity|].
  destruct (String.eqb_spec k' k) as [->|Hne]; [exact IH|].
  simpl. destruct (String.eqb_spec k' k); [contradiction|exact IH].
Qed.

Lemma Dict_keys_app (p s : DictConfig) :
  Dict.keys (p ++ s) = (Dict.keys p ++ Dict.keys s)%list.
Proof. apply List.map_app. Qed.

(** ** The default flag *)

Lemma clear_default_key (kv : string * value) : fst (clear_default kv) = fst kv.
Proof. destruct kv as [k []]; reflexivity. Qed.

Lemma clear_default_not_default (kv : string * value) :
  is_default (snd (clear_default kv)) = false.
Proof.
  destruct kv as [k []]; try reflexivity.
  simpl. unfold Dict.get. now rewrite Dict_lookup_remove_same.
Qed.

Lemma keys_map_clear_default (cfg : DictConfig) :
  Dict.keys (List.map clear_default cfg) = Dict.keys cfg.
Proof.
  unfold Dict.keys. rewrite List.map_map.
  apply List.map_ext. intros; apply clear_default_key.
Qed.

Lemma default_keys_map_clear_default (cfg : DictConfig) :
  default_keys (List.map clear_default cfg) = [].
Proof.
  unfold default_keys.
  induction cfg as [|kv cfg IH]; simpl; [reflexivity|].
  now rewrite clear_default_not_default.
Qed.

Lemma default_keys_set (k : string) (v : value) (cfg : DictConfig) :
  default_keys cfg = [] -> length (default_keys (Dict.set k v cfg)) <= 1.
Proof.
  unfold default_keys. rewrite !List.length_map.
  intros Hnil. apply List.map_eq_nil in Hnil.
  induction cfg as [|[k' v'] cfg IH]; simpl in *.
  - destruct (is_default v); simpl; lia.
  - destruct (is_default v') eqn:Hd; [discriminate|].
    destruct (String.eqb k' k); simpl.
    + rewrite Hnil. destruct (is_default v); simpl; lia.
    + rewrite Hd. now apply IH.
Qed.

Lemma default_keys_of_type_le (t : SDModelType) (cfg : DictConfig) :
  length (default_keys_of_type t cfg) <= length (default_keys cfg).
Proof. unfold default_keys_of_type. apply List.filter_length_le. Qed.

Lemma last_cons_default {A} (a d : A) (l : list A) :
  List.last (a :: l) d = List.last l a.
Proof.
  revert a d; induction l as [|b l IH]; intros a d; [reflexivity|].
  change (List.last (a :: b :: l) d) with (List.last (b :: l) d).
  rewrite (IH b d). symmetry. apply IH.
Qed.

Lemma last_in {A} (l : list A) (d : A) : l <> [] -> List.In (List.last l d) l.
Proof.
  induction l as [|a l IH]; [congruence|]. intros _.
  destruct l as [|b l]; [now left|].
  right. apply IH. discriminate.
Qed.

Lemma Dict_in_lookup (k : string) (v : value) (cfg : DictConfig) :
  List.NoDup (Dict.keys cfg) -> List.In (k, v) cfg -> Dict.lookup k cfg = Some v.
Proof.
  induction cfg as [|[k' v'] cfg IH]; simpl; [tauto|].
  intros Hnd [Heq|Hin].
  - injection Heq as -> ->. now rewrite String.eqb_refl.
  - apply List.NoDup_cons_iff in Hnd as [Hk' Hnd].
    destruct (String.eqb_spec k' k) as [->|Hne].
    + exfalso. apply Hk'. unfold Dict.keys.
      change k with (fst (k, v)). now apply List.in_map.
    + now apply IH.
Qed.

Lemma Dict_lookup_map_clear_default (k : string) (cfg : DictConfig) :
  Dict.lookup k (List.map clear_default cfg)
  = option_map (fun v => snd (clear_default (k, v))) (Dict.lookup k cfg).
Proof.
  induction cfg as [|[k' v'] cfg IH]; simpl; [reflexivity|].
  assert (Hfst : fst (clear_default (k', v')) = k') by apply clear_default_key.
  destruct (clear_default (k', v')) as [k'' v''] eqn:Hcd. simpl in Hfst. subst k''.
  simpl. destruct (String.eqb_spec k' k) as [->|Hne]; [|exact IH].
  simpl. now rewrite Hcd.
Qed.

Section ManagerFacts.

Context {D : Type} `{FS : FileSystem D} `{EXT : Collaborators D}.

Lemma bind_ok {A B} (c : M D A) (k : A -> M D B) m a m' :
  c m = (Ok a, m') -> bind c k m = k a m'.
Proof. unfold bind; now intros ->. Qed.

Lemma bind_raise {A B} (c : M D A) (k : A -> M D B) m e m' :
  c m = (Raise e, m') -> bind c k m = (Raise e, m').
Proof. unfold bind; now intros ->. Qed.

Lemma with_config_same (m : Manager D) : with_config (config m) m = m.
Proof. now destruct m. Qed.

Lemma config_with_config (c : DictConfig) (m : Manager D) :
  config (with_config c m) = c.
Proof. reflexivity. Qed.

Lemma with_config_twice (c1 c2 : DictConfig) (m : Manager D) :
  with_config c2 (with_config c1 m) = with_config c2 m.
Proof. reflexivity. Qed.

Lemma stanza_pop_run (key field : string) (d : DictConfig) (m : Manager D) :
  Dict.lookup key (config m) = Some (VDict d) ->
  stanza_pop key field m
  = (Ok tt, with_config (Dict.set key (VDict (Dict.remove field d)) (config m)) m).
Proof.
  intros Hl. unfold stanza_pop, stanza_at, bind, get_config, ret, put_config.
  now rewrite Hl.
Qed.

(** The loop of [set_default_model] clears the flag of every descriptor,
    in place, and ends with its variables bound to the last descriptor. *)
Lemma clear_defaults_run (suffix : DictConfig) :
  forall (prefix : DictConfig) names cur (m : Manager D),
    config m = (prefix ++ suffix)%list ->
    List.NoDup (Dict.keys (prefix ++ suffix)) ->
    parse_stanza_keys suffix = Ok names ->
    clear_defaults names cur m
    = (Ok (List.last names cur),
       with_config (prefix ++ List.map clear_default suffix) m).
Proof.
  induction suffix as [|[x v] rest IH]; intros prefix names cur m Hc Hnd Hp.
  - simpl in Hp. injection Hp as <-. simpl.
    rewrite <- Hc. now rewrite with_config_same.
  - assert (Hx : ~ List.In x (Dict.keys prefix)).
    { rewrite Dict_keys_app in Hnd. simpl in Hnd.
      apply List.NoDup_remove_2 in Hnd. intros Hin. apply Hnd.
      apply List.in_or_app. now left. }
    assert (Hstep : forall v',
               List.NoDup (Dict.keys ((prefix ++ [(x, v')]) ++ rest))).
    { intros v'. rewrite <- List.app_assoc. simpl.
      rewrite Dict_keys_app in *. exact Hnd. }
    simpl in Hp. destruct v as [| b | z | s | d];
      try (match type of Hc with
           | _ = (_ ++ (x, ?v) :: _)%list =>
               rewrite (IH (prefix ++ [(x, v)])%list names cur m);
               [ now rewrite <- List.app_assoc
               | now rewrite <- List.app_assoc
               | apply Hstep | exact Hp ]
           end).
    simpl in Hp.
    destruct (parse_key x) as [[n ty]|] eqn:Hk; simpl in Hp; [|discriminate].
    destruct (parse_stanza_keys rest) as [ps|] eqn:Hr; simpl in Hp; [|discriminate].
    injection Hp as <-.
    apply create_key_parse_key in Hk.
    simpl. rewrite Hk.
    erewrite bind_ok; cycle 1.
    { apply stanza_pop_run. rewrite Hc, Dict_lookup_app_notin by exact Hx.
      simpl. now rewrite String.eqb_refl. }
    rewrite Hc, Dict_set_app_notin by exact Hx. simpl.
    rewrite String.eqb_refl.
    rewrite (IH (prefix ++ [(x, VDict (Dict.remove "default" d))])%list ps (n, ty)).
    + rewrite with_config_twice, <- List.app_assoc.
      now rewrite <- (last_cons_default (n, ty) cur ps).
    + simpl. now rewrite <- List.app_assoc.
    + apply Hstep.
    + reflexivity.
Qed.

Lemma parse_stanza_keys_in (cfg : DictConfig) :
  forall names p,
    parse_stanza_keys cfg = Ok names -> List.In p names ->
    exists d, List.In (create_key (fst p) (snd p), VDict d) cfg.
Proof.
  induction cfg as [|[x v] cfg IH]; simpl; intros names p Hp Hin.
  - injection Hp as <-. destruct Hin.
  - destruct v as [| b | z | s | d]; simpl in Hp;
      try (destruct (IH names p Hp Hin) as [d' Hd']; exists d'; now right).
    destruct (parse_key x) as [q|] eqn:Hk; simpl in Hp; [|discriminate].
    destruct (parse_stanza_keys cfg) as [ps|] eqn:Hr; simpl in Hp; [|discriminate].
    injection Hp as <-. destruct Hin as [<-|Hin].
    + exists d. left. destruct q as [n ty]. simpl.
      now rewrite (create_key_parse_key x n ty Hk).
    + destruct (IH ps p eq_refl Hin) as [d' Hd']. exists d'. now right.
Qed.

Lemma parse_stanza_keys_nonempty (key : string) (d : DictConfig) (cfg : DictConfig) :
  forall names,
    Dict.lookup key cfg = Some (VDict d) ->
    parse_stanza_keys cfg = Ok names -> names <> [].
Proof.
  induction cfg as [|[x v] cfg IH]; simpl; intros names Hl Hp; [discriminate|].
  destruct (is_DictConfig v) eqn:Hv.
  - destruct (parse_key x) as [q|]; [|discriminate].
    destruct (parse_stanza_keys cfg) as [ps|]; [|discriminate].
    injection Hp as <-. discriminate.
  - destruct (String.eqb x key).
    + injection Hl as ->. discriminate.
    + now apply IH.
Qed.

(** What a call of [set_default_model] that gets past its assertion and
    decodes every descriptor key does: the loop clears every flag, and the
    flag is then set on the descriptor the loop variables name. *)
Lemma set_default_model_run (m : Manager D) model_name model_type names :
  List.NoDup (Dict.keys (config m)) ->
  Dict.mem (create_key model_name model_type) (config m) = true ->
  parse_stanza_keys (config m) = Ok names ->
  set_default_model model_name model_type m
  = (let cur := List.last names (model_name, model_type) in
     stanza_set (create_key (fst cur) (snd cur)) "default" (VBool true)
       (with_config (List.map clear_default (config m)) m)).
Proof.
  intros Hnd Hmem Hp.
  unfold set_default_model, model_exists, model_names, bind, get_config, ret, lift.
  rewrite Hmem. change (negb true) with false. cbv beta iota.
  rewrite Hp. cbv beta iota.
  rewrite (clear_defaults_run (config m) [] names (model_name, model_type) m
             eq_refl Hnd Hp).
  simpl app. now destruct (List.last names (model_name, model_type)).
Qed.

End ManagerFacts.

(** ** [set_default_model] *)

Section SetDefault.

Context {D : Type} `{FS : FileSystem D} `{EXT : Collaborators D}.

(** C8: after a call of [set_default_model] on a model that exists, at
    most one descriptor of the affected type carries the default flag (at
    most one of any type, and at most one in the whole store), however
    many carried it before; and the call does return when the named model
    is a descriptor and every descriptor key decodes. *)
Theorem set_default_model_at_most_one_default
    (m : Manager D) (model_name : string) (model_type : SDModelType) :
  List.NoDup (Dict.keys (config m)) ->
  Dict.mem (create_key model_name model_type) (config m) = true ->
  (forall m',
      set_default_model model_name model_type m = (Ok tt, m') ->
      length (default_keys_of_type model_type (config m')) <= 1
      /\ (forall t, length (default_keys_of_type t (config m')) <= 1)
      /\ length (default_keys (config m')) <= 1)
  /\ (forall d names,
         Dict.lookup (create_key model_name model_type) (config m) = Some (VDict d) ->
         parse_stanza_keys (config m) = Ok names ->
         exists m', set_default_model model_name model_type m = (Ok tt, m')).
Proof.
  intros Hnd Hmem. split.
  - intros m' Hrun.
    assert (Hall : length (default_keys (config m')) <= 1).
    { destruct (parse_stanza_keys (config m)) as [names|e] eqn:Hp.
      - rewrite (set_default_model_run m _ _ names Hnd Hmem Hp) in Hrun.
        cbv zeta in Hrun. unfold stanza_set, bind, get_config in Hrun.
        rewrite config_with_config in Hrun.
        match type of Hrun with
        | context [Dict.lookup ?k ?c] =>
            destruct (Dict.lookup k c) as [[| | | |d']|]; try discriminate
        end.
        unfold put_config in Hrun. injection Hrun as <-.
        rewrite config_with_config.
        apply default_keys_set, default_keys_map_clear_default.
      - exfalso. revert Hrun.
        unfold set_default_model, model_exists, model_names, bind,
          get_config, ret, lift.
        rewrite Hmem. change (negb true) with false. cbv beta iota.
        rewrite Hp. discriminate. }
    assert (Hty : forall t, length (default_keys_of_type t (config m')) <= 1).
    { intros t. pose proof (default_keys_of_type_le t (config m')). lia. }
    auto.
  - intros d names Hl Hp.
    rewrite (set_default_model_run m _ _ names Hnd Hmem Hp). cbv zeta.
    pose proof (parse_stanza_keys_nonempty _ _ _ _ Hl Hp) as Hne.
    pose proof (last_in names (model_name, model_type) Hne) as Hin.
    destruct (parse_stanza_keys_in _ _ _ Hp Hin) as [d' Hd'].
    apply (Dict_in_lookup _ _ _ Hnd) in Hd'.
    unfold stanza_set, bind, get_config. rewrite config_with_config.
    rewrite Dict_lookup_map_clear_default, Hd'. simpl.
    eexists. reflexivity.
Qed.

End SetDefault.

Lemma set_default_model_at_most_one_default_witness :
  length (default_keys (config Examples.two_defaults)) = 2
  /\ exists m',
       set_default_model "a" Diffusers Examples.two_defaults = (Ok tt, m')
       /\ length (default_keys_of_type Diffusers (config m')) <= 1.
Proof.
  split; [reflexivity|].
  assert (Hnd : List.NoDup (Dict.keys (config Examples.two_defaults))).
  { repeat (apply List.NoDup_cons; [simpl; intuition discriminate|]).
    apply List.NoDup_nil. }
  assert (Hmem : Dict.mem (create_key "a" Diffusers) (config Examples.two_defaults) = true)
    by reflexivity.
  destruct (set_default_model_at_most_one_default Examples.two_defaults "a" Diffusers Hnd Hmem)
    as [Hpost Htotal].
  destruct (Htotal [("path", VStr "a"); ("default", VBool true)]
              [("a", Diffusers); ("b", Diffusers); ("c", Lora)]
              eq_refl eq_refl) as [m' Hrun].
  exists m'. split; [exact Hrun|].
  exact (proj1 (Hpost m' Hrun)).
Defined.

(** ** [del_model] *)

Section DelModel.

Context {D : Type} `{FS : FileSystem D} `{EXT : Collaborators D}.

(** C1, as the code has it: [del_model] never gets to the store.  The
    lookup of [pop] on the manager raises [AttributeError], for a known key
    as for an unknown one; nothing is logged and the exception reaches the
    caller.  The store and the disk are as they were. *)
Theorem del_model_raises_AttributeError
    (m : Manager D) (model_name : string) (model_type : SDModelType)
    (delete_files : bool) :
  del_model model_name model_type delete_files m
  = (Raise (AttributeError "'ModelManager' object has no attribute 'pop'"), m).
Proof. reflexivity. Qed.

End DelModel.

(** ** The schema migrator *)

Section Migrator.

Context {D : Type} `{FS : FileSystem D} `{EXT : Collaborators D}.

(** C5: on a store whose version tag is the current schema version the
    migrator does nothing: the store, its version tag, the disk (no
    backup, nothing written) and the log are as before; so running it
    twice is running it once. *)
Theorem update_config_file_version_current_noop (m : Manager D) :
  Dict.lookup "_version" (config m) = Some (VStr CONFIG_FILE_VERSION) ->
  _update_config_file_version m = (Ok tt, m)
  /\ bind _update_config_file_version (fun _ => _update_config_file_version) m
     = _update_config_file_version m.
Proof.
  intros Hv.
  assert (Hrun : _update_config_file_version m = (Ok tt, m)).
  { unfold _update_config_file_version, bind, get_config, lift, Dict.get_default.
    rewrite Hv. reflexivity. }
  split; [exact Hrun|].
  rewrite (bind_ok _ _ _ _ _ Hrun). reflexivity.
Qed.

End Migrator.

Lemma update_config_file_version_current_noop_witness :
  _update_config_file_version Examples.current_store
  = (Ok tt, Examples.current_store).
Proof.
  apply (update_config_file_version_current_noop Examples.current_store).
  reflexivity.
Defined.

(** ** What the migrator copies *)

Lemma Dict_mem_keys (k : string) (d : DictConfig) :
  Dict.mem k d = true -> List.In k (Dict.keys d).
Proof.
  unfold Dict.mem. induction d as [|[k' v'] d IH]; simpl; [discriminate|].
  destruct (String.eqb_spec k' k) as [->|Hne]; [now left|].
  intros H. right. now apply IH.
Qed.

Lemma Dict_in_set (k k0 : string) (v v0 : value) (d : DictConfig) :
  List.In (k, v) (Dict.set k0 v0 d) -> (k, v) = (k0, v0) \/ List.In (k, v) d.
Proof.
  induction d as [|[k' v'] d IH]; simpl.
  - intros [H|[]]. now left.
  - destruct (String.eqb k' k0); simpl.
    + intros [H|H]; [now left|right; now right].
    + intros [H|H]; [right; now left|].
      destruct (IH H) as [?|?]; [now left|right; now right].
Qed.

Lemma migrate_stanza_spec (old_stanza new_stanza : DictConfig) :
  Migration.migrate_stanza old_stanza = Ok new_stanza ->
  migrated_from old_stanza new_stanza.
Proof.
  unfold Migration.migrate_stanza, rbind.
  destruct (Migration.derive_format old_stanza) as [fmt|e] eqn:Hfmt; [|discriminate].
  intros [= <-].
  unfold Migration.copied_fields, Migration.copy_fields, Dict.update1, migrated_from.
  destruct (truthy (Dict.get "repo_id" old_stanza)) eqn:H1;
    destruct (truthy (Dict.get "path" old_stanza)) eqn:H2;
    destruct (truthy (Dict.get "weights" old_stanza)) eqn:H3;
    destruct (truthy (Dict.get "config" old_stanza)) eqn:H4;
    destruct (truthy (Dict.get "vae" old_stanza)) eqn:H5;
    (split; [intros f Hm; apply Dict_mem_keys in Hm; simpl in Hm; simpl; tauto|]);
    (split; [reflexivity|]);
    (split; [exists fmt; split; [exact Hfmt|reflexivity]|]);
    intros f [<-|[<-|[<-|[<-|[<-|[]]]]]];
    rewrite ?H1, ?H2, ?H3, ?H4, ?H5; reflexivity.
Qed.

Lemma migrate_entries_origin (old : DictConfig) :
  forall (acc new_cfg : DictConfig) (key : string) (v : value),
    Migration.migrate_entries old acc = Ok new_cfg ->
    List.In (key, v) new_cfg ->
    List.In (key, v) acc
    \/ exists old_key old_stanza new_stanza,
         List.In (old_key, VDict old_stanza) old
         /\ key = Migration.new_key_of old_key
         /\ v = VDict new_stanza
         /\ Migration.migrate_stanza old_stanza = Ok new_stanza.
Proof.
  induction old as [|[model_key old_stanza] rest IH];
    intros acc new_cfg key v Hrun Hin; simpl in Hrun.
  - injection Hrun as <-. now left.
  - assert (Hlift : forall acc',
               Migration.migrate_entries rest acc' = Ok new_cfg ->
               List.In (key, v) acc' \/
               exists old_key old_stanza0 new_stanza,
                 List.In (old_key, VDict old_stanza0) ((model_key, old_stanza) :: rest)
                 /\ key = Migration.new_key_of old_key
                 /\ v = VDict new_stanza
                 /\ Migration.migrate_stanza old_stanza0 = Ok new_stanza).
    { intros acc' Hrun'. destruct (IH acc' new_cfg key v Hrun' Hin)
        as [?|(ok & os & ns & Hi & ? & ? & ?)]; [now left|].
      right. exists ok, os, ns. repeat split; try assumption. now right. }
    destruct old_stanza as [| b | z | s | st]; try (now apply Hlift).
    unfold rbind in Hrun.
    destruct (Migration.is_legacy_vae st) as [[|]|e]; [now apply Hlift| |discriminate].
    destruct (Migration.migrate_stanza st) as [ns|e] eqn:Hst; [|discriminate].
    destruct (Hlift _ Hrun) as [Hacc|?]; [|now right].
    apply Dict_in_set in Hacc as [[= -> ->]|Hacc]; [|now left].
    right. exists model_key, st, ns. repeat split; try assumption. now left.
Qed.

(** C6, as the code has it: the stanza the migrator writes holds the
    description of the old stanza (or [None]), the re-derived format, and
    those of [repo_id], [path], [weights], [config] and [vae] whose old value
    is truthy; no other field of the old stanza is in the migrated store.
    Every entry of the migrated store is the version tag or such a stanza. *)
Theorem migrate_copies_description_format_and_listed_fields
    (old_cfg new_cfg : DictConfig) (key : string) (v : value) :
  Migration.migrate old_cfg = Ok new_cfg ->
  List.In (key, v) new_cfg ->
  (key, v) = ("_version", VStr CONFIG_FILE_VERSION)
  \/ exists old_key old_stanza new_stanza,
       List.In (old_key, VDict old_stanza) old_cfg
       /\ key = Migration.new_key_of old_key
       /\ v = VDict new_stanza
       /\ migrated_from old_stanza new_stanza.
Proof.
  intros Hrun Hin.
  destruct (migrate_entries_origin _ _ _ _ _ Hrun Hin)
    as [[Heq|[]]|(ok & os & ns & Hi & Hk & Hv & Hst)].
  - left. now symmetry.
  - right. exists ok, os, ns. repeat split; try assumption.
    all: apply (migrate_stanza_spec _ _ Hst).
Qed.

Lemma migrate_copies_description_format_and_listed_fields_witness :
  Migration.migrate Examples.legacy_store
  = Ok [("_version", VStr "3.0.0");
        ("diffusers/test1", VDict Examples.legacy_stanza_migrated)]
  /\ migrated_from Examples.legacy_stanza Examples.legacy_stanza_migrated.
Proof.
  split; [reflexivity|].
  destruct (migrate_copies_description_format_and_listed_fields
              Examples.legacy_store
              [("_version", VStr "3.0.0");
               ("diffusers/test1", VDict Examples.legacy_stanza_migrated)]
              "diffusers/test1" (VDict Examples.legacy_stanza_migrated)
              eq_refl (or_intror (or_introl eq_refl)))
    as [Habs|(ok & os & ns & Hi & Hk & Hv & Hm)].
  - discriminate Habs.
  - destruct Hi as [Hi|[]]. injection Hi as <- <-. injection Hv as <-. exact Hm.
Defined.

(** C6, as the claim has it, fails: the description is copied too. *)
Lemma migrate_keeps_description_counterexample :
  Migration.migrate_stanza Examples.legacy_stanza = Ok Examples.legacy_stanza_migrated
  /\ Dict.lookup "description" Examples.legacy_stanza_migrated
     = Dict.lookup "description" Examples.legacy_stanza
  /\ ~ only_listed_fields Examples.legacy_stanza_migrated.
Proof.
  split; [reflexivity|]. split; [reflexivity|].
  intros H. specialize (H "description" eq_refl).
  simpl in H. intuition discriminate.
Qed.

(** ** The legacy probe *)

Lemma probe_v2 (checkpoint : Checkpoint) (t : Shape) :
  effective_state_dict checkpoint !! attn2_key = Some t ->
  last t = Some 1024%Z ->
  probe_model_type checkpoint
  = Ok match global_step checkpoint with
       | Some step => if (step =? 220000)%Z then V2_e
                      else if (step =? 110000)%Z then V2_v else V2
       | None => V2
       end.
Proof.
  intros Ht Hl. unfold probe_model_type, last_dim. rewrite Ht, Hl. simpl.
  destruct (global_step checkpoint) as [step|]; [|reflexivity].
  destruct (step =? 220000)%Z; [reflexivity|].
  destruct (step =? 110000)%Z; reflexivity.
Qed.

Lemma probe_not_v2 (checkpoint : Checkpoint) :
  effective_state_dict checkpoint !! attn2_key = None
  \/ (exists t d, effective_state_dict checkpoint !! attn2_key = Some t
                  /\ last t = Some d /\ d <> 1024%Z) ->
  probe_model_type checkpoint
  = except_KeyError
      (t <- getitem (effective_state_dict checkpoint) conv_in_key ;;
       in_channels <- dim_at 1 t ;;
       if (in_channels =? 9)%Z then Ok V1_INPAINT
       else if (in_channels =? 4)%Z then Ok V1
       else Ok UNKNOWN)%res.
Proof.
  unfold probe_model_type, last_dim.
  intros [->|(t & d & -> & -> & Hd)]; [reflexivity|].
  simpl. now apply Z.eqb_neq in Hd as ->.
Qed.

(** C3: a checkpoint whose cross-attention tensor is there with last
    dimension 1024 is of the V2 family, [V2_e] at step 220000, [V2_v] at
    step 110000, plain [V2] at any other step or none.  Otherwise (the
    tensor is not there, or its last dimension is another number) the
    input-channel count of the first convolution decides: 9 is
    [V1_INPAINT], 4 is [V1], any other count is [UNKNOWN], and so is a
    missing convolution tensor. *)
Theorem probe_model_type_classification (checkpoint : Checkpoint) :
  let sd := effective_state_dict checkpoint in
  (forall t, sd !! attn2_key = Some t -> last t = Some 1024%Z ->
     (global_step checkpoint = Some 220000%Z ->
        probe_model_type checkpoint = Ok V2_e)
     /\ (global_step checkpoint = Some 110000%Z ->
        probe_model_type checkpoint = Ok V2_v)
     /\ (global_step checkpoint <> Some 220000%Z ->
         global_step checkpoint <> Some 110000%Z ->
        probe_model_type checkpoint = Ok V2))
  /\ (sd !! attn2_key = None
      \/ (exists t d, sd !! attn2_key = Some t /\ last t = Some d /\ d <> 1024%Z) ->
      (sd !! conv_in_key = None -> probe_model_type checkpoint = Ok UNKNOWN)
      /\ (forall t in_channels,
             sd !! conv_in_key = Some t -> t !! 1%nat = Some in_channels ->
             (in_channels = 9%Z -> probe_model_type checkpoint = Ok V1_INPAINT)
             /\ (in_channels = 4%Z -> probe_model_type checkpoint = Ok V1)
             /\ (in_channels <> 9%Z -> in_channels <> 4%Z ->
                 probe_model_type checkpoint = Ok UNKNOWN))).
Proof.
  intros sd. split.
  - intros t Ht Hl. rewrite (probe_v2 checkpoint t Ht Hl).
    repeat split.
    + now intros ->.
    + now intros ->.
    + intros H1 H2. destruct (global_step checkpoint) as [step|]; [|reflexivity].
      destruct (Z.eqb_spec step 220000) as [->|_]; [congruence|].
      destruct (Z.eqb_spec step 110000) as [->|_]; [congruence|reflexivity].
  - intros Hnot. rewrite (probe_not_v2 checkpoint Hnot). fold sd.
    unfold getitem, dim_at. split.
    + now intros ->.
    + intros t c -> Hc. simpl. rewrite Hc. simpl. repeat split.
      * now intros ->.
      * now intros ->.
      * intros H9 H4. apply Z.eqb_neq in H9 as ->. now apply Z.eqb_neq in H4 as ->.
Qed.

Lemma probe_model_type_classification_witness :
  probe_model_type Examples.v2_checkpoint = Ok V2_e
  /\ probe_model_type Examples.inpainting_checkpoint = Ok V1_INPAINT.
Proof.
  split.
  - refine (proj1 (proj1 (probe_model_type_classification Examples.v2_checkpoint)
                     [320; 1024]%Z _ _) _); reflexivity.
  - refine (proj1 (proj2 (proj2 (probe_model_type_classification
                                   Examples.inpainting_checkpoint) _)
                     [320; 9; 3; 3]%Z 9%Z _ _) _); try reflexivity.
    right. exists [320; 768]%Z, 768%Z. repeat split. discriminate.
Defined.

(** ** The VAE of a conversion *)

Section VaeTiers.

Context {D : Type} `{FS : FileSystem D} `{EXT : Collaborators D}.

Lemma vae_sibling_ok (weights : Path) (suffix : string) :
  Str.nonempty (Pathlib.name weights) = true ->
  List.In suffix ["pt"; "ckpt"; "safetensors"] ->
  vae_sibling weights suffix = Ok (sibling_path weights suffix).
Proof.
  intros Hn Hin. unfold vae_sibling, Pathlib.with_suffix.
  destruct Hin as [<-|[<-|[<-|[]]]]; simpl; rewrite Hn; reflexivity.
Qed.

(** The loop over the suffixes only reads the disk and writes to the log. *)
Lemma find_vae_sibling_run (weights : Path) (m : Manager D) :
  Str.nonempty (Pathlib.name weights) = true ->
  exists m',
    find_vae_sibling ["pt"; "ckpt"; "safetensors"] weights None m
    = (Ok (chosen_sibling (disk m) weights), m')
    /\ disk m' = disk m /\ config m' = config m
    /\ converter_calls m' = converter_calls m
    /\ (chosen_sibling (disk m) weights = None -> m' = m).
Proof.
  intros Hn. unfold find_vae_sibling, chosen_sibling, bind, lift, get_disk, log, ret.
  rewrite !vae_sibling_ok by (assumption || (simpl; tauto)).
  destruct (path_exists (disk m) (sibling_path weights "pt")) eqn:E1; simpl;
    rewrite ?E1;
    destruct (path_exists (disk m) (sibling_path weights "ckpt")) eqn:E2; simpl;
    rewrite ?E1, ?E2;
    destruct (path_exists (disk m) (sibling_path weights "safetensors")) eqn:E3;
    simpl; rewrite ?E1, ?E2, ?E3;
    eexists; (split; [reflexivity|]); repeat split; discriminate.
Qed.

(** The location a structured [vae] field names. *)
Lemma vae_diffusers_location_cases (vae_dict : DictConfig) :
  (forall p, Dict.get "path" vae_dict = VStr p -> p <> "" ->
     vae_diffusers_location vae_dict
     = Ok (Some (LocPath (Pathlib.join_str (root_dir globals) p))))
  /\ (forall r, truthy (Dict.get "path" vae_dict) = false ->
        Dict.get "repo_id" vae_dict = VStr r -> r <> "" ->
        vae_diffusers_location vae_dict = Ok (Some (LocRepo r)))
  /\ (truthy (Dict.get "path" vae_dict) = false ->
      truthy (Dict.get "repo_id" vae_dict) = false ->
      vae_diffusers_location vae_dict = Ok None).
Proof.
  unfold vae_diffusers_location. repeat split.
  - intros p -> Hp. destruct p; [congruence|reflexivity].
  - intros r -> -> Hr. destruct r; [congruence|reflexivity].
  - now intros -> ->.
Qed.

(** C4, as the code has it.  With [p] the last sibling
    [<stem>.vae.{pt,ckpt,safetensors}] that exists: (a) [p] is the VAE
    path; failing that (b) a non-empty string [vae] field is the VAE path;
    (c) a non-empty structured [vae] field has its [path] (under the root
    directory) or else its [repo_id] loaded through the model cache, and
    when it names neither no VAE is given at all; (d) any other [vae] field,
    or none, has the fixed identifier loaded through the model cache.  The
    outcome is never both a path and an object. *)
Theorem get_vae_for_conversion_tiers
    (m : Manager D) (weights : Path) (mconfig : DictConfig) :
  Str.nonempty (Pathlib.name weights) = true ->
  let vae_config := Dict.get "vae" mconfig in
  let run := _get_vae_for_conversion weights mconfig in
  (forall p, chosen_sibling (disk m) weights = Some p ->
     exists m', run m = (Ok (Some (PPath p), None), m')
                /\ disk m' = disk m /\ config m' = config m)
  /\ (chosen_sibling (disk m) weights = None ->
      (forall s, vae_config = VStr s -> s <> "" ->
         run m = (Ok (Some (PStr s), None), m))
      /\ (forall vae_dict p,
            vae_config = VDict vae_dict ->
            Dict.get "path" vae_dict = VStr p -> p <> "" ->
            run m = bind (load_vae (LocPath (Pathlib.join_str (root_dir globals) p)))
                         (fun vae_model => ret (None, Some vae_model)) m)
      /\ (forall vae_dict r,
            vae_config = VDict vae_dict ->
            truthy (Dict.get "path" vae_dict) = false ->
            Dict.get "repo_id" vae_dict = VStr r -> r <> "" ->
            run m = bind (load_vae (LocRepo r))
                         (fun vae_model => ret (None, Some vae_model)) m)
      /\ (forall vae_dict,
            vae_config = VDict vae_dict -> vae_dict <> [] ->
            truthy (Dict.get "path" vae_dict) = false ->
            truthy (Dict.get "repo_id" vae_dict) = false ->
            run m = (Ok (None, None), m))
      /\ (truthy vae_config = false
          \/ ((forall s, vae_config <> VStr s)
              /\ (forall vae_dict, vae_config <> VDict vae_dict)) ->
          run m = bind (load_vae (LocRepo FALLBACK_VAE))
                       (fun vae_model => ret (None, Some vae_model)) m))
  /\ (forall r m', run m = (Ok r, m') -> fst r = None \/ snd r = None).
Proof.
  intros Hn vae_config run.
  destruct (find_vae_sibling_run weights m Hn) as (m1 & Hfind & Hd & Hc & _ & Hsame).
  split; [|split].
  - intros p Hp. exists m1. unfold run, _get_vae_for_conversion.
    rewrite (bind_ok _ _ _ _ _ Hfind), Hp. auto.
  - intros Hnone. specialize (Hsame Hnone). subst m1.
    unfold run, _get_vae_for_conversion.
    rewrite (bind_ok _ _ _ _ _ Hfind), Hnone. fold vae_config.
    repeat split.
    + intros s -> Hs. destruct s; [congruence|reflexivity].
    + intros vd p -> Hp Hne.
      assert (Hvd : truthy (VDict vd) = true).
      { destruct vd; [|reflexivity]. now destruct p. }
      rewrite Hvd.
      destruct (vae_diffusers_location_cases vd) as (Hloc & _ & _).
      unfold bind at 1. unfold lift. now rewrite (Hloc p Hp Hne).
    + intros vd r -> Hp Hr Hne.
      assert (Hvd : truthy (VDict vd) = true).
      { destruct vd; [|reflexivity]. now destruct r. }
      rewrite Hvd.
      destruct (vae_diffusers_location_cases vd) as (_ & Hloc & _).
      unfold bind at 1. unfold lift. now rewrite (Hloc r Hp Hr Hne).
    + intros vd -> Hne Hp Hr.
      assert (Hvd : truthy (VDict vd) = true) by (now destruct vd).
      rewrite Hvd.
      destruct (vae_diffusers_location_cases vd) as (_ & _ & Hloc).
      unfold bind at 1. unfold lift. now rewrite (Hloc Hp Hr).
    + intros [Hf|[Hs Hdict]].
      * destruct vae_config as [| b | z | s | vd]; try reflexivity;
          rewrite Hf; reflexivity.
      * destruct vae_config as [| b | z | s | vd]; try reflexivity.
        -- now destruct (Hs s).
        -- now destruct (Hdict vd).
  - intros r m'. unfold run, _get_vae_for_conversion.
    rewrite (bind_ok _ _ _ _ _ Hfind).
    destruct (chosen_sibling (disk m) weights) as [p|].
    + intros [= <- _]. now right.
    + fold vae_config. unfold bind, lift, load_vae, on_disk, ret.
      destruct vae_config as [| b | z | s | vd];
        try destruct (truthy _);
        try destruct (vae_diffusers_location vd) as [[?|]|?];
        repeat match goal with
               | |- context [cache_get_model ?l ?t ?d] =>
                   destruct (cache_get_model l t d) as [[?|?] ?]
               end;
        intros Heq; inversion Heq; subst; simpl; auto.
Qed.

End VaeTiers.

Lemma get_vae_for_conversion_tiers_witness :
  exists m',
    _get_vae_for_conversion Examples.foo_weights Examples.foo_descriptor
      Examples.checkpoint_manager
    = (Ok (Some (PPath (Pathlib.of_string "/invokeai/models/ldm/foo.vae.pt")), None), m').
Proof.
  assert (Hname : Str.nonempty (Pathlib.name Examples.foo_weights) = true)
    by reflexivity.
  assert (Hsib : chosen_sibling (disk Examples.checkpoint_manager) Examples.foo_weights
                 = Some (Pathlib.of_string "/invokeai/models/ldm/foo.vae.pt"))
    by (vm_compute; reflexivity).
  destruct (proj1 (get_vae_for_conversion_tiers Examples.checkpoint_manager
                     Examples.foo_weights Examples.foo_descriptor Hname) _ Hsib)
    as (m' & Hrun & _).
  exists m'. exact Hrun.
Defined.

(** C4, as the claim has it, fails: a structured [vae] field that names
    neither a path nor a repository gives neither a path nor an object, and
    the fixed identifier is not used. *)
Lemma get_vae_for_conversion_neither_counterexample :
  chosen_sibling (disk Examples.checkpoint_manager) Examples.bar_weights = None
  /\ Dict.get "vae" Examples.bar_descriptor = VDict [("subfolder", VStr "vae")]
  /\ _get_vae_for_conversion Examples.bar_weights Examples.bar_descriptor
       Examples.checkpoint_manager
     = (Ok (None, None), Examples.checkpoint_manager).
Proof. repeat split. Qed.

(** ** The conversion cache *)

Section ConversionCache.

Context {D : Type} `{FS : FileSystem D} `{EXT : Collaborators D}.

Lemma find_vae_sibling_calls (suffixes : list string) (weights : Path) :
  forall acc (m m' : Manager D) r,
    find_vae_sibling suffixes weights acc m = (r, m') ->
    converter_calls m' = converter_calls m.
Proof.
  induction suffixes as [|sfx rest IH]; intros acc m m' r; simpl.
  - now intros [= _ <-].
  - unfold bind, lift, get_disk, log.
    destruct (vae_sibling weights sfx) as [cand|e]; [|now intros [= _ <-]].
    destruct (path_exists (disk m) cand); intros Hrun.
    + apply IH in Hrun. exact Hrun.
    + now apply IH in Hrun.
Qed.

Lemma load_vae_calls (loc : location) (m m' : Manager D) r :
  load_vae loc m = (r, m') -> converter_calls m' = converter_calls m.
Proof.
  unfold load_vae, on_disk.
  destruct (cache_get_model loc Vae (disk m)) as [r' d']. now intros [= _ <-].
Qed.

Lemma get_vae_for_conversion_calls (weights : Path) (mconfig : DictConfig)
    (m m' : Manager D) r :
  _get_vae_for_conversion weights mconfig m = (r, m') ->
  converter_calls m' = converter_calls m.
Proof.
  unfold _get_vae_for_conversion, bind at 1.
  destruct (find_vae_sibling _ weights None m) as [[[p|]|e] m1] eqn:Hfind;
    apply find_vae_sibling_calls in Hfind; rewrite <- Hfind.
  - now intros [= _ <-].
  - assert (Hload : forall loc r0 m0,
               bind (load_vae loc)
                 (fun v => ret (@None PathOrStr, Some v)) m1 = (r0, m0) ->
               converter_calls m0 = converter_calls m1).
    { intros loc r0 m0. unfold bind.
      destruct (load_vae loc m1) as [[v|e] m2] eqn:Hl;
        apply load_vae_calls in Hl; now intros [= _ <-]. }
    destruct (Dict.get "vae" mconfig) as [| b | z | s | vd]; try apply Hload.
    + destruct (truthy (VStr s)); [now intros [= _ <-]|apply Hload].
    + destruct (truthy (VDict vd)); [|apply Hload].
      unfold bind at 1, lift.
      destruct (vae_diffusers_location vd) as [[loc|]|e];
        [apply Hload| |]; now intros [= _ <-].
  - now intros [= _ <-].
Qed.

(** A cache hit: the directory is there, and it is returned as it is. *)
Lemma convert_ckpt_and_cache_hit (m : Manager D) (mconfig : DictConfig)
    (w c : string) :
  Dict.lookup "weights" mconfig = Some (VStr w) ->
  Dict.lookup "config" mconfig = Some (VStr c) ->
  path_exists (disk m)
    (Pathlib.join_str (converted_ckpts_dir globals)
       (Pathlib.stem (Pathlib.join_str (root_dir globals) w))) = true ->
  convert_ckpt_and_cache mconfig m
  = (Ok (Pathlib.join_str (converted_ckpts_dir globals)
           (Pathlib.stem (Pathlib.join_str (root_dir globals) w))), m).
Proof.
  intros Hw Hc Hex.
  unfold convert_ckpt_and_cache, dc_getattr, bind, lift, get_disk, converted_path.
  rewrite Hw, Hc. simpl. now rewrite Hex.
Qed.

(** A cache miss on which the VAE is resolved and the converter returns:
    the converter is called once, on the disk the resolution left. *)
Lemma convert_ckpt_and_cache_miss (m : Manager D) (mconfig : DictConfig)
    (w c : string) vae_ckpt_path vae_model (m2 : Manager D) (d' : D) :
  let weights := Pathlib.join_str (root_dir globals) w in
  let target :=
    Pathlib.join_str (converted_ckpts_dir globals) (Pathlib.stem weights) in
  let call := {| cv_checkpoint_path := weights;
                 cv_dump_path := target;
                 cv_extract_ema := true;
                 cv_original_config_file :=
                   Some (Pathlib.join_str (root_dir globals) c);
                 cv_vae := vae_model;
                 cv_vae_path := vae_path_argument vae_ckpt_path;
                 cv_scan_needed := true |} in
  Dict.lookup "weights" mconfig = Some (VStr w) ->
  Dict.lookup "config" mconfig = Some (VStr c) ->
  path_exists (disk m) target = false ->
  _get_vae_for_conversion weights mconfig m = (Ok (vae_ckpt_path, vae_model), m2) ->
  convert_ckpt_to_diffusers call (disk m2) = (Ok tt, d') ->
  exists m1,
    convert_ckpt_and_cache mconfig m = (Ok target, m1)
    /\ disk m1 = d'
    /\ converter_calls m1 = (converter_calls m ++ [call])%list.
Proof.
  intros weights target call Hw Hc Hex Hvae Hconv.
  unfold convert_ckpt_and_cache, dc_getattr, bind, lift, get_disk, converted_path.
  rewrite Hw, Hc. simpl. fold weights. fold target. rewrite Hex, Hvae.
  unfold record_conversion, on_disk, ret. simpl. fold call. rewrite Hconv.
  eexists. split; [reflexivity|]. split; [reflexivity|]. simpl.
  now rewrite (get_vae_for_conversion_calls _ _ _ _ _ Hvae).
Qed.

(** C2: the path returned is the converted-artifacts root joined with the
    stem of the weights file; when that directory exists it is returned at
    once, whatever it holds, with no call of the converter and nothing
    changed; when it does not exist, the VAE is resolved and the converter
    returns, the converter has been called once and the path is returned;
    and when a call returns, a second call with the same descriptor returns
    the same path and makes no call of the converter, so that the two make
    one at most.  The converter is taken to keep its contract: when it
    returns, its target exists. *)
Theorem convert_ckpt_and_cache_idempotent
    (m : Manager D) (mconfig : DictConfig) (w c : string) :
  (forall call d d',
      convert_ckpt_to_diffusers call d = (Ok tt, d') ->
      path_exists d' (cv_dump_path call) = true) ->
  Dict.lookup "weights" mconfig = Some (VStr w) ->
  Dict.lookup "config" mconfig = Some (VStr c) ->
  let weights := Pathlib.join_str (root_dir globals) w in
  let target :=
    Pathlib.join_str (converted_ckpts_dir globals) (Pathlib.stem weights) in
  (path_exists (disk m) target = true ->
   convert_ckpt_and_cache mconfig m = (Ok target, m))
  /\ (path_exists (disk m) target = false ->
      forall vae_ckpt_path vae_model m2 d',
        _get_vae_for_conversion weights mconfig m
        = (Ok (vae_ckpt_path, vae_model), m2) ->
        convert_ckpt_to_diffusers
          {| cv_checkpoint_path := weights;
             cv_dump_path := target;
             cv_extract_ema := true;
             cv_original_config_file :=
               Some (Pathlib.join_str (root_dir globals) c);
             cv_vae := vae_model;
             cv_vae_path := vae_path_argument vae_ckpt_path;
             cv_scan_needed := true |} (disk m2) = (Ok tt, d') ->
        exists m1,
          convert_ckpt_and_cache mconfig m = (Ok target, m1)
          /\ disk m1 = d'
          /\ length (converter_calls m1) = length (converter_calls m) + 1)
  /\ (forall p m1,
         convert_ckpt_and_cache mconfig m = (Ok p, m1) ->
         p = target
         /\ convert_ckpt_and_cache mconfig m1 = (Ok target, m1)
         /\ length (converter_calls m1) <= length (converter_calls m) + 1).
Proof.
  intros Hcontract Hw Hc weights target. split; [|split].
  - apply (convert_ckpt_and_cache_hit m mconfig w c Hw Hc).
  - intros Hex vp vm m2 d' Hvae Hconv.
    destruct (convert_ckpt_and_cache_miss m mconfig w c vp vm m2 d'
                Hw Hc Hex Hvae Hconv) as (m1 & Hrun & Hd & Hcalls).
    exists m1. split; [exact Hrun|]. split; [exact Hd|].
    rewrite Hcalls, List.length_app. reflexivity.
  - intros p m1.
    destruct (path_exists (disk m) target) eqn:Hex.
    + rewrite (convert_ckpt_and_cache_hit m mconfig w c Hw Hc Hex).
      intros [= <- <-]. repeat split.
      * apply (convert_ckpt_and_cache_hit m mconfig w c Hw Hc Hex).
      * lia.
    + intros Hrun.
      unfold convert_ckpt_and_cache, dc_getattr, bind, lift, get_disk,
        converted_path in Hrun.
      rewrite Hw, Hc in Hrun. simpl in Hrun. fold weights in Hrun.
      fold target in Hrun. rewrite Hex in Hrun.
      destruct (_get_vae_for_conversion _ mconfig m) as [[[vp vm]|e] m2] eqn:Hvae;
        [|discriminate].
      apply get_vae_for_conversion_calls in Hvae.
      unfold record_conversion, on_disk, ret in Hrun. simpl in Hrun.
      match type of Hrun with
      | context [convert_ckpt_to_diffusers ?call ?d] =>
          destruct (convert_ckpt_to_diffusers call d) as [[[]|e] d'] eqn:Hconv;
          [apply Hcontract in Hconv; simpl in Hconv|discriminate]
      end.
      injection Hrun as <- <-. repeat split.
      * apply (convert_ckpt_and_cache_hit _ mconfig w c Hw Hc). exact Hconv.
      * simpl. rewrite List.length_app, Hvae. simpl. lia.
Qed.

End ConversionCache.

Lemma example_converter_contract :
  forall (call : ConvertCall string) (d d' : DiskTree.node),
    convert_ckpt_to_diffusers call d = (Ok tt, d') ->
    path_exists d' (cv_dump_path call) = true.
Proof.
  intros call d d'. simpl.
  destruct (DiskTree.exists_ _ (cv_dump_path call)) eqn:Hex; [|discriminate].
  now intros [= <-].
Qed.

Lemma convert_ckpt_and_cache_idempotent_witness :
  let target := Pathlib.of_string "/invokeai/models/converted_ckpts/foo" in
  exists m1,
    convert_ckpt_and_cache Examples.foo_descriptor Examples.checkpoint_manager
    = (Ok target, m1)
    /\ convert_ckpt_and_cache Examples.foo_descriptor m1 = (Ok target, m1)
    /\ length (converter_calls m1) <= 1.
Proof.
  intros target.
  set (run := convert_ckpt_and_cache Examples.foo_descriptor Examples.checkpoint_manager).
  assert (Hrun : run = (Ok target, snd run)) by (vm_compute; reflexivity).
  exists (snd run). split; [exact Hrun|].
  destruct (proj2 (proj2 (convert_ckpt_and_cache_idempotent
                            Examples.checkpoint_manager
                            Examples.foo_descriptor
                            "models/ldm/foo.ckpt"
                            "configs/stable-diffusion/v1-inference.yaml"
                            example_converter_contract eq_refl eq_refl))
              target (snd run) Hrun) as (_ & Hagain & Hcalls).
  split; [exact Hagain|exact Hcalls].
Defined.

(** ** Reconciliation with the models directory *)

Lemma Dict_lookup_app (k : string) (a b : DictConfig) :
  Dict.lookup k (a ++ b)
  = match Dict.lookup k a with Some v => Some v | None => Dict.lookup k b end.
Proof.
  induction a as [|[k' v'] a IH]; simpl; [reflexivity|].
  now destruct (String.eqb k' k).
Qed.

Lemma Dict_lookup_set (k k0 : string) (v0 : value) (c : DictConfig) :
  Dict.lookup k (Dict.set k0 v0 c)
  = if String.eqb k0 k then Some v0 else Dict.lookup k c.
Proof.
  induction c as [|[k' v'] c IH]; simpl.
  - reflexivity.
  - destruct (String.eqb_spec k' k0) as [->|Hne]; simpl.
    + now destruct (String.eqb k0 k).
    + destruct (String.eqb_spec k' k) as [->|Hne'].
      * destruct (String.eqb_spec k0 k) as [->|_]; [congruence|reflexivity].
      * exact IH.
Qed.

Lemma Dict_lookup_remove (k k0 : string) (c : DictConfig) :
  Dict.lookup k (Dict.remove k0 c)
  = if String.eqb k0 k then None else Dict.lookup k c.
Proof.
  induction c as [|[k' v'] c IH]; simpl.
  - now destruct (String.eqb k0 k).
  - destruct (String.eqb_spec k' k0) as [->|Hne]; simpl.
    + rewrite IH. now destruct (String.eqb k0 k).
    + rewrite IH. destruct (String.eqb_spec k' k) as [->|Hne'].
      * destruct (String.eqb_spec k0 k) as [->|_]; [congruence|reflexivity].
      * reflexivity.
Qed.

Lemma Dict_lookup_in (k : string) (v : value) (c : DictConfig) :
  Dict.lookup k c = Some v -> List.In (k, v) c.
Proof.
  induction c as [|[k' v'] c IH]; simpl; [discriminate|].
  destruct (String.eqb_spec k' k) as [->|Hne].
  - intros [= ->]. now left.
  - intros H. right. now apply IH.
Qed.

Lemma Dict_in_lookup_some (k : string) (v : value) (c : DictConfig) :
  List.In (k, v) c -> exists v', Dict.lookup k c = Some v'.
Proof.
  induction c as [|[k' v'] c IH]; simpl; [tauto|].
  intros [[= -> ->]|Hin].
  - rewrite String.eqb_refl. eauto.
  - destruct (String.eqb k' k); eauto.
Qed.

(** The last assignment to a key is what the store holds. *)
Lemma apply_writes_lookup (ws : list (string * value)) :
  forall (cfg : DictConfig) (k : string),
    Dict.lookup k (Scan.apply_writes ws cfg)
    = match Dict.lookup k (List.rev ws) with
      | Some v => Some v
      | None => Dict.lookup k cfg
      end.
Proof.
  unfold Scan.apply_writes.
  induction ws as [|[k1 v1] ws IH]; intros cfg k; simpl; [reflexivity|].
  rewrite IH, Dict_lookup_app, Dict_lookup_set. simpl.
  destruct (Dict.lookup k (List.rev ws)); [reflexivity|].
  now destruct (String.eqb k1 k).
Qed.

Lemma apply_writes_app (ws1 ws2 : list (string * value)) (cfg : DictConfig) :
  Scan.apply_writes (ws1 ++ ws2) cfg
  = Scan.apply_writes ws2 (Scan.apply_writes ws1 cfg).
Proof. unfold Scan.apply_writes. apply List.fold_left_app. Qed.

Lemma lookup_remove_all (ks : list string) :
  forall (cfg : DictConfig) (k : string),
    Dict.lookup k (List.fold_left (fun c key => Dict.remove key c) ks cfg)
    = if existsb (String.eqb k) ks then None else Dict.lookup k cfg.
Proof.
  induction ks as [|k0 ks IH]; intros cfg k; simpl; [reflexivity|].
  rewrite IH, Dict_lookup_remove, (String.eqb_sym k k0).
  destruct (String.eqb k0 k); simpl; [|reflexivity].
  now destruct (existsb (String.eqb k) ks).
Qed.

(** Every descriptor whose path is not on the disk is marked. *)
Lemma defunct_keys_complete (exists_ : Path -> bool) (root : Path)
    (cfg : DictConfig) :
  forall ks key st p,
    Scan.defunct_keys exists_ root cfg = Ok ks ->
    List.In (key, VDict st) cfg ->
    Dict.lookup "path" st = Some (VStr p) ->
    exists_ (Pathlib.join_str root p) = false ->
    List.In key ks.
Proof.
  induction cfg as [|[k v] cfg IH]; intros ks key st p Hrun Hin Hp Hex;
    [destruct Hin|].
  simpl in Hrun. unfold rbind in Hrun.
  destruct (py_in "path" v) as [has|e] eqn:Hpy; [|discriminate].
  destruct Hin as [[= -> ->]|Hin].
  - simpl in Hpy. unfold Dict.mem in Hpy. rewrite Hp in Hpy.
    injection Hpy as <-. simpl in Hrun.
    unfold Dict.get in Hrun. rewrite Hp in Hrun. simpl in Hrun.
    rewrite Hex in Hrun.
    destruct (Scan.defunct_keys exists_ root cfg) as [ks'|]; [|discriminate].
    injection Hrun as <-. now left.
  - destruct has; simpl in Hrun; [|now apply (IH ks key st p)].
    destruct v as [| b | z | s | stanza]; try discriminate.
    destruct (join_value root (Dict.get "path" stanza)) as [q|]; [|discriminate].
    destruct (exists_ q); [now apply (IH ks key st p)|].
    destruct (Scan.defunct_keys exists_ root cfg) as [ks'|] eqn:Hrest; [|discriminate].
    injection Hrun as <-. right. now apply (IH ks' key st p).
Qed.

(** Only descriptors whose path is not on the disk are marked. *)
Lemma defunct_keys_sound (exists_ : Path -> bool) (root : Path)
    (cfg : DictConfig) :
  forall ks key,
    Scan.defunct_keys exists_ root cfg = Ok ks ->
    List.In key ks ->
    exists st p, List.In (key, VDict st) cfg
                 /\ Dict.lookup "path" st = Some (VStr p)
                 /\ exists_ (Pathlib.join_str root p) = false.
Proof.
  induction cfg as [|[k v] cfg IH]; intros ks key Hrun Hin.
  - injection Hrun as <-. destruct Hin.
  - simpl in Hrun. unfold rbind in Hrun.
    assert (Hrest : forall ks', Scan.defunct_keys exists_ root cfg = Ok ks' ->
                                List.In key ks' ->
                                exists st p, List.In (key, VDict st) ((k, v) :: cfg)
                                             /\ Dict.lookup "path" st = Some (VStr p)
                                             /\ exists_ (Pathlib.join_str root p) = false).
    { intros ks' H1 H2. destruct (IH ks' key H1 H2) as (st & p & ? & ? & ?).
      exists st, p. repeat split; try assumption. now right. }
    destruct (py_in "path" v) as [has|e] eqn:Hpy; [|discriminate].
    destruct has; simpl in Hrun; [|now apply (Hrest ks)].
    destruct v as [| b | z | s | stanza]; try discriminate.
    simpl in Hpy. unfold Dict.mem in Hpy. unfold Dict.get in Hrun.
    destruct (Dict.lookup "path" stanza) as [pv|] eqn:Hp; [|discriminate].
    destruct pv as [| b | z | p | pd]; try discriminate.
    simpl in Hrun.
    destruct (exists_ (Pathlib.join_str root p)) eqn:Hex; [now apply (Hrest ks)|].
    destruct (Scan.defunct_keys exists_ root cfg) as [ks'|] eqn:Hr; [|discriminate].
    injection Hrun as <-. destruct Hin as [<-|Hin]; [|now apply (Hrest ks')].
    exists stanza, p. repeat split; try assumption. now left.
Qed.

Section Reconcile.

Context {D : Type} `{FS : FileSystem D} `{EXT : Collaborators D}.

Lemma forget_models_run (ks : list string) :
  forall m : Manager D,
    exists m',
      for_each ks forget_model m = (Ok tt, m')
      /\ config m' = List.fold_left (fun c key => Dict.remove key c) ks (config m)
      /\ disk m' = disk m.
Proof.
  induction ks as [|k ks IH]; intros m; simpl.
  - exists m. auto.
  - unfold bind at 1. unfold forget_model at 1, bind, log, get_config, put_config.
    match goal with
    | |- context [for_each ks forget_model ?m0] =>
        destruct (IH m0) as (m' & Hrun & Hc & Hd)
    end.
    exists m'. rewrite Hrun. auto.
Qed.

Lemma delete_defunct_models_run (m m' : Manager D) :
  _delete_defunct_models m = (Ok tt, m') ->
  exists ks,
    Scan.defunct_keys (path_exists (disk m)) (root_dir globals) (config m) = Ok ks
    /\ config m' = List.fold_left (fun c key => Dict.remove key c) ks (config m)
    /\ disk m' = disk m.
Proof.
  unfold _delete_defunct_models, bind, get_config, get_disk, lift.
  destruct (Scan.defunct_keys _ _ (config m)) as [ks|e]; [|discriminate].
  destruct (forget_models_run ks m) as (m1 & Hrun & Hc & Hd).
  rewrite Hrun. intros [= <-]. exists ks. auto.
Qed.

Lemma scan_walk_run (include_diffusers : bool)
    (walk : list (string * list string * list string)) :
  forall m m' : Manager D,
    for_each walk (scan_triple include_diffusers) m = (Ok tt, m') ->
    exists writes,
      Scan.walk_writes include_diffusers walk = Ok writes
      /\ m' = with_config (Scan.apply_writes writes (config m)) m.
Proof.
  induction walk as [|t walk IH]; intros m m'; simpl.
  - intros [= <-]. exists []. split; [reflexivity|].
    symmetry. apply with_config_same.
  - unfold bind at 1. unfold scan_triple at 1, bind, lift, get_config, put_config.
    unfold rbind.
    destruct (Scan.directory_writes include_diffusers t) as [ws|e]; [|discriminate].
    intros Hrun. apply IH in Hrun as (ws' & Hw & ->).
    rewrite Hw. exists (ws ++ ws')%list. split; [reflexivity|].
    rewrite config_with_config, with_config_twice. now rewrite apply_writes_app.
Qed.

Lemma walk_writes_in (include_diffusers : bool)
    (walk : list (string * list string * list string)) :
  forall writes t ws kv,
    Scan.walk_writes include_diffusers walk = Ok writes ->
    List.In t walk ->
    Scan.directory_writes include_diffusers t = Ok ws ->
    List.In kv ws -> List.In kv writes.
Proof.
  induction walk as [|t0 walk IH]; intros writes t ws kv Hrun Hin Hd Hkv;
    [destruct Hin|].
  simpl in Hrun. unfold rbind in Hrun.
  destruct (Scan.directory_writes include_diffusers t0) as [ws0|] eqn:H0; [|discriminate].
  destruct (Scan.walk_writes include_diffusers walk) as [ws1|] eqn:H1; [|discriminate].
  injection Hrun as <-. apply List.in_or_app.
  destruct Hin as [->|Hin].
  - left. rewrite Hd in H0. now injection H0 as <-.
  - right. now apply (IH ws1 t ws kv).
Qed.

Lemma defunct_keys_total (exists_ : Path -> bool) (root : Path)
    (cfg : DictConfig) :
  List.Forall (fun kv => prunable (snd kv)) cfg ->
  exists ks, Scan.defunct_keys exists_ root cfg = Ok ks.
Proof.
  induction 1 as [|[k v] cfg Hv _ [ks IH]]; [now exists []|].
  simpl in *. unfold rbind.
  destruct v as [| b | z | s | st]; try contradiction.
  - simpl. rewrite Hv. simpl. eauto.
  - simpl. unfold Dict.mem, Dict.get.
    destruct Hv as [->|[p ->]]; simpl; [eauto|].
    destruct (exists_ (Pathlib.join_str root p)); rewrite ?IH; eauto.
Qed.

Lemma index_of_member (x : string) (l : list string) :
  List.In x l -> exists i, Str.index x l = Some i.
Proof.
  induction l as [|y l IH]; simpl; [tauto|].
  destruct (String.eqb_spec y x) as [->|Hne]; [eauto|].
  intros [?|Hin]; [contradiction|].
  destruct (IH Hin) as [i ->]. simpl. eauto.
Qed.

Lemma walk_writes_total (include_diffusers : bool)
    (walk : list (string * list string * list string)) :
  List.Forall (fun t => List.In "models" (Str.split slash (fst (fst t)))) walk ->
  exists writes, Scan.walk_writes include_diffusers walk = Ok writes.
Proof.
  induction 1 as [|[[root dirs] files] walk Hm _ [ws IH]]; [now exists []|].
  simpl in *. unfold rbind, Scan.subpaths.
  destruct (index_of_member _ _ Hm) as [i ->]. rewrite IH.
  destruct (List.skipn (S i) (Str.split slash root)) as [|base [|model_type rest]];
    try (eexists; reflexivity).
  destruct (String.eqb model_type "diffusers" && negb include_diffusers);
    eexists; reflexivity.
Qed.

Lemma scan_walk_returns (include_diffusers : bool)
    (walk : list (string * list string * list string)) :
  forall (m : Manager D) writes,
    Scan.walk_writes include_diffusers walk = Ok writes ->
    for_each walk (scan_triple include_diffusers) m
    = (Ok tt, with_config (Scan.apply_writes writes (config m)) m).
Proof.
  induction walk as [|t walk IH]; intros m writes; simpl.
  - intros [= <-]. change (Scan.apply_writes [] (config m)) with (config m).
    now rewrite with_config_same.
  - unfold rbind. unfold bind at 1.
    unfold scan_triple at 1, bind, lift, get_config, put_config.
    destruct (Scan.directory_writes include_diffusers t) as [ws|e]; [|discriminate].
    destruct (Scan.walk_writes include_diffusers walk) as [ws'|e] eqn:Hw; [|discriminate].
    intros [= <-]. rewrite (IH _ ws' eq_refl).
    rewrite config_with_config, with_config_twice. now rewrite apply_writes_app.
Qed.

(** C9: a scan first deletes every descriptor whose declared path is no
    longer on the disk and keeps the others; it then makes an entry for
    each file found two levels or more below [models]: for a file [f] in a
    directory under [models/<base>/<type>] the key is [<type>/<stem of f>],
    the format is the extension of [f] and the base is [<base>].  The last
    assignment to a key is what the store holds, so the entry is this one
    when no other scanned item is assigned to the same key with another
    descriptor, and a deleted descriptor stays deleted unless the scan
    assigns to its key.  The scan returns when the store can be pruned and
    every directory of the walk lies under a directory called [models]. *)
Theorem scan_models_directory_reconciles
    (m : Manager D) (include_diffusers : bool) :
  let walk := os_walk (disk m) (Pathlib.to_string (models_path globals)) in
  let stale key :=
    exists st p,
      Dict.lookup key (config m) = Some (VDict st)
      /\ Dict.lookup "path" st = Some (VStr p)
      /\ path_exists (disk m) (Pathlib.join_str (root_dir globals) p) = false in
  let all_found key :=
    forall st p,
      List.In (key, VDict st) (config m) ->
      Dict.lookup "path" st = Some (VStr p) ->
      path_exists (disk m) (Pathlib.join_str (root_dir globals) p) = true in
  (List.Forall (fun kv => prunable (snd kv)) (config m) ->
   List.Forall (fun t => List.In "models" (Str.split slash (fst (fst t)))) walk ->
   exists m', scan_models_directory include_diffusers m = (Ok tt, m'))
  /\ (forall m',
        scan_models_directory include_diffusers m = (Ok tt, m') ->
        exists m0 writes,
          _delete_defunct_models m = (Ok tt, m0)
          /\ (forall key, stale key -> Dict.lookup key (config m0) = None)
          /\ (forall key, all_found key ->
                Dict.lookup key (config m0) = Dict.lookup key (config m))
          /\ Scan.walk_writes include_diffusers walk = Ok writes
          /\ (forall root dirs files base model_type rest f,
                List.In (root, dirs, files) walk ->
                Scan.subpaths root = Ok (base :: model_type :: rest) ->
                model_type <> "diffusers" \/ include_diffusers = true ->
                List.In f files ->
                let basename := Pathlib.stem (Pathlib.of_string f) in
                let key := model_type +:+ "/" +:+ basename in
                let descriptor :=
                  VDict [("path", VStr (Pathlib.os_path_join root f));
                         ("description", VStr (model_type +:+ " model " +:+ basename));
                         ("format", VStr (Str.tail (Pathlib.suffix (Pathlib.of_string f))));
                         ("base", VStr base)] in
                List.In (key, descriptor) writes
                /\ (exists v, Dict.lookup key (config m') = Some v
                              /\ List.In (key, v) writes)
                /\ ((forall v, List.In (key, v) writes -> v = descriptor) ->
                    Dict.lookup key (config m') = Some descriptor))
          /\ (forall key,
                (forall v, ~ List.In (key, v) writes) ->
                Dict.lookup key (config m') = Dict.lookup key (config m0))
          /\ (forall key,
                stale key -> (forall v, ~ List.In (key, v) writes) ->
                Dict.lookup key (config m') = None)).
Proof.
  intros walk stale all_found. split.
  - intros Hprunable Hwalk.
    destruct (defunct_keys_total (path_exists (disk m)) (root_dir globals)
                (config m) Hprunable) as [ks Hks].
    destruct (walk_writes_total include_diffusers walk Hwalk) as [writes Hw].
    destruct (forget_models_run ks m) as (m0 & Hrun0 & Hc0 & Hd0).
    unfold scan_models_directory, _delete_defunct_models, bind, get_config,
      get_disk, lift.
    rewrite Hks, Hrun0, Hd0. fold walk.
    rewrite (scan_walk_returns include_diffusers walk m0 writes Hw). eauto.
  - intros m' Hrun. unfold scan_models_directory in Hrun.
    unfold bind at 1 in Hrun.
    destruct (_delete_defunct_models m) as [[[]|e] m0] eqn:Hprune; [|discriminate].
    pose proof Hprune as Hprune'.
    apply delete_defunct_models_run in Hprune as (ks & Hks & Hc0 & Hd0).
    unfold bind, get_disk in Hrun. rewrite Hd0 in Hrun. fold walk in Hrun.
    apply scan_walk_run in Hrun as (writes & Hw & ->).
    assert (Hstale : forall key, stale key -> Dict.lookup key (config m0) = None).
    { intros key (st & p & Hl & Hp & Hex). rewrite Hc0, lookup_remove_all.
      assert (Hk : List.In key ks).
      { apply (defunct_keys_complete _ _ _ ks key st p Hks); try assumption.
        now apply Dict_lookup_in. }
      assert (He : existsb (String.eqb key) ks = true).
      { apply List.existsb_exists. exists key.
        split; [exact Hk|apply String.eqb_refl]. }
      now rewrite He. }
    assert (Huntouched : forall key,
               (forall v, ~ List.In (key, v) writes) ->
               Dict.lookup key (Scan.apply_writes writes (config m0))
               = Dict.lookup key (config m0)).
    { intros key Hnot. rewrite apply_writes_lookup.
      destruct (Dict.lookup key (List.rev writes)) as [v|] eqn:Hv; [|reflexivity].
      exfalso. apply (Hnot v). apply List.in_rev. now apply Dict_lookup_in. }
    exists m0, writes. split; [reflexivity|]. split; [exact Hstale|].
    split; [|split; [exact Hw|split; [|split]]].
    + intros key Hfound. rewrite Hc0, lookup_remove_all.
      destruct (existsb (String.eqb key) ks) eqn:He; [|reflexivity].
      exfalso. apply List.existsb_exists in He as (k & Hk & Heq).
      apply String.eqb_eq in Heq. subst k.
      destruct (defunct_keys_sound _ _ _ ks key Hks Hk) as (st & p & Hin & Hp & Hex).
      rewrite (Hfound st p Hin Hp) in Hex. discriminate.
    + intros root dirs files base model_type rest f Hin Hsub Hinc Hf
        basename key descriptor.
      assert (Hentry : List.In (key, descriptor) writes).
      { apply (walk_writes_in include_diffusers walk writes (root, dirs, files)
                 (List.map (Scan.dir_entry root model_type base) dirs
                  ++ List.map (Scan.file_entry root model_type base) files)%list);
          try assumption.
        - unfold Scan.directory_writes, rbind. rewrite Hsub.
          destruct Hinc as [Hne| ->].
          + apply String.eqb_neq in Hne. now rewrite Hne.
          + now rewrite Bool.andb_false_r.
        - apply List.in_or_app. right.
          apply (List.in_map (Scan.file_entry root model_type base)) in Hf.
          exact Hf. }
      split; [exact Hentry|]. rewrite config_with_config.
      apply List.in_rev in Hentry.
      destruct (Dict_in_lookup_some _ _ _ Hentry) as [v Hv].
      assert (Hvin : List.In (key, v) writes).
      { apply List.in_rev. now apply Dict_lookup_in. }
      rewrite apply_writes_lookup, Hv. split.
      * exists v. now split.
      * intros Huniq. f_equal. now apply Huniq.
    + intros key Hnot. rewrite config_with_config. now apply Huntouched.
    + intros key Hst Hnot. rewrite config_with_config.
      rewrite (Huntouched key Hnot). now apply Hstale.
Qed.

End Reconcile.

Lemma scan_models_directory_reconciles_witness :
  exists m1 m2,
    scan_models_directory false Examples.fresh_manager = (Ok tt, m1)
    /\ Dict.lookup "lora/foo" (config m1) = Some Examples.foo_lora_descriptor
    /\ scan_models_directory false
         (with_disk Examples.models_disk_without_foo m1) = (Ok tt, m2)
    /\ Dict.lookup "lora/foo" (config m2) = None.
Proof.
  assert (Hprunable : List.Forall (fun kv => prunable (snd kv))
                        (config Examples.fresh_manager)).
  { repeat constructor. }
  assert (Hwalk : List.Forall
                    (fun t => List.In "models" (Str.split slash (fst (fst t))))
                    (os_walk (disk Examples.fresh_manager)
                       (Pathlib.to_string (models_path globals)))).
  { vm_compute. repeat constructor; simpl; tauto. }
  destruct (scan_models_directory_reconciles Examples.fresh_manager false)
    as [Hreturns Hpost].
  destruct (Hreturns Hprunable Hwalk) as [m1 Hrun1].
  assert (Hm1 : snd (scan_models_directory false Examples.fresh_manager) = m1)
    by now rewrite Hrun1.
  vm_compute in Hm1.
  set (m1' := with_disk Examples.models_disk_without_foo m1).
  destruct (scan_models_directory_reconciles m1' false) as [Hreturns2 Hpost2].
  assert (Hrun2 : exists m2, scan_models_directory false m1' = (Ok tt, m2)).
  { apply Hreturns2; subst m1' m1.
    - apply List.Forall_cons; [reflexivity|].
      apply List.Forall_cons; [right; eexists; reflexivity|].
      apply List.Forall_nil.
    - vm_compute. repeat constructor; simpl; tauto. }
  destruct Hrun2 as [m2 Hrun2].
  exists m1, m2. split; [exact Hrun1|]. split; [|split; [exact Hrun2|]].
  - destruct (Hpost m1 Hrun1) as (m0 & writes & _ & _ & _ & Hw & Hfiles & _).
    vm_compute in Hw. injection Hw as <-.
    refine (proj2 (proj2 (Hfiles "/invokeai/models/SD-1/lora" [] ["foo.safetensors"]
                            "SD-1" "lora" [] "foo.safetensors" _ _ _ _)) _).
    + vm_compute. tauto.
    + reflexivity.
    + left. discriminate.
    + now left.
    + intros v [[= <-]|[]]. reflexivity.
  - destruct (Hpost2 m2 Hrun2) as (m0 & writes & _ & _ & _ & Hw & _ & _ & Hgone).
    subst m1' m1. vm_compute in Hw. injection Hw as <-.
    apply Hgone.
    + exists [("path", VStr "/invokeai/models/SD-1/lora/foo.safetensors");
              ("description", VStr "lora model foo");
              ("format", VStr "safetensors");
              ("base", VStr "SD-1")],
        "/invokeai/models/SD-1/lora/foo.safetensors".
      repeat split.
    + intros v [].
Defined.

(** ** [heuristic_import] *)

Section HeuristicImport.

Context {D : Type} `{FS : FileSystem D} `{EXT : Collaborators D}.

(** C10, as the code has it: an input that does not start with [http:],
    [https:] or [ftp:], that is an existing file ending in [.ckpt] or
    [.safetensors], and whose stem is [model] or [diffusion_pytorch_model]
    is skipped: the call returns no model name, and the store, the disk and
    the record of conversions are as before (two lines are logged). *)
Theorem heuristic_import_skips_pipeline_parts
    (m : Manager D) (depth : nat) (thing : string)
    (model_name description : option string) (model_config_file : option Path)
    (commit_to_conf : option string)
    (config_file_callback : option (Path -> option Path)) :
  Str.startswith_any URL_PREFIXES thing = false ->
  path_is_file (disk m) (Pathlib.of_string thing) = true ->
  Str.endswith_any [".ckpt"; ".safetensors"] thing = true ->
  List.In (Pathlib.stem (Pathlib.of_string thing))
          ["model"; "diffusion_pytorch_model"] ->
  exists m',
    heuristic_import (S depth) thing model_name description model_config_file
      commit_to_conf config_file_callback m = (Ok None, m')
    /\ config m' = config m
    /\ disk m' = disk m
    /\ converter_calls m' = converter_calls m.
Proof.
  intros Hurl Hfile Hend Hstem.
  assert (Hskip : existsb (String.eqb (Pathlib.stem (Pathlib.of_string thing)))
                    ["model"; "diffusion_pytorch_model"] = true).
  { apply List.existsb_exists. exists (Pathlib.stem (Pathlib.of_string thing)).
    split; [exact Hstem|apply String.eqb_refl]. }
  unfold heuristic_import, dispatch, bind, log, get_disk, ret.
  cbn [disk]. rewrite Hurl, Hfile, Hend, Hskip. cbn [andb].
  eexists. split; [reflexivity|]. auto.
Qed.

End HeuristicImport.

Lemma heuristic_import_skips_pipeline_parts_witness :
  exists m',
    heuristic_import 1 "/pipeline/unet/diffusion_pytorch_model.safetensors"
      None None None None None Examples.pipeline_manager = (Ok None, m')
    /\ config m' = config Examples.pipeline_manager.
Proof.
  set (thing := "/pipeline/unet/diffusion_pytorch_model.safetensors").
  assert (Hurl : Str.startswith_any URL_PREFIXES thing = false) by reflexivity.
  assert (Hfile : path_is_file (disk Examples.pipeline_manager)
                    (Pathlib.of_string thing) = true) by reflexivity.
  assert (Hend : Str.endswith_any [".ckpt"; ".safetensors"] thing = true)
    by reflexivity.
  assert (Hstem : List.In (Pathlib.stem (Pathlib.of_string thing))
                    ["model"; "diffusion_pytorch_model"])
    by (right; left; reflexivity).
  destruct (heuristic_import_skips_pipeline_parts Examples.pipeline_manager 0
              thing None None None None None Hurl Hfile Hend Hstem)
    as (m' & Hrun & Hcfg & _).
  exists m'. split; assumption.
Defined.

(** C10, as the claim has it, fails: an input that starts with [http:] is
    taken for a URL before it is looked at as a file.  Here a file lies at
    such a path, it ends in [.ckpt] and its stem is [model]; the call
    downloads, converts and returns a model name. *)
Lemma heuristic_import_url_first_counterexample :
  path_is_file (disk Examples.url_manager) (Pathlib.of_string Examples.url_thing) = true
  /\ Str.endswith_any [".ckpt"; ".safetensors"] Examples.url_thing = true
  /\ Pathlib.stem (Pathlib.of_string Examples.url_thing) = "model"
  /\ fst (heuristic_import 1 Examples.url_thing None None None None None
            Examples.url_manager) = Ok (Some "model").
Proof. repeat split; vm_compute; reflexivity. Qed.

(** ** Supplements *)

(** The probe reads [shape[-1]] and [shape[1]]; a tensor with too few
    dimensions makes it raise, which its handler for [KeyError] does not
    catch. *)
Lemma probe_model_type_too_few_dimensions (checkpoint : Checkpoint) :
  (effective_state_dict checkpoint !! attn2_key = Some [] ->
   probe_model_type checkpoint = Raise IndexError)
  /\ (forall t,
        effective_state_dict checkpoint !! attn2_key = None ->
        effective_state_dict checkpoint !! conv_in_key = Some t ->
        length t < 2 ->
        probe_model_type checkpoint = Raise IndexError).
Proof.
  split.
  - intros Ht. unfold probe_model_type. now rewrite Ht.
  - intros t Ha Hc Hlen. rewrite (probe_not_v2 checkpoint (or_introl Ha)).
    unfold getitem, dim_at. rewrite Hc. simpl.
    destruct t as [|a [|b t]]; simpl in *; try reflexivity. lia.
Qed.

Lemma new_key_of_has_slash (model_key : string) :
  Str.contains "/" (Migration.new_key_of model_key) = true.
Proof.
  unfold Migration.new_key_of.
  destruct (Str.contains "/" model_key) eqn:Hc; [exact Hc|reflexivity].
Qed.

Lemma migrate_entries_keeps_version (old : DictConfig) :
  forall (acc new_cfg : DictConfig) (v : value),
    Migration.migrate_entries old acc = Ok new_cfg ->
    Dict.lookup "_version" acc = Some v ->
    Dict.lookup "_version" new_cfg = Some v.
Proof.
  induction old as [|[k st] old IH]; intros acc new_cfg v Hrun Hv; simpl in Hrun.
  - now injection Hrun as <-.
  - destruct st as [| b | z | s | st]; try (now apply (IH acc)).
    unfold rbind in Hrun.
    destruct (Migration.is_legacy_vae st) as [[|]|e];
      [now apply (IH acc)| |discriminate].
    destruct (Migration.migrate_stanza st) as [ns|e]; [|discriminate].
    apply (IH _ new_cfg v Hrun). rewrite Dict_lookup_set.
    destruct (String.eqb_spec (Migration.new_key_of k) "_version") as [Heq|_];
      [|exact Hv].
    pose proof (new_key_of_has_slash k) as Hs. rewrite Heq in Hs. discriminate.
Qed.

Section MigratorTwice.

Context {D : Type} `{FS : FileSystem D} `{EXT : Collaborators D}.

Lemma commit_keeps_config (conf_file : option string) (m m' : Manager D) r :
  commit conf_file m = (r, m') -> config m' = config m.
Proof.
  unfold commit, bind, get_config, get_config_path, disk_op, put_disk, raise.
  destruct (or_else conf_file (config_path m)) as [p|]; [|now intros [= _ <-]].
  destruct (write_text (disk m) _ _) as [d1|e]; [|now intros [= _ <-]].
  simpl. destruct (os_replace d1 _ _) as [d2|e]; now intros [= _ <-].
Qed.

Lemma bind_inv {A B} (c : M D A) (k : A -> M D B) (m m' : Manager D) (b : B) :
  bind c k m = (Ok b, m') ->
  exists a m0, c m = (Ok a, m0) /\ k a m0 = (Ok b, m').
Proof.
  unfold bind. destruct (c m) as [[a|e] m0]; [eauto|discriminate].
Qed.

(** X10: the migrator is idempotent on every store, not only on a current
    one.  A run that returned has left a manager on which a second run
    returns at once and changes nothing, whatever the store was before. *)
Lemma update_config_file_version_idempotent (m m1 : Manager D) :
  _update_config_file_version m = (Ok tt, m1) ->
  _update_config_file_version m1 = (Ok tt, m1).
Proof.
  intros Hrun.
  assert (Hcases : m1 = m
                   \/ Dict.lookup "_version" (config m1)
                      = Some (VStr CONFIG_FILE_VERSION)).
  { pose proof Hrun as H. unfold _update_config_file_version in H.
    apply bind_inv in H as (cfg & m0 & [= <- <-] & H).
    apply bind_inv in H as (cur & m0 & Hcur & H).
    unfold lift in Hcur. injection Hcur as _ <-.
    apply bind_inv in H as (new & m0 & Hnew & H).
    unfold lift in Hnew. injection Hnew as _ <-.
    destruct (Version.ltb cur new); [|injection H as <-; now left].
    right.
    apply bind_inv in H as ([] & m2 & _ & H).
    apply bind_inv in H as ([] & m3 & _ & H).
    apply bind_inv in H as (cp & m4 & _ & H).
    apply bind_inv in H as ([] & m5 & _ & H).
    apply bind_inv in H as (new_cfg & m6 & Hmig & H).
    unfold lift in Hmig.
    destruct (Migration.migrate (config m)) as [new_cfg'|e] eqn:Hm; [|discriminate].
    injection Hmig as <- <-.
    apply bind_inv in H as ([] & m7 & [= <-] & H).
    assert (Hv : Dict.lookup "_version" new_cfg' = Some (VStr CONFIG_FILE_VERSION)).
    { apply (migrate_entries_keeps_version _ _ _ _ Hm). reflexivity. }
    destruct (config_path_set cp).
    - apply commit_keeps_config in H. now rewrite H.
    - now injection H as <-. }
  destruct Hcases as [->|Hv]; [exact Hrun|].
  unfold _update_config_file_version, bind, get_config, lift, Dict.get_default.
  rewrite Hv. reflexivity.
Qed.

End MigratorTwice.

(** * Further properties of the manager *)

(** ** The key codec, both ways *)

Lemma cut_none_contains (c : ascii) (s : string) :
  Str.cut c s = None <-> Str.contains (String c EmptyString) s = false.
Proof.
  induction s as [|a s IH]; simpl; [tauto|].
  rewrite (Ascii.eqb_sym c a).
  destruct (Ascii.eqb a c); simpl.
  - split; discriminate.
  - destruct (Str.cut c s) as [[l r]|].
    + split; [discriminate|]. intros H. apply IH in H. discriminate.
    + split; [|reflexivity]. intros _. now apply IH.
Qed.

Lemma decode_encoded_key (n : string) (t : SDModelType) :
  parse_key (create_key n t) = Ok (n, t).
Proof.
  unfold parse_key, create_key, Str.split1.
  change ("/" +:+ n) with (String slash n).
  rewrite (cut_app_sep slash _ n (SDModelType_value_no_slash t)).
  now rewrite SDModelType_of_value_value.
Qed.

(** X1: the key codec is a bijection between the pairs of a name and a
    type and the keys that decode: a key decodes to a pair exactly when it
    is the encoding of that pair, so two pairs with the same key are the
    same pair. *)
Theorem key_codec_inverse (key model_name : string) (model_type : SDModelType) :
  (parse_key key = Ok (model_name, model_type)
   <-> create_key model_name model_type = key)
  /\ (forall (other_name : string) (other_type : SDModelType),
        create_key model_name model_type = create_key other_name other_type
        <-> (model_name, model_type) = (other_name, other_type)).
Proof.
  split.
  - split; [apply create_key_parse_key|]. intros <-. apply decode_encoded_key.
  - intros n' t'. split; [|now intros [= <- <-]].
    intros Heq. pose proof (decode_encoded_key model_name model_type) as H.
    rewrite Heq, decode_encoded_key in H. now injection H as <- <-.
Qed.

(** X2: the two ways in which a key fails to decode.  A key without a
    slash raises the [ValueError] of the tuple assignment; a key whose part
    before the first slash is not the value of a model type raises a plain
    [Exception] that names that part. *)
Theorem parse_key_failures (key : string) :
  (Str.contains "/" key = false ->
   parse_key key
   = Raise (ValueError "not enough values to unpack (expected 2, got 1)"))
  /\ (forall prefix model_name : string,
        key = prefix +:+ "/" +:+ model_name ->
        Str.contains "/" prefix = false ->
        (forall t, SDModelType_value t <> prefix) ->
        parse_key key = Raise (Exception ("Unknown model type: " +:+ prefix))).
Proof.
  split.
  - intros Hc. apply (cut_none_contains slash) in Hc.
    unfold parse_key, Str.split1. now rewrite Hc.
  - intros prefix n -> Hp Hno. apply (cut_none_contains slash) in Hp.
    unfold parse_key, Str.split1.
    change ("/" +:+ n) with (String slash n).
    rewrite (cut_app_sep slash _ n Hp).
    destruct (SDModelType_of_value prefix) as [t|e] eqn:Ht; [|reflexivity].
    apply SDModelType_of_value_inv in Ht. now destruct (Hno t).
Qed.

Lemma parse_key_failures_witness :
  parse_key "_version"
  = Raise (ValueError "not enough values to unpack (expected 2, got 1)")
  /\ parse_key "codeformer/weights"
     = Raise (Exception "Unknown model type: codeformer").
Proof.
  split.
  - apply (proj1 (parse_key_failures "_version")). reflexivity.
  - apply (proj2 (parse_key_failures "codeformer/weights") "codeformer" "weights");
      [reflexivity | reflexivity | intros t; destruct t; discriminate].
Defined.

(** ** [model_names] *)

Lemma parse_stanza_keys_ok (cfg : DictConfig) :
  forall names,
    parse_stanza_keys cfg = Ok names ->
    List.map (fun p => create_key (fst p) (snd p)) names = stanza_keys cfg.
Proof.
  unfold stanza_keys, Dict.keys.
  induction cfg as [|[x v] cfg IH]; simpl; intros names Hp.
  - now injection Hp as <-.
  - destruct (is_DictConfig v); [|now apply IH].
    destruct (parse_key x) as [[n t]|] eqn:Hk; [|discriminate].
    destruct (parse_stanza_keys cfg) as [ps|]; [|discriminate].
    injection Hp as <-. simpl.
    now rewrite (create_key_parse_key x n t Hk), (IH ps eq_refl).
Qed.

Lemma parse_stanza_keys_raise (cfg : DictConfig) :
  forall e,
    parse_stanza_keys cfg = Raise e ->
    exists key, List.In key (stanza_keys cfg) /\ parse_key key = Raise e.
Proof.
  unfold stanza_keys, Dict.keys.
  induction cfg as [|[x v] cfg IH]; simpl; intros e Hp; [discriminate|].
  destruct (is_DictConfig v).
  - destruct (parse_key x) as [p|e'] eqn:Hk.
    + destruct (parse_stanza_keys cfg) as [ps|e'']; [discriminate|].
      injection Hp as ->. destruct (IH e eq_refl) as (key & Hin & Hkey).
      exists key. split; [now right|exact Hkey].
    + injection Hp as ->. exists x. split; [now left|exact Hk].
  - now apply IH.
Qed.

Lemma parse_stanza_keys_total (cfg : DictConfig) :
  (forall key, List.In key (stanza_keys cfg) ->
               exists n t, key = create_key n t) ->
  exists names, parse_stanza_keys cfg = Ok names.
Proof.
  intros Hall.
  destruct (parse_stanza_keys cfg) as [names|e] eqn:Hp; [now exists names|].
  apply parse_stanza_keys_raise in Hp as (key & Hin & Hkey).
  destruct (Hall key Hin) as (n & t & ->).
  rewrite decode_encoded_key in Hkey. discriminate.
Qed.

Section Names.

Context {D : Type} `{FS : FileSystem D} `{EXT : Collaborators D}.

(** X3: [model_names] reads the store and does not change the manager.
    When it returns, the names it gives, encoded again, are the keys of the
    descriptors in the order of the store (entries that are not mappings,
    such as the version tag, are passed over).  When it raises, the
    exception is that of a descriptor key that does not decode.  It returns
    whenever every descriptor key is the encoding of a name and a type. *)
Theorem model_names_decodes_stanza_keys (m : Manager D) :
  snd (model_names m) = m
  /\ (forall names,
        fst (model_names m) = Ok names ->
        List.map (fun p => create_key (fst p) (snd p)) names
        = stanza_keys (config m))
  /\ (forall e,
        fst (model_names m) = Raise e ->
        exists key, List.In key (stanza_keys (config m))
                    /\ parse_key key = Raise e)
  /\ ((forall key, List.In key (stanza_keys (config m)) ->
                   exists n t, key = create_key n t) ->
      exists names, fst (model_names m) = Ok names).
Proof.
  unfold model_names, bind, get_config, lift. simpl.
  repeat split.
  - apply parse_stanza_keys_ok.
  - apply parse_stanza_keys_raise.
  - apply parse_stanza_keys_total.
Qed.

End Names.

Lemma model_names_decodes_stanza_keys_witness :
  fst (model_names Examples.two_defaults)
  = Ok [("a", Diffusers); ("b", Diffusers); ("c", Lora)]
  /\ List.map (fun p => create_key (fst p) (snd p))
       [("a", Diffusers); ("b", Diffusers); ("c", Lora)]
     = stanza_keys (config Examples.two_defaults).
Proof.
  split; [reflexivity|].
  apply (proj1 (proj2 (model_names_decodes_stanza_keys Examples.two_defaults))).
  reflexivity.
Defined.

(** ** The default model *)

Lemma find_unique {A} (f : A -> bool) (x : A) (l : list A) :
  List.In x l -> f x = true ->
  (forall y, List.In y l -> f y = true -> y = x) ->
  List.find f l = Some x.
Proof.
  induction l as [|a l IH]; simpl; intros Hin Hx Hall; [destruct Hin|].
  destruct (f a) eqn:Ha.
  - f_equal. apply Hall; auto.
  - destruct Hin as [->|Hin]; [congruence|]. apply IH; auto.
Qed.

Lemma find_none_all {A} (f : A -> bool) (l : list A) :
  (forall y, List.In y l -> f y = false) -> List.find f l = None.
Proof.
  induction l as [|a l IH]; simpl; intros Hall; [reflexivity|].
  rewrite (Hall a) by now left. apply IH. auto.
Qed.

Lemma Dict_keys_set_mem (k : string) (v : value) (cfg : DictConfig) :
  List.In k (Dict.keys cfg) -> Dict.keys (Dict.set k v cfg) = Dict.keys cfg.
Proof.
  induction cfg as [|[x w] cfg IH]; simpl; intros Hin; [destruct Hin|].
  destruct (String.eqb_spec x k) as [->|Hne]; [reflexivity|].
  simpl. f_equal. apply IH. destruct Hin as [Heq|Hin]; [congruence|exact Hin].
Qed.

Lemma parse_stanza_keys_map_clear_default (cfg : DictConfig) :
  parse_stanza_keys (List.map clear_default cfg) = parse_stanza_keys cfg.
Proof.
  induction cfg as [|[x v] cfg IH]; simpl; [reflexivity|].
  destruct v; simpl; rewrite IH; reflexivity.
Qed.

Lemma parse_stanza_keys_set_stanza (k : string) (d d' : DictConfig)
    (cfg : DictConfig) :
  Dict.lookup k cfg = Some (VDict d) ->
  parse_stanza_keys (Dict.set k (VDict d') cfg) = parse_stanza_keys cfg.
Proof.
  induction cfg as [|[x v] cfg IH]; simpl; intros Hl; [discriminate|].
  destruct (String.eqb_spec x k) as [->|Hne].
  - injection Hl as ->. reflexivity.
  - simpl. now rewrite (IH Hl).
Qed.

Lemma default_keys_set_flagged (k : string) (v : value) (cfg : DictConfig) :
  default_keys cfg = [] -> List.In k (Dict.keys cfg) -> is_default v = true ->
  default_keys (Dict.set k v cfg) = [k].
Proof.
  unfold default_keys.
  induction cfg as [|[x w] cfg IH]; simpl; intros Hd Hin Hv; [destruct Hin|].
  destruct (is_default w) eqn:Hw; [discriminate|].
  destruct (String.eqb_spec x k) as [->|Hne]; simpl.
  - rewrite Hv. simpl. now rewrite Hd.
  - rewrite Hw. apply IH; auto. destruct Hin as [Heq|Hin]; [congruence|exact Hin].
Qed.

Lemma default_keys_nil_not_default (k : string) (v : value) (cfg : DictConfig) :
  default_keys cfg = [] -> List.In (k, v) cfg -> is_default v = false.
Proof.
  unfold default_keys.
  induction cfg as [|[x w] cfg IH]; simpl; intros Hd Hin; [destruct Hin|].
  destruct (is_default w) eqn:Hw; [discriminate|].
  destruct Hin as [[= <- <-]|Hin]; [exact Hw|now apply IH].
Qed.

Section DefaultModel.

Context {D : Type} `{FS : FileSystem D} `{EXT : Collaborators D}.

(** The loop of [default_model] on a list of models that are all
    descriptors of the store. *)
Lemma first_default_run (names : list (string * SDModelType)) (m : Manager D) :
  (forall p, List.In p names ->
             exists d, Dict.lookup (create_key (fst p) (snd p)) (config m)
                       = Some (VDict d)) ->
  first_default names m = (Ok (List.find (flagged (config m)) names), m).
Proof.
  induction names as [|[n t] names IH]; intros Hall; [reflexivity|].
  destruct (Hall (n, t) (or_introl eq_refl)) as [d Hd]. cbn [fst snd] in Hd.
  cbn [first_default List.find]. unfold stanza_at, get_config, ret.
  unfold bind. rewrite Hd. unfold flagged at 1. cbn [fst snd]. rewrite Hd. cbn [is_default].
  destruct (truthy (Dict.get "default" d)); [reflexivity|].
  apply IH. intros p Hp. apply Hall. now right.
Qed.

Lemma names_are_stanzas (cfg : DictConfig) names :
  List.NoDup (Dict.keys cfg) ->
  parse_stanza_keys cfg = Ok names ->
  forall p, List.In p names ->
            exists d, List.In (create_key (fst p) (snd p), VDict d) cfg
                      /\ Dict.lookup (create_key (fst p) (snd p)) cfg
                         = Some (VDict d).
Proof.
  intros Hnd Hp p Hin.
  destruct (parse_stanza_keys_in cfg names p Hp Hin) as [d Hd].
  exists d. split; [exact Hd|]. now apply Dict_in_lookup.
Qed.

(** X4: what [set_default_model] does to the flag.  For a model that is
    not in the store the assertion fails and the manager is left as it was.
    For a model that is in the store, the loop variables shadow the
    parameters: the call returns, exactly one descriptor then carries the
    flag, and it is the last descriptor of the store, which [default_model]
    then returns, whatever model was named. *)
Theorem set_default_model_marks_last_descriptor
    (m : Manager D) (model_name : string) (model_type : SDModelType) :
  (Dict.mem (create_key model_name model_type) (config m) = false ->
   set_default_model model_name model_type m
   = (Raise (AssertionError ("unknown model '" +:+ model_name +:+ "'")), m))
  /\ (forall d names,
        List.NoDup (Dict.keys (config m)) ->
        Dict.lookup (create_key model_name model_type) (config m)
        = Some (VDict d) ->
        parse_stanza_keys (config m) = Ok names ->
        let final := List.last names (model_name, model_type) in
        exists m',
          set_default_model model_name model_type m = (Ok tt, m')
          /\ default_keys (config m') = [create_key (fst final) (snd final)]
          /\ default_model m' = (Ok (DefaultPair (fst final) (snd final)), m')).
Proof.
  split.
  { intros Hm.
    unfold set_default_model, model_exists, bind, get_config, ret, raise.
    now rewrite Hm. }
  intros d names Hnd Hl Hp final.
  assert (Hmem : Dict.mem (create_key model_name model_type) (config m) = true).
  { unfold Dict.mem. now rewrite Hl. }
  assert (Hne : names <> []) by exact (parse_stanza_keys_nonempty _ _ _ _ Hl Hp).
  assert (Hfin : List.In final names) by now apply last_in.
  destruct (names_are_stanzas _ _ Hnd Hp final Hfin) as (df & Hindf & Hldf).
  set (k := create_key (fst final) (snd final)) in *.
  set (cleared := List.map clear_default (config m)).
  assert (Hlc : Dict.lookup k cleared = Some (VDict (Dict.remove "default" df))).
  { unfold cleared. rewrite Dict_lookup_map_clear_default, Hldf. reflexivity. }
  set (new := Dict.set "default" (VBool true) (Dict.remove "default" df)).
  set (cfg' := Dict.set k (VDict new) cleared).
  exists (with_config cfg' m).
  assert (Hrun : set_default_model model_name model_type m
                 = (Ok tt, with_config cfg' m)).
  { rewrite (set_default_model_run m model_name model_type names Hnd Hmem Hp).
    cbv zeta. fold final. fold k.
    unfold stanza_set, bind, get_config, put_config.
    change (config (with_config (List.map clear_default (config m)) m))
      with cleared.
    rewrite Hlc. reflexivity. }
  assert (Hnew : is_default (VDict new) = true).
  { unfold new, is_default, Dict.get. rewrite Dict_lookup_set.
    now rewrite String.eqb_refl. }
  assert (Hkin : List.In k (Dict.keys cleared)).
  { unfold cleared. rewrite keys_map_clear_default.
    apply Dict_mem_keys. unfold Dict.mem. now rewrite Hldf. }
  split; [exact Hrun|]. split.
  { change (config (with_config cfg' m)) with cfg'. unfold cfg'.
    apply default_keys_set_flagged; auto.
    apply default_keys_map_clear_default. }
  assert (Hp' : parse_stanza_keys cfg' = Ok names).
  { unfold cfg'. rewrite (parse_stanza_keys_set_stanza _ _ _ _ Hlc).
    unfold cleared. now rewrite parse_stanza_keys_map_clear_default. }
  assert (Hnd' : List.NoDup (Dict.keys cfg')).
  { unfold cfg'. rewrite (Dict_keys_set_mem _ _ _ Hkin).
    unfold cleared. now rewrite keys_map_clear_default. }
  unfold default_model, model_names, get_config, lift. unfold bind.
  change (config (with_config cfg' m)) with cfg'. rewrite Hp'.
  rewrite first_default_run; cycle 1.
  { intros p Hin.
    destruct (names_are_stanzas _ _ Hnd' Hp' p Hin) as (dp & _ & Hdp).
    now exists dp. }
  change (config (with_config cfg' m)) with cfg'.
  rewrite (find_unique (flagged cfg') final names Hfin).
  - now destruct final.
  - unfold flagged. fold k. unfold cfg'. rewrite Dict_lookup_set.
    rewrite String.eqb_refl. exact Hnew.
  - intros y Hy Hflag. unfold flagged, cfg' in Hflag.
    rewrite Dict_lookup_set in Hflag.
    destruct (String.eqb_spec k (create_key (fst y) (snd y))) as [Heq|Hneq].
    + unfold k in Heq. destruct y as [ny ty], final as [nf tf]. simpl in Heq.
      pose proof (decode_encoded_key nf tf) as H1.
      rewrite Heq, decode_encoded_key in H1. now injection H1 as -> ->.
    + unfold cleared in Hflag. rewrite Dict_lookup_map_clear_default in Hflag.
      destruct (Dict.lookup (create_key (fst y) (snd y)) (config m)) as [v|];
        simpl in Hflag; [|discriminate].
      now rewrite clear_default_not_default in Hflag.
Qed.

(** X5: [default_model] on a store in which no descriptor carries the
    flag.  It does not return [None]: it returns the bare name of the first
    model of the store, without its type, and on a store that has no
    descriptor at all it raises [IndexError].  The manager is not
    changed. *)
Theorem default_model_without_flag (m : Manager D) names :
  List.NoDup (Dict.keys (config m)) ->
  parse_stanza_keys (config m) = Ok names ->
  default_keys (config m) = [] ->
  default_model m
  = (match names with
     | (model_name, _) :: _ => Ok (DefaultName model_name)
     | [] => Raise IndexError
     end, m).
Proof.
  intros Hnd Hp Hd.
  unfold default_model, model_names, get_config, lift. unfold bind. rewrite Hp.
  rewrite first_default_run; cycle 1.
  { intros p Hin.
    destruct (names_are_stanzas _ _ Hnd Hp p Hin) as (dp & _ & Hdp).
    now exists dp. }
  rewrite find_none_all; cycle 1.
  { intros y Hy. unfold flagged.
    destruct (names_are_stanzas _ _ Hnd Hp y Hy) as (dy & Hin & ->).
    exact (default_keys_nil_not_default _ _ _ Hd Hin). }
  rewrite Hp. now destruct names as [|[n t] rest].
Qed.

End DefaultModel.

Lemma set_default_model_marks_last_descriptor_witness :
  exists m',
    set_default_model "a" Diffusers Examples.two_defaults = (Ok tt, m')
    /\ default_keys (config m') = ["lora/c"]
    /\ default_model m' = (Ok (DefaultPair "c" Lora), m').
Proof.
  assert (Hnd : List.NoDup (Dict.keys (config Examples.two_defaults))).
  { repeat constructor; simpl; intuition discriminate. }
  exact (proj2 (set_default_model_marks_last_descriptor
                  Examples.two_defaults "a" Diffusers)
           [("path", VStr "a"); ("default", VBool true)]
           [("a", Diffusers); ("b", Diffusers); ("c", Lora)]
           Hnd eq_refl eq_refl).
Defined.

Lemma default_model_without_flag_witness :
  default_model Examples.checkpoint_manager
  = (Ok (DefaultName "foo"), Examples.checkpoint_manager)
  /\ default_model Examples.fresh_manager
     = (Raise IndexError, Examples.fresh_manager).
Proof.
  split.
  - assert (Hnd : List.NoDup (Dict.keys (config Examples.checkpoint_manager))).
    { repeat constructor; simpl; intuition discriminate. }
    exact (default_model_without_flag Examples.checkpoint_manager
             [("foo", Diffusers); ("bar", Diffusers)] Hnd eq_refl eq_refl).
  - assert (Hnd : List.NoDup (Dict.keys (config Examples.fresh_manager))).
    { repeat constructor; simpl; intuition discriminate. }
    exact (default_model_without_flag Examples.fresh_manager [] Hnd
             eq_refl eq_refl).
Defined.

(** ** What the importers do to the store *)

Create HintDb store discriminated.

Section StoreKept.

Context {D : Type} `{FS : FileSystem D} `{EXT : Collaborators D}.

Lemma keeps_store_ret {A} (a : A) : keeps_store (ret a : M D A).
Proof. intros m r m' [= _ <-]. reflexivity. Qed.

Lemma keeps_store_raise {A} (e : exn) : keeps_store (raise e : M D A).
Proof. intros m r m' [= _ <-]. reflexivity. Qed.

Lemma keeps_store_lift {A} (x : result A) : keeps_store (lift x : M D A).
Proof. intros m r m' [= _ <-]. reflexivity. Qed.

Lemma keeps_store_log (lvl : log_level) (msg : string) :
  keeps_store (log lvl msg : M D unit).
Proof. intros m r m' [= _ <-]. reflexivity. Qed.

Lemma keeps_store_get_config : keeps_store (get_config : M D DictConfig).
Proof. intros m r m' [= _ <-]. reflexivity. Qed.

Lemma keeps_store_get_disk : keeps_store (get_disk : M D D).
Proof. intros m r m' [= _ <-]. reflexivity. Qed.

Lemma keeps_store_get_config_path :
  keeps_store (get_config_path : M D (option string)).
Proof. intros m r m' [= _ <-]. reflexivity. Qed.

Lemma keeps_store_put_disk (d : D) : keeps_store (put_disk d : M D unit).
Proof. intros m r m' [= _ <-]. reflexivity. Qed.

Lemma keeps_store_record_conversion (c : ConvertCall AutoencoderKL) :
  keeps_store (record_conversion c : M D unit).
Proof. intros m r m' [= _ <-]. reflexivity. Qed.

Lemma keeps_store_on_disk {A} (f : D -> result A * D) :
  keeps_store (on_disk f).
Proof.
  intros m r m'. unfold on_disk. destruct (f (disk m)) as [x d].
  intros [= _ <-]. reflexivity.
Qed.

Lemma keeps_store_disk_op (f : D -> result D) : keeps_store (disk_op f).
Proof.
  intros m r m'. unfold disk_op. destruct (f (disk m)) as [d|e];
    intros [= _ <-]; reflexivity.
Qed.

Lemma keeps_store_bind {A B} (c : M D A) (k : A -> M D B) :
  keeps_store c -> (forall a, keeps_store (k a)) -> keeps_store (bind c k).
Proof.
  intros Hc Hk m r m'. unfold bind.
  destruct (c m) as [[a|e] m0] eqn:Hrun.
  - intros Hka. rewrite (Hk a _ _ _ Hka). exact (Hc _ _ _ Hrun).
  - intros [= _ <-]. exact (Hc _ _ _ Hrun).
Qed.

Lemma keeps_store_try_except {A} (c : M D A) (h : exn -> M D A) :
  keeps_store c -> (forall e, keeps_store (h e)) -> keeps_store (try_except c h).
Proof.
  intros Hc Hh m r m'. unfold try_except.
  destruct (c m) as [[a|e] m0] eqn:Hrun.
  - intros [= _ <-]. exact (Hc _ _ _ Hrun).
  - intros He. rewrite (Hh e _ _ _ He). exact (Hc _ _ _ Hrun).
Qed.

Lemma keeps_store_commit (conf_file : option string) :
  keeps_store (commit conf_file).
Proof. intros m r m' Hrun. exact (commit_keeps_config _ _ _ _ Hrun). Qed.

(** The first statement of [add_model] fails: the enumeration has no
    member [Fiffusers]. *)
Lemma add_model_run (m : Manager D) (model_name : string)
    (model_type : SDModelType) (model_attributes : DictConfig) (clobber : bool) :
  add_model model_name model_type model_attributes clobber m
  = (Raise (AttributeError "Fiffusers"), m).
Proof. reflexivity. Qed.

Lemma del_model_run (m : Manager D) (model_name : string)
    (model_type : SDModelType) (delete_files : bool) :
  del_model model_name model_type delete_files m
  = (Raise (AttributeError "'ModelManager' object has no attribute 'pop'"), m).
Proof. reflexivity. Qed.

Lemma keeps_store_add_model model_name model_type model_attributes clobber :
  keeps_store (add_model model_name model_type model_attributes clobber).
Proof. intros m r m'. rewrite add_model_run. intros [= _ <-]. reflexivity. Qed.

Lemma keeps_store_del_model model_name model_type delete_files :
  keeps_store (del_model model_name model_type delete_files).
Proof. intros m r m'. rewrite del_model_run. intros [= _ <-]. reflexivity. Qed.

End StoreKept.

#[export] Hint Resolve keeps_store_ret keeps_store_raise keeps_store_lift
  keeps_store_log keeps_store_get_config keeps_store_get_disk
  keeps_store_get_config_path keeps_store_put_disk
  keeps_store_record_conversion keeps_store_on_disk keeps_store_disk_op
  keeps_store_commit keeps_store_add_model keeps_store_del_model : store.

(** One step of a proof that a method keeps the store: through a sequence,
    a handler, or a test. *)
Ltac keeps_store_step :=
  match goal with
  | |- keeps_store (bind _ _) => apply keeps_store_bind; [|intros ?]
  | |- keeps_store (try_except _ _) => apply keeps_store_try_except; [|intros ?]
  | |- keeps_store (if ?b then _ else _) => destruct b
  | |- keeps_store (match ?x with _ => _ end) => destruct x
  | |- keeps_store _ => solve [auto with store]
  end.

Section ImportersKeepStore.

Context {D : Type} `{FS : FileSystem D} `{EXT : Collaborators D}.

Lemma keeps_store_model_exists model_name model_type :
  keeps_store (model_exists model_name model_type : M D bool).
Proof. unfold model_exists. repeat keeps_store_step. Qed.

Lemma keeps_store_self_getattr attr : keeps_store (self_getattr attr : M D unit).
Proof. unfold self_getattr. repeat keeps_store_step. Qed.

Lemma keeps_store_load_vae loc : keeps_store (load_vae loc).
Proof. unfold load_vae. auto with store. Qed.

Lemma keeps_store_find_vae_sibling suffixes weights :
  forall acc, keeps_store (find_vae_sibling suffixes weights acc : M D _).
Proof.
  induction suffixes as [|s rest IH]; intros acc; simpl; [auto with store|].
  repeat keeps_store_step; apply IH.
Qed.

Lemma keeps_store_resolve_path source dest_directory :
  keeps_store (_resolve_path source dest_directory).
Proof. unfold _resolve_path. repeat keeps_store_step. Qed.

Lemma keeps_store_import_diffuser_model repo_or_path model_name description
    vae commit_to_conf :
  keeps_store (import_diffuser_model repo_or_path model_name description vae
                 commit_to_conf).
Proof. unfold import_diffuser_model. repeat keeps_store_step. Qed.

Hint Resolve keeps_store_model_exists keeps_store_self_getattr
  keeps_store_load_vae keeps_store_find_vae_sibling keeps_store_resolve_path
  keeps_store_import_diffuser_model : store.

Lemma keeps_store_convert_and_register ckpt_path diffusers_path model_name
    model_description vae vae_path original_config_file commit_to_conf
    scan_needed :
  keeps_store (convert_and_register ckpt_path diffusers_path model_name
                 model_description vae vae_path original_config_file
                 commit_to_conf scan_needed).
Proof. unfold convert_and_register. repeat keeps_store_step. Qed.

Hint Resolve keeps_store_convert_and_register : store.

Lemma keeps_store_convert_and_import ckpt_path diffusers_path model_name
    model_description vae vae_path original_config_file commit_to_conf
    scan_needed :
  keeps_store (convert_and_import ckpt_path diffusers_path model_name
                 model_description vae vae_path original_config_file
                 commit_to_conf scan_needed).
Proof. unfold convert_and_import. repeat keeps_store_step. Qed.

Lemma keeps_store_config_for_legacy_type model_type thing :
  keeps_store (config_for_legacy_type model_type thing : M D _).
Proof. unfold config_for_legacy_type. repeat keeps_store_step. Qed.

Hint Resolve keeps_store_convert_and_import
  keeps_store_config_for_legacy_type : store.

Lemma keeps_store_import_checkpoint thing model_path model_name description
    model_config_file commit_to_conf config_file_callback :
  keeps_store (import_checkpoint thing model_path model_name description
                 model_config_file commit_to_conf config_file_callback).
Proof. unfold import_checkpoint. repeat keeps_store_step. Qed.

Lemma keeps_store_import_each (import1 : string -> M D (option string)) found :
  (forall thing, keeps_store (import1 thing)) ->
  forall model_name, keeps_store (import_each import1 found model_name).
Proof.
  intros Himp. induction found as [|p rest IH]; intros model_name; simpl;
    [auto with store|].
  repeat keeps_store_step; auto.
Qed.

Hint Resolve keeps_store_import_checkpoint keeps_store_import_each : store.

Lemma keeps_store_dispatch (recurse : string -> M D (option string)) thing
    model_name description commit_to_conf :
  (forall thing', keeps_store (recurse thing')) ->
  keeps_store (dispatch recurse thing model_name description commit_to_conf).
Proof. intros Hrec. unfold dispatch. repeat keeps_store_step. Qed.

Lemma keeps_store_heuristic_import (depth : nat) :
  forall thing model_name description model_config_file commit_to_conf
         config_file_callback,
    keeps_store (heuristic_import depth thing model_name description
                   model_config_file commit_to_conf config_file_callback).
Proof.
  induction depth as [|depth IH]; intros; simpl; [auto with store|].
  repeat keeps_store_step.
  apply keeps_store_dispatch. intros thing'. apply IH.
Qed.

(** X6: [add_model] registers nothing.  Its first statement reads
    [SDModelType.Fiffusers], which is not a member of the enumeration: every
    call raises [AttributeError] before the store is read, and so do
    [import_diffuser_model] and [import_lora], which call it first. *)
Theorem add_model_always_raises (m : Manager D) :
  (forall model_name model_type model_attributes clobber,
      add_model model_name model_type model_attributes clobber m
      = (Raise (AttributeError "Fiffusers"), m))
  /\ (forall repo_or_path model_name description vae commit_to_conf,
        import_diffuser_model repo_or_path model_name description vae
          commit_to_conf m
        = (Raise (AttributeError "Fiffusers"), m))
  /\ (forall path model_name description,
        import_lora path model_name description m
        = (Raise (AttributeError "Fiffusers"), m)).
Proof. repeat split. Qed.

(** X7: [heuristic_import] never changes the store.  Whatever it is given
    and whatever it returns or raises (a model name included), the store
    after the call is the store before it: every path that would register
    a model goes through [add_model]. *)
Theorem heuristic_import_keeps_store
    (m : Manager D) (depth : nat) (thing : string)
    (model_name description : option string) (model_config_file : option Path)
    (commit_to_conf : option string)
    (config_file_callback : option (Path -> option Path)) :
  config (snd (heuristic_import depth thing model_name description
                 model_config_file commit_to_conf config_file_callback m))
  = config m.
Proof.
  destruct (heuristic_import depth thing model_name description
              model_config_file commit_to_conf config_file_callback m)
    as [r m'] eqn:Hrun.
  exact (keeps_store_heuristic_import depth _ _ _ _ _ _ _ _ _ Hrun).
Qed.

End ImportersKeepStore.

Section ConvertAndImport.

Context {D : Type} `{FS : FileSystem D} `{EXT : Collaborators D}.

Lemma resolve_path_local (source dest_directory : string) (m : Manager D) :
  Str.startswith_any URL_PREFIXES source = false ->
  _resolve_path source dest_directory m
  = (Ok (Some (Pathlib.join_str (root_dir globals) source)), m).
Proof. intros H. unfold _resolve_path. now rewrite H. Qed.

(** X8: [convert_and_import] of a local checkpoint never raises and never
    registers a model.  When the target directory exists it returns nothing;
    otherwise it returns the model name, whether the conversion succeeded or
    failed (the handler swallows every exception, that of [add_model]
    included), and the store is the one it started with. *)
Theorem convert_and_import_reports_unregistered_model
    (m : Manager D) (ckpt_path diffusers_path : Path)
    (model_name model_description : option string) (vae : value)
    (vae_path : option string) (original_config_file : option Path)
    (commit_to_conf : option string) (scan_needed : bool) :
  Str.startswith_any URL_PREFIXES (Pathlib.to_string ckpt_path) = false ->
  (forall f, original_config_file = Some f ->
             Str.startswith_any URL_PREFIXES (Pathlib.to_string f) = false) ->
  let name :=
    if some_nonempty model_name then default "" model_name
    else Pathlib.name diffusers_path in
  exists m',
    convert_and_import ckpt_path diffusers_path model_name model_description
      vae vae_path original_config_file commit_to_conf scan_needed m
    = (Ok (if path_exists (disk m) diffusers_path then None else Some name), m')
    /\ config m' = config m.
Proof.
  intros Hck Hcfg name.
  destruct (convert_and_import ckpt_path diffusers_path model_name
              model_description vae vae_path original_config_file
              commit_to_conf scan_needed m) as [r m'] eqn:Hrun.
  exists m'. split; [|exact (keeps_store_convert_and_import _ _ _ _ _ _ _ _ _ _ _ _ Hrun)].
  f_equal. unfold convert_and_import in Hrun.
  rewrite (bind_ok _ _ _ _ _ (resolve_path_local _ _ m Hck)) in Hrun.
  assert (Hsecond : exists f',
             match original_config_file with
             | Some f => _resolve_path (Pathlib.to_string f) "configs/stable-diffusion"
             | None => ret None
             end m = (Ok f', m)).
  { destruct original_config_file as [f|]; [|now exists None].
    eexists. apply resolve_path_local. now apply Hcfg. }
  destruct Hsecond as [f' Hsecond].
  rewrite (bind_ok _ _ _ _ _ Hsecond) in Hrun.
  rewrite (bind_ok get_disk _ m (disk m) m eq_refl) in Hrun.
  destruct (path_exists (disk m) diffusers_path).
  - unfold bind, log, ret in Hrun. now injection Hrun as <- _.
  - unfold bind, try_except, log, ret in Hrun. cbv beta iota in Hrun.
    match type of Hrun with
    | context [convert_and_register ?a ?b ?c ?d ?e ?f ?g ?h ?i ?mm] =>
        destruct (convert_and_register a b c d e f g h i mm) as [[[]|err] m2]
    end; cbv beta iota in Hrun; now injection Hrun as <- _.
Qed.

End ConvertAndImport.

Lemma convert_and_import_reports_unregistered_model_witness :
  exists m',
    convert_and_import Examples.foo_weights
      (Pathlib.of_string "/invokeai/models/converted_ckpts/foo")
      None None VNone None None None true Examples.checkpoint_manager
    = (Ok (Some "foo"), m')
    /\ config m' = config Examples.checkpoint_manager.
Proof.
  assert (H1 : Str.startswith_any URL_PREFIXES
                 (Pathlib.to_string Examples.foo_weights) = false)
    by reflexivity.
  assert (H2 : forall f : Path, @None Path = Some f ->
                 Str.startswith_any URL_PREFIXES (Pathlib.to_string f) = false)
    by discriminate.
  exact (convert_and_import_reports_unregistered_model
           Examples.checkpoint_manager Examples.foo_weights
           (Pathlib.of_string "/invokeai/models/converted_ckpts/foo")
           None None VNone None None None true H1 H2).
Defined.

(** ** The probe, when it fails *)

(** X9: the only exception [probe_model_type] lets out is [IndexError],
    and it does so exactly when a tensor it reads has too few dimensions:
    the cross-attention tensor has none, or the checkpoint is not of the
    second family and the input convolution has fewer than two.  A missing
    tensor never raises: the handler turns [KeyError] into [UNKNOWN]. *)
Theorem probe_model_type_raises_only_IndexError (checkpoint : Checkpoint) :
  let sd := effective_state_dict checkpoint in
  match probe_model_type checkpoint with
  | Ok _ => True
  | Raise e => e = IndexError
  end
  /\ (probe_model_type checkpoint = Raise IndexError
      <-> sd !! attn2_key = Some []
          \/ ((sd !! attn2_key = None
               \/ exists t d, sd !! attn2_key = Some t /\ last t = Some d
                              /\ d <> 1024%Z)
              /\ exists t, sd !! conv_in_key = Some t /\ length t < 2)).
Proof.
  intros sd.
  destruct (sd !! attn2_key) as [t|] eqn:Ha.
  - destruct (last t) as [d|] eqn:Hl.
    + destruct (Z.eqb_spec d 1024) as [->|Hd].
      * rewrite (probe_v2 checkpoint t Ha Hl).
        split; [exact I|]. split; [discriminate|].
        intros [[= ->]|[[Hn|(t' & d' & [= <-] & Hl' & Hd')] _]];
          [discriminate|discriminate|congruence].
      * assert (Hnot : Some t = None
                       \/ exists t' d', Some t = Some t'
                                        /\ last t' = Some d' /\ d' <> 1024%Z).
        { right. now exists t, d. }
        assert (Hrun := probe_not_v2 checkpoint).
        fold sd in Hrun. rewrite Ha in Hrun. specialize (Hrun Hnot).
        rewrite Hrun. unfold getitem, dim_at.
        destruct (sd !! conv_in_key) as [c|] eqn:Hc; simpl.
        -- destruct c as [|c0 [|c1 c]]; simpl.
           ++ split; [reflexivity|]. split; [|reflexivity].
              intros _. right. split; [exact Hnot|]. exists []. split; [reflexivity|simpl; lia].
           ++ split; [reflexivity|]. split; [|reflexivity].
              intros _. right. split; [exact Hnot|]. exists [c0]. split; [reflexivity|simpl; lia].
           ++ destruct (c1 =? 9)%Z; [|destruct (c1 =? 4)%Z];
                (split; [exact I|]); (split; [discriminate|]);
                intros [[= ->]|[_ (t' & [= <-] & Hlen)]];
                try discriminate; simpl in Hlen; lia.
        -- split; [exact I|]. split; [discriminate|].
           intros [[= ->]|[_ (t' & [=] & _)]]. discriminate.
    + assert (Ht : t = []).
      { destruct t as [|a t]; [reflexivity|].
        exfalso. apply last_None in Hl. discriminate. }
      subst t. unfold probe_model_type. fold sd. rewrite Ha. simpl.
      split; [reflexivity|]. split; [now left|reflexivity].
  - assert (Hrun := probe_not_v2 checkpoint).
    fold sd in Hrun. rewrite Ha in Hrun. specialize (Hrun (or_introl eq_refl)).
    rewrite Hrun. unfold getitem, dim_at.
    destruct (sd !! conv_in_key) as [c|] eqn:Hc; simpl.
    + destruct c as [|c0 [|c1 c]]; simpl.
      * split; [reflexivity|]. split; [|reflexivity].
        intros _. right. split; [now left|]. exists []. split; [reflexivity|simpl; lia].
      * split; [reflexivity|]. split; [|reflexivity].
        intros _. right. split; [now left|]. exists [c0]. split; [reflexivity|simpl; lia].
      * destruct (c1 =? 9)%Z; [|destruct (c1 =? 4)%Z];
          (split; [exact I|]); (split; [discriminate|]);
          intros [[=]|[_ (t' & [= <-] & Hlen)]]; simpl in Hlen; lia.
    + split; [exact I|]. split; [discriminate|].
      intros [[=]|[_ (t' & [=] & _)]].
Qed.

(** ** The migrated document *)

Lemma update_config_file_version_idempotent_witness :
  exists m1,
    _update_config_file_version MoreExamples.legacy_manager = (Ok tt, m1)
    /\ Dict.lookup "_version" (config m1) = Some (VStr "3.0.0")
    /\ _update_config_file_version m1 = (Ok tt, m1).
Proof.
  set (run := _update_config_file_version MoreExamples.legacy_manager).
  assert (Hrun : run = (Ok tt, snd run)) by (vm_compute; reflexivity).
  exists (snd run). split; [exact Hrun|]. split; [vm_compute; reflexivity|].
  exact (update_config_file_version_idempotent
           MoreExamples.legacy_manager (snd run) Hrun).
Defined.

Lemma migrate_entries_mem_mono (old : DictConfig) :
  forall (acc new_cfg : DictConfig) (k : string),
    Migration.migrate_entries old acc = Ok new_cfg ->
    Dict.mem k acc = true -> Dict.mem k new_cfg = true.
Proof.
  induction old as [|[model_key st] old IH]; intros acc new_cfg k Hrun Hk;
    simpl in Hrun.
  - now injection Hrun as <-.
  - destruct st as [| b | z | s | st]; try (now apply (IH acc)).
    unfold rbind in Hrun.
    destruct (Migration.is_legacy_vae st) as [[|]|e];
      [now apply (IH acc)| |discriminate].
    destruct (Migration.migrate_stanza st) as [ns|e]; [|discriminate].
    apply (IH _ new_cfg k Hrun). unfold Dict.mem in *.
    rewrite Dict_lookup_set. now destruct (String.eqb _ k).
Qed.

Lemma migrate_entries_kept (old : DictConfig) :
  forall (acc new_cfg : DictConfig) (old_key : string) (old_stanza : DictConfig),
    Migration.migrate_entries old acc = Ok new_cfg ->
    List.In (old_key, VDict old_stanza) old ->
    Migration.is_legacy_vae old_stanza = Ok false ->
    Dict.mem (Migration.new_key_of old_key) new_cfg = true.
Proof.
  induction old as [|[model_key st] old IH];
    intros acc new_cfg old_key old_stanza Hrun Hin Hvae; [destruct Hin|].
  simpl in Hrun. destruct Hin as [[= -> ->]|Hin].
  - unfold rbind in Hrun. rewrite Hvae in Hrun.
    destruct (Migration.migrate_stanza old_stanza) as [ns|e]; [|discriminate].
    apply (migrate_entries_mem_mono _ _ _ _ Hrun).
    unfold Dict.mem. rewrite Dict_lookup_set. now rewrite String.eqb_refl.
  - destruct st as [| b | z | s | st]; try (now apply (IH acc _ _ _ Hrun Hin)).
    unfold rbind in Hrun.
    destruct (Migration.is_legacy_vae st) as [[|]|e];
      [now apply (IH acc _ _ _ Hrun Hin)| |discriminate].
    destruct (Migration.migrate_stanza st) as [ns|e]; [|discriminate].
    now apply (IH _ _ _ _ Hrun Hin).
Qed.

Lemma migrate_entries_source (old : DictConfig) :
  forall (acc new_cfg : DictConfig) (key : string) (v : value),
    Migration.migrate_entries old acc = Ok new_cfg ->
    List.In (key, v) new_cfg ->
    List.In (key, v) acc
    \/ exists old_key old_stanza,
         List.In (old_key, VDict old_stanza) old
         /\ key = Migration.new_key_of old_key
         /\ Migration.is_legacy_vae old_stanza = Ok false.
Proof.
  induction old as [|[model_key st] old IH];
    intros acc new_cfg key v Hrun Hin; simpl in Hrun.
  - injection Hrun as <-. now left.
  - assert (Hlift : forall acc',
               Migration.migrate_entries old acc' = Ok new_cfg ->
               List.In (key, v) acc' \/
               exists old_key old_stanza,
                 List.In (old_key, VDict old_stanza) ((model_key, st) :: old)
                 /\ key = Migration.new_key_of old_key
                 /\ Migration.is_legacy_vae old_stanza = Ok false).
    { intros acc' Hrun'. destruct (IH acc' new_cfg key v Hrun' Hin)
        as [?|(ok & os & Hi & ? & ?)]; [now left|].
      right. exists ok, os. repeat split; try assumption. now right. }
    destruct st as [| b | z | s | st]; try (now apply Hlift).
    unfold rbind in Hrun.
    destruct (Migration.is_legacy_vae st) as [[|]|e] eqn:Hvae;
      [now apply Hlift| |discriminate].
    destruct (Migration.migrate_stanza st) as [ns|e] eqn:Hst; [|discriminate].
    destruct (Hlift _ Hrun) as [Hacc|?]; [|now right].
    apply Dict_in_set in Hacc as [[= -> ->]|Hacc]; [|now left].
    right. exists model_key, st. repeat split; try assumption. now left.
Qed.

(** X11: the keys of a migrated document.  It carries the current version
    tag; every stanza of the old document that is not a legacy VAE has a
    stanza, under its own key when that holds a slash and under
    [diffusers/<key>] when it does not; and there is nothing else: every
    other key holds a slash and comes from such a stanza, so legacy VAEs
    and entries that are not mappings are dropped. *)
Theorem migrate_store_keys (old_cfg new_cfg : DictConfig) :
  Migration.migrate old_cfg = Ok new_cfg ->
  Dict.lookup "_version" new_cfg = Some (VStr CONFIG_FILE_VERSION)
  /\ (forall old_key old_stanza,
        List.In (old_key, VDict old_stanza) old_cfg ->
        Migration.is_legacy_vae old_stanza = Ok false ->
        Dict.mem (if Str.contains "/" old_key then old_key
                  else create_key old_key Diffusers) new_cfg = true)
  /\ (forall key v,
        List.In (key, v) new_cfg ->
        key = "_version"
        \/ (Str.contains "/" key = true
            /\ exists old_key old_stanza,
                 List.In (old_key, VDict old_stanza) old_cfg
                 /\ key = (if Str.contains "/" old_key then old_key
                           else create_key old_key Diffusers)
                 /\ Migration.is_legacy_vae old_stanza = Ok false)).
Proof.
  intros Hrun.
  assert (Hkey : forall k,
             Migration.new_key_of k
             = if Str.contains "/" k then k else create_key k Diffusers).
  { intros k. unfold Migration.new_key_of. now destruct (Str.contains "/" k). }
  split; [|split].
  - apply (migrate_entries_keeps_version _ _ _ _ Hrun). reflexivity.
  - intros old_key old_stanza Hin Hvae. rewrite <- Hkey.
    exact (migrate_entries_kept _ _ _ _ _ Hrun Hin Hvae).
  - intros key v Hin.
    destruct (migrate_entries_source _ _ _ _ _ Hrun Hin)
      as [[[= <- _]|[]]|(ok & os & Hi & -> & Hvae)]; [now left|].
    right. split; [apply new_key_of_has_slash|].
    exists ok, os. now rewrite <- Hkey.
Qed.

Lemma migrate_store_keys_witness :
  exists new_cfg,
    Migration.migrate Examples.legacy_store = Ok new_cfg
    /\ Dict.lookup "_version" new_cfg = Some (VStr "3.0.0")
    /\ Dict.mem "diffusers/test1" new_cfg = true.
Proof.
  exists [("_version", VStr "3.0.0");
          ("diffusers/test1", VDict Examples.legacy_stanza_migrated)].
  assert (Hrun : Migration.migrate Examples.legacy_store
                 = Ok [("_version", VStr "3.0.0");
                       ("diffusers/test1", VDict Examples.legacy_stanza_migrated)])
    by reflexivity.
  split; [exact Hrun|].
  destruct (migrate_store_keys _ _ Hrun) as (Hv & Hkept & _).
  split; [exact Hv|].
  apply (Hkept "test1" Examples.legacy_stanza); [now left|reflexivity].
Defined.

Section MigratorInMemory.

Context {D : Type} `{FS : FileSystem D} `{EXT : Collaborators D}.

(** X12: a manager made from a document object has no configuration path,
    and its migration is done in memory.  When the version tag is older
    than the current one (a missing tag counts as 1.0.0) and the document
    can be migrated, the call returns, the store is the migrated document,
    two warnings are logged, and the disk is not touched: nothing is
    renamed and nothing is written. *)
Theorem update_config_file_version_in_memory
    (m : Manager D) (new_cfg : DictConfig) :
  config_path_set (config_path m) = false ->
  older_than_current
    (Dict.get_default "_version" (VStr "1.0.0") (config m)) = true ->
  Migration.migrate (config m) = Ok new_cfg ->
  exists m',
    _update_config_file_version m = (Ok tt, m')
    /\ config m' = new_cfg
    /\ disk m' = disk m
    /\ config_path m' = config_path m
    /\ length (logged m') = length (logged m) + 2.
Proof.
  intros Hcp Hold Hmig.
  unfold older_than_current in Hold.
  destruct (Version.parse_value _) as [cur|] eqn:Hcur; [|discriminate].
  destruct (Version.parse CONFIG_FILE_VERSION) as [new|] eqn:Hnew; [|discriminate].
  eexists.
  unfold _update_config_file_version, get_config, get_config_path, lift.
  unfold bind. rewrite Hcur, Hnew, Hold. cbv beta iota.
  unfold log. cbv beta iota. cbn [config config_path disk logged].
  rewrite Hcp, Hmig. unfold ret, put_config. cbv beta iota.
  split; [reflexivity|]. cbn.
  repeat split. rewrite !length_app. simpl. lia.
Qed.

End MigratorInMemory.

Lemma update_config_file_version_in_memory_witness :
  exists m',
    _update_config_file_version MoreExamples.legacy_manager = (Ok tt, m')
    /\ config m' = [("_version", VStr "3.0.0");
                    ("diffusers/test1", VDict Examples.legacy_stanza_migrated)]
    /\ disk m' = Examples.installed_disk.
Proof.
  destruct (update_config_file_version_in_memory MoreExamples.legacy_manager
              [("_version", VStr "3.0.0");
               ("diffusers/test1", VDict Examples.legacy_stanza_migrated)]
              eq_refl eq_refl eq_refl) as (m' & Hrun & Hc & Hd & _).
  exists m'. auto.
Defined.

(** ** Pruning and scanning *)

Lemma remove_as_filter (k : string) (cfg : DictConfig) :
  Dict.remove k cfg
  = List.filter (fun kv => negb (String.eqb (fst kv) k)) cfg.
Proof.
  induction cfg as [|[x v] cfg IH]; simpl; [reflexivity|].
  destruct (String.eqb x k); simpl; now rewrite IH.
Qed.

Lemma remove_all_as_filter (ks : list string) :
  forall cfg : DictConfig,
    List.fold_left (fun c key => Dict.remove key c) ks cfg
    = List.filter (fun kv => negb (existsb (String.eqb (fst kv)) ks)) cfg.
Proof.
  induction ks as [|k ks IH]; intros cfg; simpl.
  - induction cfg as [|kv cfg IHc]; simpl; [reflexivity|]. now rewrite <- IHc.
  - rewrite IH, remove_as_filter.
    induction cfg as [|[x v] cfg IHc]; simpl; [reflexivity|].
    destruct (String.eqb x k); simpl; [exact IHc|].
    destruct (existsb (String.eqb x) ks); simpl; now rewrite IHc.
Qed.

(** Pruning a store from which the defunct descriptors have been taken
    out finds nothing to delete. *)
Lemma defunct_keys_filter (exists_ : Path -> bool) (root : Path)
    (keep : string * value -> bool) (cfg : DictConfig) :
  forall ks,
    Scan.defunct_keys exists_ root cfg = Ok ks ->
    (forall k v, List.In k ks -> keep (k, v) = false) ->
    Scan.defunct_keys exists_ root (List.filter keep cfg) = Ok [].
Proof.
  induction cfg as [|[key v] cfg IH]; intros ks Hrun Hdrop; [reflexivity|].
  simpl in Hrun. unfold rbind in Hrun.
  destruct (py_in "path" v) as [has|e] eqn:Hin; [|discriminate].
  destruct has.
  - destruct v as [| b | z | s | stanza]; try discriminate.
    destruct (join_value root (Dict.get "path" stanza)) as [path|e] eqn:Hj;
      [|discriminate].
    destruct (exists_ path) eqn:Hex.
    + simpl in Hrun. cbn [List.filter]. destruct (keep (key, VDict stanza)).
      * cbn [Scan.defunct_keys]. unfold rbind. rewrite Hin. cbn [negb].
        rewrite Hj, Hex. now apply (IH ks).
      * now apply (IH ks).
    + simpl in Hrun.
      destruct (Scan.defunct_keys exists_ root cfg) as [ks'|e]; [|discriminate].
      injection Hrun as <-. cbn [List.filter].
      rewrite (Hdrop key (VDict stanza)) by now left.
      apply (IH ks' eq_refl). intros k w Hk. apply Hdrop. now right.
  - simpl in Hrun. cbn [List.filter]. destruct (keep (key, v)).
    + cbn [Scan.defunct_keys]. unfold rbind. rewrite Hin. cbn [negb].
      now apply (IH ks).
    + now apply (IH ks).
Qed.

Lemma defunct_keys_after_removal (exists_ : Path -> bool) (root : Path)
    (cfg : DictConfig) (ks : list string) :
  Scan.defunct_keys exists_ root cfg = Ok ks ->
  Scan.defunct_keys exists_ root
    (List.fold_left (fun c key => Dict.remove key c) ks cfg) = Ok [].
Proof.
  intros Hrun. rewrite remove_all_as_filter.
  apply (defunct_keys_filter _ _ _ _ ks Hrun).
  intros k v Hin. cbn [fst].
  assert (Hex : existsb (String.eqb k) ks = true).
  { apply existsb_exists. exists k. split; [exact Hin|apply String.eqb_refl]. }
  now rewrite Hex.
Qed.

Section Pruning.

Context {D : Type} `{FS : FileSystem D} `{EXT : Collaborators D}.

(** X13: [_delete_defunct_models] is idempotent.  After a run that
    returned, every descriptor that declares a path has it on the disk, and
    a second run (on the same disk) returns without changing the manager:
    nothing is deleted and nothing is logged. *)
Theorem delete_defunct_models_idempotent (m m' : Manager D) :
  _delete_defunct_models m = (Ok tt, m') ->
  _delete_defunct_models m' = (Ok tt, m')
  /\ (forall key stanza p,
        List.In (key, VDict stanza) (config m') ->
        Dict.lookup "path" stanza = Some (VStr p) ->
        path_exists (disk m') (Pathlib.join_str (root_dir globals) p) = true).
Proof.
  intros Hrun.
  destruct (delete_defunct_models_run m m' Hrun) as (ks & Hks & Hc & Hd).
  assert (Hnone : Scan.defunct_keys (path_exists (disk m')) (root_dir globals)
                    (config m') = Ok []).
  { rewrite Hc, Hd. now apply defunct_keys_after_removal. }
  split.
  - unfold _delete_defunct_models, get_config, get_disk, lift. unfold bind.
    now rewrite Hnone.
  - intros key stanza p Hin Hp.
    destruct (path_exists (disk m') (Pathlib.join_str (root_dir globals) p))
      eqn:Hex; [reflexivity|].
    destruct (defunct_keys_complete _ _ _ [] key stanza p Hnone Hin Hp Hex).
Qed.

End Pruning.

Lemma delete_defunct_models_idempotent_witness :
  exists m',
    _delete_defunct_models MoreExamples.stale_manager = (Ok tt, m')
    /\ Dict.lookup "lora/foo" (config m') = None
    /\ _delete_defunct_models m' = (Ok tt, m').
Proof.
  set (run := _delete_defunct_models MoreExamples.stale_manager).
  assert (Hrun : run = (Ok tt, snd run)) by (vm_compute; reflexivity).
  exists (snd run). split; [exact Hrun|]. split; [vm_compute; reflexivity|].
  exact (proj1 (delete_defunct_models_idempotent
                  MoreExamples.stale_manager (snd run) Hrun)).
Defined.

Lemma index_not_member (x : string) (l : list string) :
  ~ List.In x l -> Str.index x l = None.
Proof.
  induction l as [|y l IH]; simpl; intros Hn; [reflexivity|].
  destruct (String.eqb_spec y x) as [->|Hne]; [destruct Hn; now left|].
  rewrite IH; [reflexivity|]. intros Hin. apply Hn. now right.
Qed.

Lemma split_pieces_no_sep (c : ascii) (s : string) :
  forall w, List.In w (Str.split c s) -> Str.cut c w = None.
Proof.
  induction s as [|a s IH]; simpl; intros w Hin.
  - destruct Hin as [<-|[]]. reflexivity.
  - destruct (Ascii.eqb a c) eqn:Hac.
    + destruct Hin as [<-|Hin]; [reflexivity|now apply IH].
    + destruct (Str.split c s) as [|w0 ws] eqn:Hs.
      * destruct Hin as [<-|[]]. simpl. now rewrite Hac.
      * destruct Hin as [<-|Hin].
        -- simpl. rewrite Hac. rewrite (IH w0) by now left. reflexivity.
        -- apply IH. now right.
Qed.

Lemma in_skipn {A} (n : nat) (l : list A) (x : A) :
  List.In x (List.skipn n l) -> List.In x l.
Proof.
  revert l; induction n as [|n IH]; intros l; simpl; [tauto|].
  destruct l as [|a l]; [tauto|]. intros H. right. now apply IH.
Qed.

(** The keys a scan assigns to: the type is a component of the walked
    path, and it is not [diffusers] unless the scan was asked for those. *)
Lemma directory_writes_keys (include_diffusers : bool)
    (t : string * list string * list string) (ws : list (string * value)) :
  Scan.directory_writes include_diffusers t = Ok ws ->
  forall k v, List.In (k, v) ws ->
    exists model_type x,
      k = model_type +:+ "/" +:+ x
      /\ Str.cut slash model_type = None
      /\ (include_diffusers = false -> model_type <> "diffusers")
      /\ is_DictConfig v = true.
Proof.
  destruct t as [[root dirs] files]. unfold Scan.directory_writes, rbind.
  unfold Scan.subpaths.
  destruct (Str.index "models" (Str.split slash root)) as [i|] eqn:Hi;
    [|discriminate].
  destruct (List.skipn (S i) (Str.split slash root)) as [|base [|model_type rest]]
    eqn:Hs; try (intros [= <-] k v []).
  assert (Hmt : Str.cut slash model_type = None).
  { apply (split_pieces_no_sep slash root). apply (in_skipn (S i)).
    rewrite Hs. right. now left. }
  destruct (String.eqb_spec model_type "diffusers") as [->|Hne]; simpl.
  - destruct include_diffusers; simpl; [|intros [= <-] k v []].
    intros [= <-] k v Hin. apply List.in_app_or in Hin as [Hin|Hin];
      apply List.in_map_iff in Hin as (x & [= <- <-] & _);
      eexists _, _; (split; [reflexivity|]); (split; [exact Hmt|]);
      (split; [discriminate|reflexivity]).
  - intros [= <-] k v Hin. apply List.in_app_or in Hin as [Hin|Hin];
      apply List.in_map_iff in Hin as (x & [= <- <-] & _);
      eexists _, _; (split; [reflexivity|]); (split; [exact Hmt|]);
      (split; [auto|reflexivity]).
Qed.

Lemma walk_writes_inv (include_diffusers : bool)
    (walk : list (string * list string * list string)) :
  forall writes kv,
    Scan.walk_writes include_diffusers walk = Ok writes ->
    List.In kv writes ->
    exists t ws, List.In t walk
                 /\ Scan.directory_writes include_diffusers t = Ok ws
                 /\ List.In kv ws.
Proof.
  induction walk as [|t walk IH]; simpl; intros writes kv Hrun Hin.
  - injection Hrun as <-. destruct Hin.
  - unfold rbind in Hrun.
    destruct (Scan.directory_writes include_diffusers t) as [ws|e] eqn:Hd;
      [|discriminate].
    destruct (Scan.walk_writes include_diffusers walk) as [ws'|e]; [|discriminate].
    injection Hrun as <-. apply List.in_app_or in Hin as [Hin|Hin].
    + exists t, ws. auto.
    + destruct (IH ws' kv eq_refl Hin) as (t' & ws0 & Ht & Hw & Hk).
      exists t', ws0. auto.
Qed.

Lemma apply_writes_untouched (ws : list (string * value)) (cfg : DictConfig)
    (k : string) :
  (forall v, ~ List.In (k, v) ws) ->
  Dict.lookup k (Scan.apply_writes ws cfg) = Dict.lookup k cfg.
Proof.
  intros Hno. rewrite apply_writes_lookup.
  destruct (Dict.lookup k (List.rev ws)) as [v|] eqn:Hl; [|reflexivity].
  apply Dict_lookup_in in Hl. apply List.in_rev in Hl. now destruct (Hno v).
Qed.

Section Scanning.

Context {D : Type} `{FS : FileSystem D} `{EXT : Collaborators D}.

Lemma for_each_app {A} (l1 l2 : list A) (body : A -> M D unit) (m : Manager D) :
  for_each (l1 ++ l2) body m
  = bind (for_each l1 body) (fun _ => for_each l2 body) m.
Proof.
  revert m; induction l1 as [|x l1 IH]; intros m; simpl; [reflexivity|].
  unfold bind. destruct (body x m) as [[[]|e] m0]; [|reflexivity].
  rewrite IH. reflexivity.
Qed.

(** X14: a scan of a tree that is not under a directory called [models]
    does not return.  At the first directory of the walk whose path has no
    component [models] the scan raises [ValueError], also when that
    directory is empty; the store is then the pruned store with the entries
    of the directories walked before it. *)
Theorem scan_models_directory_outside_models
    (m m0 : Manager D) (include_diffusers : bool)
    (before after : list (string * list string * list string))
    (root : string) (dirs files : list string)
    (writes : list (string * value)) :
  _delete_defunct_models m = (Ok tt, m0) ->
  os_walk (disk m) (Pathlib.to_string (models_path globals))
  = (before ++ (root, dirs, files) :: after)%list ->
  Scan.walk_writes include_diffusers before = Ok writes ->
  ~ List.In "models" (Str.split slash root) ->
  scan_models_directory include_diffusers m
  = (Raise (ValueError "'models' is not in list"),
     with_config (Scan.apply_writes writes (config m0)) m0).
Proof.
  intros Hprune Hwalk Hbefore Hroot.
  destruct (delete_defunct_models_run m m0 Hprune) as (ks & _ & _ & Hd).
  unfold scan_models_directory.
  rewrite (bind_ok _ _ _ _ _ Hprune).
  rewrite (bind_ok get_disk _ m0 (disk m0) m0 eq_refl).
  rewrite Hd, Hwalk, for_each_app.
  rewrite (bind_ok _ _ _ _ _ (scan_walk_returns _ _ _ _ Hbefore)).
  cbn [for_each]. unfold bind at 1. unfold scan_triple at 1.
  unfold lift, Scan.directory_writes, rbind, Scan.subpaths.
  rewrite (index_not_member _ _ Hroot). reflexivity.
Qed.

(** X15: a scan that was not asked for pipelines, as the one the manager
    runs when it is created, leaves every [diffusers/...] entry of the
    pruned store alone: it neither adds nor overwrites one, whatever the
    tree holds. *)
Theorem scan_models_directory_leaves_diffusers
    (m m' : Manager D) (model_name : string) :
  scan_models_directory false m = (Ok tt, m') ->
  exists m0,
    _delete_defunct_models m = (Ok tt, m0)
    /\ Dict.lookup (create_key model_name Diffusers) (config m')
       = Dict.lookup (create_key model_name Diffusers) (config m0).
Proof.
  intros Hrun. unfold scan_models_directory in Hrun.
  apply bind_inv in Hrun as ([] & m0 & Hprune & Hrun).
  apply bind_inv in Hrun as (d & m1 & [= <- <-] & Hrun).
  apply scan_walk_run in Hrun as (writes & Hw & ->).
  exists m0. split; [exact Hprune|].
  rewrite config_with_config. apply apply_writes_untouched.
  intros v Hin.
  destruct (walk_writes_inv _ _ _ _ Hw Hin) as (t & ws & _ & Hd & Hk).
  destruct (directory_writes_keys _ _ _ Hd _ _ Hk)
    as (mt & x & Heq & Hcut & Hne & _).
  apply (Hne eq_refl).
  unfold create_key in Heq. cbn [SDModelType_value] in Heq.
  change ("/" +:+ model_name) with (String slash model_name) in Heq.
  change ("/" +:+ x) with (String slash x) in Heq.
  pose proof (cut_app_sep slash "diffusers" model_name eq_refl) as H1.
  rewrite Heq, (cut_app_sep slash mt x Hcut) in H1. now injection H1 as -> _.
Qed.

End Scanning.

Lemma scan_models_directory_outside_models_witness :
  @scan_models_directory _ DiskTree.tree_fs MoreExamples.data_collaborators
    false MoreExamples.data_manager
  = (Raise (ValueError "'models' is not in list"), MoreExamples.data_manager).
Proof.
  assert (Hprune : @_delete_defunct_models _ DiskTree.tree_fs
                     MoreExamples.data_collaborators MoreExamples.data_manager
                   = (Ok tt, MoreExamples.data_manager)) by reflexivity.
  assert (Hroot : ~ List.In "models" (Str.split slash "/data/checkpoints")).
  { vm_compute. intuition discriminate. }
  exact (@scan_models_directory_outside_models _ DiskTree.tree_fs
           MoreExamples.data_collaborators
           MoreExamples.data_manager MoreExamples.data_manager false
           [] _ "/data/checkpoints" ["SD-1"] [] [] Hprune eq_refl eq_refl Hroot).
Defined.

Lemma scan_models_directory_leaves_diffusers_witness :
  exists m',
    scan_models_directory false MoreExamples.mixed_manager = (Ok tt, m')
    /\ Dict.mem "lora/foo" (config m') = true
    /\ Dict.lookup "diffusers/sd-1.5" (config m') = None.
Proof.
  set (run := scan_models_directory false MoreExamples.mixed_manager).
  assert (Hrun : run = (Ok tt, snd run)) by (vm_compute; reflexivity).
  exists (snd run). split; [exact Hrun|]. split; [vm_compute; reflexivity|].
  destruct (scan_models_directory_leaves_diffusers
              MoreExamples.mixed_manager (snd run) "sd-1.5" Hrun)
    as (m0 & Hprune & Heq).
  change (create_key "sd-1.5" Diffusers) with "diffusers/sd-1.5" in Heq.
  rewrite Heq.
  assert (Hm0 : m0 = MoreExamples.mixed_manager).
  { change (_delete_defunct_models MoreExamples.mixed_manager)
      with (@Ok unit tt, MoreExamples.mixed_manager) in Hprune.
    now injection Hprune as <-. }
  rewrite Hm0. reflexivity.
Defined.

(** ** The conversion cache is keyed by the file stem *)

Section StemCollision.

Context {D : Type} `{FS : FileSystem D} `{EXT : Collaborators D}.

(** A conversion that returns leaves its target on the disk, when the
    converter keeps its contract. *)
Lemma convert_ckpt_and_cache_leaves_target
    (m m1 : Manager D) (mconfig : DictConfig) (w c : string) (p : Path) :
  (forall call d d',
      convert_ckpt_to_diffusers call d = (Ok tt, d') ->
      path_exists d' (cv_dump_path call) = true) ->
  Dict.lookup "weights" mconfig = Some (VStr w) ->
  Dict.lookup "config" mconfig = Some (VStr c) ->
  convert_ckpt_and_cache mconfig m = (Ok p, m1) ->
  p = Pathlib.join_str (converted_ckpts_dir globals)
        (Pathlib.stem (Pathlib.join_str (root_dir globals) w))
  /\ path_exists (disk m1) p = true.
Proof.
  intros Hcontract Hw Hc.
  set (weights := Pathlib.join_str (root_dir globals) w).
  set (target := Pathlib.join_str (converted_ckpts_dir globals)
                   (Pathlib.stem weights)).
  destruct (path_exists (disk m) target) eqn:Hex.
  - rewrite (convert_ckpt_and_cache_hit m mconfig w c Hw Hc Hex).
    fold weights. fold target. intros [= <- <-]. auto.
  - intros Hrun.
    unfold convert_ckpt_and_cache, dc_getattr, bind, lift, get_disk,
      converted_path in Hrun.
    rewrite Hw, Hc in Hrun. simpl in Hrun. fold weights in Hrun.
    fold target in Hrun. rewrite Hex in Hrun.
    destruct (_get_vae_for_conversion _ mconfig m) as [[[vp vm]|e] m2] eqn:Hvae;
      [|discriminate].
    unfold record_conversion, on_disk, ret in Hrun. simpl in Hrun.
    match type of Hrun with
    | context [convert_ckpt_to_diffusers ?call ?d] =>
        destruct (convert_ckpt_to_diffusers call d) as [[[]|e] d'] eqn:Hconv;
        [apply Hcontract in Hconv; simpl in Hconv|discriminate]
    end.
    injection Hrun as <- <-. auto.
Qed.

(** X16: the conversion cache is keyed by the stem of the weights file
    alone.  Two descriptors whose weights files have the same stem share
    one converted directory: once the first has been converted, a call for
    the second returns the directory made for the first, with no call of
    the converter, whatever its weights, configuration and VAE are.  The
    converter is taken to keep its contract, as for the first. *)
Theorem convert_ckpt_and_cache_keyed_by_stem
    (m m1 : Manager D) (mconfig mconfig' : DictConfig) (w c w' c' : string)
    (p : Path) :
  (forall call d d',
      convert_ckpt_to_diffusers call d = (Ok tt, d') ->
      path_exists d' (cv_dump_path call) = true) ->
  Dict.lookup "weights" mconfig = Some (VStr w) ->
  Dict.lookup "config" mconfig = Some (VStr c) ->
  Dict.lookup "weights" mconfig' = Some (VStr w') ->
  Dict.lookup "config" mconfig' = Some (VStr c') ->
  Pathlib.stem (Pathlib.join_str (root_dir globals) w)
  = Pathlib.stem (Pathlib.join_str (root_dir globals) w') ->
  convert_ckpt_and_cache mconfig m = (Ok p, m1) ->
  convert_ckpt_and_cache mconfig' m1 = (Ok p, m1).
Proof.
  intros Hcontract Hw Hc Hw' Hc' Hstem Hrun.
  destruct (convert_ckpt_and_cache_leaves_target m m1 mconfig w c p
              Hcontract Hw Hc Hrun) as [-> Hex].
  rewrite Hstem in *.
  exact (convert_ckpt_and_cache_hit m1 mconfig' w' c' Hw' Hc' Hex).
Qed.

End StemCollision.

Lemma convert_ckpt_and_cache_keyed_by_stem_witness :
  let target := Pathlib.of_string "/invokeai/models/converted_ckpts/foo" in
  exists m1,
    convert_ckpt_and_cache Examples.foo_descriptor MoreExamples.twin_manager
    = (Ok target, m1)
    /\ convert_ckpt_and_cache MoreExamples.twin_descriptor m1 = (Ok target, m1)
    /\ length (converter_calls m1) = 1.
Proof.
  intros target.
  set (run := convert_ckpt_and_cache Examples.foo_descriptor
                MoreExamples.twin_manager).
  assert (Hrun : run = (Ok target, snd run)) by (vm_compute; reflexivity).
  exists (snd run). split; [exact Hrun|]. split; [|vm_compute; reflexivity].
  exact (convert_ckpt_and_cache_keyed_by_stem
           MoreExamples.twin_manager (snd run)
           Examples.foo_descriptor MoreExamples.twin_descriptor
           "models/ldm/foo.ckpt" "configs/stable-diffusion/v1-inference.yaml"
           "models/other/foo.ckpt" "configs/stable-diffusion/v2-inference.yaml"
           target example_converter_contract eq_refl eq_refl eq_refl eq_refl
           eq_refl Hrun).
Defined.

(** ** [heuristic_import] of something it cannot classify *)

Section UnknownThing.

Context {D : Type} `{FS : FileSystem D} `{EXT : Collaborators D}.


End UnknownThing.


(** ** The script [scan_models_directory.py] *)

Lemma script_dirs_loop_binds_nothing (root : string) (dirs : list string)
    (st : ScanScript.locals) :
  dirs = [] \/ (exists subs, Scan.subpaths root = Ok subs /\ length subs < 2) ->
  ScanScript.dirs_loop root dirs st = ScanScript.Done st.
Proof.
  intros [->|(subs & Hs & Hlen)]; [reflexivity|].
  induction dirs as [|d dirs IH]; simpl; [reflexivity|].
  rewrite Hs. destruct subs as [|b [|t subs]]; simpl in Hlen; try lia; exact IH.
Qed.

Lemma script_walk_loop_unbound
    (walk : list (string * list string * list string)) (c : DictConfig) :
  (forall root dirs files,
      List.In (root, dirs, files) walk ->
      dirs = [] \/ (exists subs, Scan.subpaths root = Ok subs /\ length subs < 2)) ->
  ScanScript.walk_loop walk {| ScanScript.conf := c;
                               ScanScript.base_model_type := None |}
  = if forallb (fun t => match snd t with [] => true | _ => false end) walk
    then ScanScript.Done {| ScanScript.conf := c;
                            ScanScript.base_model_type := None |}
    else ScanScript.Stopped (ScanScript.UnboundLocalError "model_type").
Proof.
  induction walk as [|[[root dirs] files] walk IH]; intros Hall; [reflexivity|].
  cbn [ScanScript.walk_loop].
  rewrite script_dirs_loop_binds_nothing by (apply (Hall root dirs files); now left).
  destruct files as [|f files]; cbn.
  - apply IH. intros r ds fs Hin. apply (Hall r ds fs). now right.
  - reflexivity.
Qed.

(** X18: the script reads [model_type] and [base] in its loop over files,
    but binds them only in its loop over subdirectories, and only for a
    directory two levels or more below [models].  On a tree in which no
    directory that has subdirectories lies that deep, and in which there is
    a file, the script stops with [UnboundLocalError] at the first file it
    meets and prints nothing.  The layout [models/<base>/<type>/<file>]
    that the manager scans is such a tree. *)
Theorem script_stops_at_first_file {D : Type} `{FS : FileSystem D}
    (d : D) (directory : string) :
  (forall root dirs files,
      List.In (root, dirs, files) (os_walk d directory) ->
      dirs = [] \/ (exists subs, Scan.subpaths root = Ok subs /\ length subs < 2)) ->
  (exists root dirs f files,
      List.In (root, dirs, f :: files) (os_walk d directory)) ->
  ScanScript.main d directory
  = ScanScript.Stopped (ScanScript.UnboundLocalError "model_type").
Proof.
  intros Hall (root & dirs & f & files & Hin).
  unfold ScanScript.main. rewrite (script_walk_loop_unbound _ _ Hall).
  destruct (forallb _ (os_walk d directory)) eqn:Hf; [|reflexivity].
  rewrite forallb_forall in Hf. specialize (Hf _ Hin). discriminate.
Qed.

Lemma script_stops_at_first_file_witness :
  ScanScript.main Examples.models_disk "/invokeai/models"
  = ScanScript.Stopped (ScanScript.UnboundLocalError "model_type").
Proof.
  apply (script_stops_at_first_file Examples.models_disk "/invokeai/models").
  - intros root dirs files Hin. vm_compute in Hin.
    destruct Hin as [[= <- <- <-]|[[= <- <- <-]|[[= <- <- <-]|[]]]].
    + right. exists []. split; [reflexivity|simpl; lia].
    + right. exists ["SD-1"]. split; [reflexivity|simpl; lia].
    + now left.
  - exists "/invokeai/models/SD-1/lora", [], "foo.safetensors", [].
    vm_compute. tauto.
Defined.

(** ** The reconciler and the key codec *)

Lemma parse_key_unknown_type (prefix model_name : string) :
  Str.cut slash prefix = None ->
  (forall t, SDModelType_value t <> prefix) ->
  parse_key (prefix +:+ "/" +:+ model_name)
  = Raise (Exception ("Unknown model type: " +:+ prefix)).
Proof.
  intros Hp Hno. unfold parse_key, Str.split1.
  change ("/" +:+ model_name) with (String slash model_name).
  rewrite (cut_app_sep slash _ model_name Hp).
  destruct (SDModelType_of_value prefix) as [t|e] eqn:Ht; [|reflexivity].
  apply SDModelType_of_value_inv in Ht. now destruct (Hno t).
Qed.

Lemma stanza_key_member (k : string) (v : value) (cfg : DictConfig) :
  List.In (k, v) cfg -> is_DictConfig v = true -> List.In k (stanza_keys cfg).
Proof.
  intros Hin Hv. unfold stanza_keys, Dict.keys.
  apply List.in_map_iff. exists (k, v). split; [reflexivity|].
  apply List.filter_In. auto.
Qed.

Section ScanThenNames.

Context {D : Type} `{FS : FileSystem D} `{EXT : Collaborators D}.

(** X19: the reconciler takes the type of an entry from the name of a
    directory, whatever that name is, and [model_names] decodes every
    descriptor key.  After a scan of a tree in which a directory two levels
    or more below [models] lies under a name that is no model type (as
    [models/support/codeformer] in the layout the source describes) and
    holds a file or a subdirectory, [model_names] raises. *)
Theorem scan_then_model_names_raises
    (m m' : Manager D) (include_diffusers : bool)
    (root : string) (dirs files : list string)
    (base type_name : string) (rest : list string) (x : string) :
  scan_models_directory include_diffusers m = (Ok tt, m') ->
  List.In (root, dirs, files)
    (os_walk (disk m) (Pathlib.to_string (models_path globals))) ->
  Scan.subpaths root = Ok (base :: type_name :: rest) ->
  (forall t, SDModelType_value t <> type_name) ->
  List.In x dirs \/ List.In x files ->
  exists e, model_names m' = (Raise e, m').
Proof.
  intros Hrun Hin Hsub Hno Hx. unfold scan_models_directory in Hrun.
  apply bind_inv in Hrun as ([] & m0 & Hprune & Hrun).
  destruct (delete_defunct_models_run m m0 Hprune) as (ks & _ & _ & Hd).
  apply bind_inv in Hrun as (d & m1 & [= <- <-] & Hrun).
  apply scan_walk_run in Hrun as (writes & Hw & ->).
  rewrite Hd in Hw.
  assert (Hne : String.eqb type_name "diffusers" = false).
  { apply String.eqb_neq. intros ->. now apply (Hno Diffusers). }
  assert (Hws : Scan.directory_writes include_diffusers (root, dirs, files)
                = Ok (List.map (Scan.dir_entry root type_name base) dirs
                      ++ List.map (Scan.file_entry root type_name base) files)%list).
  { unfold Scan.directory_writes, rbind. now rewrite Hsub, Hne. }
  assert (Hkey : exists y v,
             List.In (type_name +:+ "/" +:+ y, v) writes).
  { destruct Hx as [Hx|Hx].
    - exists x, (snd (Scan.dir_entry root type_name base x)).
      apply (walk_writes_in _ _ _ _ _ _ Hw Hin Hws).
      apply List.in_or_app. left.
      now apply (List.in_map (Scan.dir_entry root type_name base)).
    - exists (Pathlib.stem (Pathlib.of_string x)),
        (snd (Scan.file_entry root type_name base x)).
      apply (walk_writes_in _ _ _ _ _ _ Hw Hin Hws).
      apply List.in_or_app. right.
      now apply (List.in_map (Scan.file_entry root type_name base)). }
  destruct Hkey as (y & v & Hy).
  set (k := type_name +:+ "/" +:+ y) in *.
  assert (Hlook : exists v', Dict.lookup k (Scan.apply_writes writes (config m0))
                             = Some v' /\ List.In (k, v') writes).
  { rewrite apply_writes_lookup.
    destruct (Dict_in_lookup_some k v (List.rev writes)) as [v' Hv'];
      [now apply List.in_rev in Hy|].
    rewrite Hv'. exists v'. split; [reflexivity|].
    apply Dict_lookup_in in Hv'. now apply List.in_rev. }
  destruct Hlook as (v' & Hl & Hv').
  assert (Hdict : is_DictConfig v' = true).
  { destruct (walk_writes_inv _ _ _ _ Hw Hv') as (t & ws & _ & Ht & Hk).
    now destruct (directory_writes_keys _ _ _ Ht _ _ Hk) as (? & ? & _ & _ & _ & ?). }
  assert (Hcut : Str.cut slash type_name = None).
  { unfold Scan.subpaths in Hsub.
    destruct (Str.index "models" (Str.split slash root)) as [i|]; [|discriminate].
    injection Hsub as Hs.
    apply (split_pieces_no_sep slash root). apply (in_skipn (S i)).
    rewrite Hs. right. now left. }
  unfold model_names, get_config, lift. unfold bind.
  rewrite config_with_config.
  destruct (parse_stanza_keys (Scan.apply_writes writes (config m0)))
    as [names|e] eqn:Hp; [|now exists e].
  exfalso. apply parse_stanza_keys_ok in Hp.
  assert (Hmem : List.In k (List.map (fun p => create_key (fst p) (snd p)) names)).
  { rewrite Hp. apply (stanza_key_member k v'); [|exact Hdict].
    now apply Dict_lookup_in. }
  apply List.in_map_iff in Hmem as ([n t] & Heq & _). cbn [fst snd] in Heq.
  pose proof (parse_key_unknown_type type_name y Hcut Hno) as Hbad.
  fold k in Hbad. rewrite <- Heq, decode_encoded_key in Hbad. discriminate.
Qed.

End ScanThenNames.

Lemma scan_then_model_names_raises_witness :
  exists m',
    scan_models_directory false MoreExamples.support_manager = (Ok tt, m')
    /\ Dict.mem "codeformer/codeformer" (config m') = true
    /\ exists e, model_names m' = (Raise e, m').
Proof.
  set (run := scan_models_directory false MoreExamples.support_manager).
  assert (Hrun : run = (Ok tt, snd run)) by (vm_compute; reflexivity).
  exists (snd run). split; [exact Hrun|]. split; [vm_compute; reflexivity|].
  assert (Hin : List.In ("/invokeai/models/support/codeformer",
                         @nil string, ["codeformer.pth"])
                  (os_walk (disk MoreExamples.support_manager)
                     (Pathlib.to_string (models_path globals)))).
  { vm_compute. tauto. }
  assert (Hsub : Scan.subpaths "/invokeai/models/support/codeformer"
                 = Ok ["support"; "codeformer"]) by reflexivity.
  assert (Hno : forall t, SDModelType_value t <> "codeformer").
  { intros t. destruct t; discriminate. }
  exact (scan_then_model_names_raises
           MoreExamples.support_manager (snd run) false
           "/invokeai/models/support/codeformer" [] ["codeformer.pth"]
           "support" "codeformer" [] "codeformer.pth"
           Hrun Hin Hsub Hno (or_intror (or_introl eq_refl))).
Defined.

(** ** Legacy checkpoints, as the manager sees them *)

Section Legacy.

Context {D : Type} `{FS : FileSystem D} `{EXT : Collaborators D}.

(** X20: [is_legacy].  When checkpoints are converted automatically no
    model is legacy, a checkpoint descriptor included, and the store is not
    read.  Otherwise a descriptor with a [weights] string is legacy exactly
    when that string ends in [.ckpt] or [.safetensors], a descriptor
    without [weights] is not, and a model that is not in the store makes
    the call raise [TypeError]: the membership test is applied to the
    [None] that [model_info] returns.  The manager is never changed. *)
Theorem is_legacy_cases
    (m : Manager D) (model_name : string) (model_type : SDModelType) :
  let model_key := create_key model_name model_type in
  (ckpt_convert globals = true ->
   is_legacy model_name model_type m = (Ok false, m))
  /\ (ckpt_convert globals = false ->
      (Dict.lookup model_key (config m) = None ->
       is_legacy model_name model_type m
       = (Raise (TypeError "argument is not iterable"), m))
      /\ (forall stanza w,
            Dict.lookup model_key (config m) = Some (VDict stanza) ->
            Dict.lookup "weights" stanza = Some (VStr w) ->
            is_legacy model_name model_type m
            = (Ok (Str.endswith_any [".ckpt"; ".safetensors"] w), m))
      /\ (forall stanza,
            Dict.lookup model_key (config m) = Some (VDict stanza) ->
            Dict.lookup "weights" stanza = None ->
            is_legacy model_name model_type m = (Ok false, m))).
Proof.
  intros model_key. split.
  - intros Hc. unfold is_legacy. now rewrite Hc.
  - intros Hc. unfold is_legacy, model_info, model_exists, get_config, lift, ret.
    rewrite Hc. unfold bind. fold model_key. unfold Dict.mem.
    split; [|split].
    + intros Hl. rewrite Hl. reflexivity.
    + intros stanza w Hl Hw. rewrite Hl. cbn [negb]. rewrite Hl.
      unfold py_in, Dict.mem, Dict.get. rewrite Hw. reflexivity.
    + intros stanza Hl Hw. rewrite Hl. cbn [negb]. rewrite Hl.
      unfold py_in, Dict.mem. rewrite Hw. reflexivity.
Qed.

(** X21: [commit] changes nothing but the disk: the store, the
    configuration path, the log and the record of conversions are the same
    after it, whether it returns or raises.  With no file to write to, given
    or remembered, it fails its assertion before anything is written. *)
Theorem commit_touches_only_the_disk (m : Manager D) (conf_file : option string) :
  (let m' := snd (commit conf_file m) in
   config m' = config m /\ config_path m' = config_path m
   /\ logged m' = logged m /\ converter_calls m' = converter_calls m)
  /\ (or_else conf_file (config_path m) = None ->
      commit conf_file m
      = (Raise (AssertionError "no config file path to write to"), m)).
Proof.
  split.
  - unfold commit, get_config, get_config_path, disk_op, put_disk, raise.
    unfold bind. cbn [config_path].
    destruct (or_else conf_file (config_path m)) as [p|]; [|now cbn].
    destruct (write_text (disk m) _ _) as [d1|e]; [|now cbn].
    cbn [disk with_disk]. destruct (os_replace d1 _ _) as [d2|e]; now cbn.
  - intros Hp. unfold commit, get_config, get_config_path. unfold bind.
    now rewrite Hp.
Qed.

End Legacy.

Lemma is_legacy_cases_witness :
  is_legacy "foo" Diffusers Examples.checkpoint_manager
  = (Ok false, Examples.checkpoint_manager)
  /\ @is_legacy _ MoreExamples.data_collaborators "foo" Diffusers
       MoreExamples.data_manager
     = (Raise (TypeError "argument is not iterable"), MoreExamples.data_manager).
Proof.
  split.
  - apply (proj1 (is_legacy_cases Examples.checkpoint_manager "foo" Diffusers)).
    reflexivity.
  - apply (proj1 (proj2 (@is_legacy_cases _ MoreExamples.data_collaborators
                           MoreExamples.data_manager "foo" Diffusers)
                    eq_refl)).
    reflexivity.
Defined.

Lemma commit_touches_only_the_disk_witness :
  commit None Examples.checkpoint_manager
  = (Raise (AssertionError "no config file path to write to"),
     Examples.checkpoint_manager).
Proof.
  apply (proj2 (commit_touches_only_the_disk Examples.checkpoint_manager None)).
  reflexivity.
Defined.

(** ** Construction of a manager *)

Create HintDb disk discriminated.

Section DiskKept.

Context {D : Type} `{FS : FileSystem D} `{EXT : Collaborators D}.

Lemma keeps_disk_ret {A} (a : A) : keeps_disk (ret a : M D A).
Proof. intros m r m' [= _ <-]. reflexivity. Qed.

Lemma keeps_disk_raise {A} (e : exn) : keeps_disk (raise e : M D A).
Proof. intros m r m' [= _ <-]. reflexivity. Qed.

Lemma keeps_disk_lift {A} (x : result A) : keeps_disk (lift x : M D A).
Proof. intros m r m' [= _ <-]. reflexivity. Qed.

Lemma keeps_disk_log (lvl : log_level) (msg : string) :
  keeps_disk (log lvl msg : M D unit).
Proof. intros m r m' [= _ <-]. reflexivity. Qed.

Lemma keeps_disk_get_config : keeps_disk (get_config : M D DictConfig).
Proof. intros m r m' [= _ <-]. reflexivity. Qed.

Lemma keeps_disk_get_disk : keeps_disk (get_disk : M D D).
Proof. intros m r m' [= _ <-]. reflexivity. Qed.

Lemma keeps_disk_get_config_path :
  keeps_disk (get_config_path : M D (option string)).
Proof. intros m r m' [= _ <-]. reflexivity. Qed.

Lemma keeps_disk_put_config (c : DictConfig) :
  keeps_disk (put_config c : M D unit).
Proof. intros m r m' [= _ <-]. reflexivity. Qed.

Lemma keeps_disk_bind {A B} (c : M D A) (k : A -> M D B) :
  keeps_disk c -> (forall a, keeps_disk (k a)) -> keeps_disk (bind c k).
Proof.
  intros Hc Hk m r m'. unfold bind.
  destruct (c m) as [[a|e] m0] eqn:Hrun.
  - intros Hka. rewrite (Hk a _ _ _ Hka). exact (Hc _ _ _ Hrun).
  - intros [= _ <-]. exact (Hc _ _ _ Hrun).
Qed.

Lemma keeps_disk_for_each {A} (l : list A) (body : A -> M D unit) :
  (forall x, keeps_disk (body x)) -> keeps_disk (for_each l body).
Proof.
  intros Hb. induction l as [|x l IH]; simpl.
  - apply keeps_disk_ret.
  - apply keeps_disk_bind; [apply Hb|intros _; exact IH].
Qed.

End DiskKept.

#[export] Hint Resolve keeps_disk_ret keeps_disk_raise keeps_disk_lift
  keeps_disk_log keeps_disk_get_config keeps_disk_get_disk
  keeps_disk_get_config_path keeps_disk_put_config : disk.

Ltac keeps_disk_step :=
  match goal with
  | |- keeps_disk (bind _ _) => apply keeps_disk_bind; [|intros ?]
  | |- keeps_disk (for_each _ _) => apply keeps_disk_for_each; intros ?
  | |- keeps_disk (if ?b then _ else _) => destruct b
  | |- keeps_disk (match ?x with _ => _ end) => destruct x
  | |- keeps_disk _ => solve [auto with disk]
  end.

Lemma version_key_not_written (ws : list (string * value))
    (walk : list (string * list string * list string)) :
  Scan.walk_writes false walk = Ok ws ->
  forall v, ~ List.In ("_version", v) ws.
Proof.
  intros Hw v Hin.
  destruct (walk_writes_inv _ _ _ _ Hw Hin) as (t & ws' & _ & Hd & Hk).
  destruct (directory_writes_keys _ _ _ Hd _ _ Hk) as (mt & x & Heq & Hcut & _).
  change ("/" +:+ x) with (String slash x) in Heq.
  pose proof (cut_app_sep slash mt x Hcut) as H. rewrite <- Heq in H.
  discriminate.
Qed.

Section Construct.

Context {D : Type} `{FS : FileSystem D} `{EXT : Collaborators D}.

Lemma keeps_disk_scan_models_directory (include_diffusers : bool) :
  keeps_disk (scan_models_directory include_diffusers : M D unit).
Proof.
  unfold scan_models_directory, _delete_defunct_models, scan_triple,
    forget_model.
  repeat keeps_disk_step.
Qed.

(** The migrator on a manager that has no configuration path. *)
Lemma update_without_path (m : Manager D) :
  config_path_set (config_path m) = false ->
  forall r m',
    _update_config_file_version m = (r, m') ->
    disk m' = disk m
    /\ (r = Ok tt ->
        older_than_current
          (Dict.get_default "_version" (VStr "1.0.0") (config m')) = false
        /\ (List.NoDup (Dict.keys (config m)) ->
            forall st, ~ List.In ("_version", VDict st) (config m'))).
Proof.
  intros Hcp r m'.
  unfold _update_config_file_version, get_config, get_config_path, lift.
  unfold bind.
  destruct (Version.parse_value
              (Dict.get_default "_version" (VStr "1.0.0") (config m)))
    as [cur|e] eqn:Hcur; [|intros [= <- <-]; split; [reflexivity|discriminate]].
  destruct (Version.parse CONFIG_FILE_VERSION) as [new|e] eqn:Hnew;
    [|intros [= <- <-]; split; [reflexivity|discriminate]].
  destruct (Version.ltb cur new) eqn:Hlt.
  - unfold log. cbv beta iota. cbn [config config_path disk logged].
    rewrite Hcp. unfold ret. cbv beta iota.
    destruct (Migration.migrate (config m)) as [new_cfg|e] eqn:Hm;
      [|intros [= <- <-]; split; [reflexivity|discriminate]].
    unfold put_config. cbv beta iota. intros [= <- <-].
    split; [reflexivity|]. intros _. cbn [config with_config].
    split.
    + unfold Dict.get_default.
      rewrite (migrate_entries_keeps_version _ _ _ _ Hm eq_refl). reflexivity.
    + intros _ st Hin.
      destruct (migrate_entries_source _ _ _ _ _ Hm Hin)
        as [[[=]|[]]|(ok & os & _ & Hk & _)].
      pose proof (new_key_of_has_slash ok) as Hs. rewrite <- Hk in Hs.
      discriminate.
  - intros [= <- <-]. split; [reflexivity|]. intros _. split.
    + unfold older_than_current. now rewrite Hcur, Hnew.
    + intros Hnd st Hin. apply Dict_in_lookup in Hin; [|exact Hnd].
      unfold Dict.get_default in Hcur. rewrite Hin in Hcur. discriminate.
Qed.

(** A scan that is not asked for pipelines does not touch the version
    tag, when the tag is not a mapping. *)
Lemma scan_keeps_version_tag (m m' : Manager D) :
  (forall st, ~ List.In ("_version", VDict st) (config m)) ->
  scan_models_directory false m = (Ok tt, m') ->
  Dict.lookup "_version" (config m') = Dict.lookup "_version" (config m).
Proof.
  intros Htag Hrun. unfold scan_models_directory in Hrun.
  apply bind_inv in Hrun as ([] & m0 & Hprune & Hrun).
  apply bind_inv in Hrun as (d & m1 & [= <- <-] & Hrun).
  apply scan_walk_run in Hrun as (writes & Hw & ->).
  rewrite config_with_config.
  rewrite (apply_writes_untouched _ _ _ (version_key_not_written _ _ Hw)).
  destruct (delete_defunct_models_run m m0 Hprune) as (ks & Hks & -> & _).
  rewrite lookup_remove_all.
  destruct (existsb (String.eqb "_version") ks) eqn:Hex; [|reflexivity].
  apply existsb_exists in Hex as (k & Hin & Hk). apply String.eqb_eq in Hk.
  subst k. destruct (defunct_keys_sound _ _ _ _ _ Hks Hin) as (st & p & Hst & _).
  now destruct (Htag st).
Qed.

(** X22: a manager made from a document object.  The construction never
    touches the disk, whether it returns or raises and whatever the
    document and the tree are: the migration is done in memory and the scan
    only reads.  When it returns (for a document with distinct keys), the
    version tag of its store is not older than the schema of this code. *)
Theorem init_from_document_object
    (OmegaConf_load : string -> D -> result DictConfig)
    (document : DictConfig) (d : D) :
  let made := ModelManager_init OmegaConf_load (ConfigObject document) d in
  disk (snd made) = d
  /\ (List.NoDup (Dict.keys document) ->
      fst made = Ok tt ->
      older_than_current
        (Dict.get_default "_version" (VStr "1.0.0") (config (snd made)))
      = false).
Proof.
  cbv zeta. unfold ModelManager_init.
  set (m0 := {| config := document; config_path := None; disk := d;
                logged := []; converter_calls := [] |}).
  unfold bind.
  destruct (_update_config_file_version m0) as [[[]|e] m1] eqn:Hu.
  - destruct (update_without_path m0 eq_refl _ _ Hu) as (Hd1 & Hok).
    destruct (Hok eq_refl) as (Htag & Hsafe).
    destruct (scan_models_directory false m1) as [r m2] eqn:Hs.
    split.
    + cbn [snd]. rewrite (keeps_disk_scan_models_directory _ _ _ _ Hs).
      exact Hd1.
    + cbn [fst snd]. intros Hnd ->. unfold Dict.get_default.
      rewrite (scan_keeps_version_tag m1 m2 (Hsafe Hnd) Hs). exact Htag.
  - destruct (update_without_path m0 eq_refl _ _ Hu) as (Hd1 & _).
    split; [exact Hd1|]. discriminate.
Qed.

End Construct.

Lemma init_from_document_object_witness :
  let made := ModelManager_init (fun _ _ => Raise (ExternalError "no file"))
                (ConfigObject Examples.legacy_store) Examples.models_disk in
  fst made = Ok tt
  /\ disk (snd made) = Examples.models_disk
  /\ Dict.lookup "_version" (config (snd made)) = Some (VStr "3.0.0")
  /\ older_than_current
       (Dict.get_default "_version" (VStr "1.0.0") (config (snd made))) = false.
Proof.
  cbv zeta.
  set (made := ModelManager_init (fun _ _ => Raise (ExternalError "no file"))
                 (ConfigObject Examples.legacy_store) Examples.models_disk).
  assert (Hok : fst made = Ok tt) by (vm_compute; reflexivity).
  assert (Hnd : List.NoDup (Dict.keys Examples.legacy_store)).
  { repeat constructor. simpl. tauto. }
  destruct (init_from_document_object
              (fun _ _ => Raise (ExternalError "no file"))
              Examples.legacy_store Examples.models_disk) as (Hd & Htag).
  split; [exact Hok|]. split; [exact Hd|].
  split; [vm_compute; reflexivity|]. exact (Htag Hnd Hok).
Defined.
